(** * The metrics pipeline of the AIOps dashboard ([src/app.py])

    A shallow embedding of the fetch, parse, group, aggregate and refresh
    code of the dashboard, followed by the properties of it that the
    specification states.  Python values that come out of [response.json()]
    are modelled by the type [json]; exceptions by the error type [result];
    the calls that touch the outside world (HTTP requests, [time.sleep],
    [st.error], [st.warning]) by a state monad that records them in a trace. *)

From Stdlib Require Import ZArith List String Ascii Bool Arith Lia Floats.
Import ListNotations.

Local Open Scope string_scope.
Local Open Scope Z_scope.
Set Warnings "-register-all".

(** ** Python values and exceptions *)

(** The exception classes the code can meet.  All of them derive from
    [Exception], so every [except Exception] handler catches each of them.
    [InvalidURL] stands for the exceptions [requests] raises for a URL it
    cannot request ([InvalidURL], [InvalidSchema], [MissingSchema]). *)
Inductive exn : Type :=
| TypeError
| KeyError
| IndexError
| AttributeError
| ValueError
| OverflowError
| UnicodeEncodeError
| HTTPError (status : Z)
| JSONDecodeError
| ConnectionError
| RetryError
| TooManyRedirects
| InvalidURL.

Inductive result (A : Type) : Type :=
| Ok (a : A)
| Raise (e : exn).
Arguments Ok {A} a.
Arguments Raise {A} e.

Definition rbind {A B : Type} (c : result A) (k : A -> result B) : result B :=
  match c with
  | Ok a => k a
  | Raise e => Raise e
  end.

Declare Scope result_scope.
Delimit Scope result_scope with result.
Notation "x <- c ;; k" := (rbind c (fun x => k))
  (at level 61, c at next level, right associativity) : result_scope.

(** What [json.loads] produces: [None], [bool], [int], [float], [str],
    [list] and [dict] with string keys.  A [dict] is kept as the list of its
    bindings in insertion order; the decoder leaves one binding per key. *)
Inductive json : Type :=
| JNull
| JBool (b : bool)
| JInt (z : Z)
| JFloat (f : float)
| JStr (s : string)
| JArr (items : list json)
| JObj (fields : list (string * json)).

(** [datetime] values are naive local times; they are ordered like their
    number of microseconds since the epoch of the local clock. *)
Definition datetime : Type := Z.

Fixpoint dict_lookup {V : Type} (k : string) (d : list (string * V)) : option V :=
  match d with
  | [] => None
  | (k', v) :: rest => if String.eqb k k' then Some v else dict_lookup k rest
  end.

(** [needle in s] for two strings. *)
Fixpoint str_contains (needle s : string) : bool :=
  String.prefix needle s ||
  match s with
  | EmptyString => false
  | String _ s' => str_contains needle s'
  end.

(** A [str] is kept as the UTF-8 encoding of its code points (a lone
    surrogate as the three bytes that scheme gives it), so that a string
    literal of this file is the Python string of the same spelling.  In
    that encoding every byte from [0x80] to [0xBF] continues the code
    point that the nearest byte outside that range before it starts. *)
Definition continuation (c : ascii) : bool :=
  let n := nat_of_ascii c in ((128 <=? n) && (n <? 192))%nat.

(** The characters of a [str], as [for c in s] and [s[i]] see them: one
    string per code point. *)
Fixpoint str_chars (s : string) : list string :=
  match s with
  | EmptyString => []
  | String c s' =>
      match str_chars s' with
      | String d k :: rest =>
          if continuation d then String c (String d k) :: rest
          else String c EmptyString :: String d k :: rest
      | chars => String c EmptyString :: chars
      end
  end.

Definition is_str (k : string) (j : json) : bool :=
  match j with
  | JStr s => String.eqb s k
  | _ => false
  end.

(** [bool(x)], as used by [not x] and [if x]. *)
Definition truthy (j : json) : bool :=
  match j with
  | JNull => false
  | JBool b => b
  | JInt z => negb (z =? 0)
  | JFloat f => negb (f =? 0)%float
  | JStr s => negb (String.eqb s EmptyString)
  | JArr items => match items with [] => false | _ => true end
  | JObj fields => match fields with [] => false | _ => true end
  end.

(** [k in x] for a string [k]. *)
Definition py_in (k : string) (x : json) : result bool :=
  match x with
  | JObj fields => Ok (match dict_lookup k fields with Some _ => true | None => false end)
  | JArr items => Ok (existsb (is_str k) items)
  | JStr s => Ok (str_contains k s)
  | _ => Raise TypeError
  end.

(** [x[k]] for a string [k]. *)
Definition getitem (x : json) (k : string) : result json :=
  match x with
  | JObj fields =>
      match dict_lookup k fields with
      | Some v => Ok v
      | None => Raise KeyError
      end
  | _ => Raise TypeError
  end.

(** [x[i]] for a literal index [i >= 0]. *)
Definition getindex (x : json) (i : nat) : result json :=
  match x with
  | JArr items =>
      match nth_error items i with
      | Some v => Ok v
      | None => Raise IndexError
      end
  | JStr s =>
      match nth_error (str_chars s) i with
      | Some c => Ok (JStr c)
      | None => Raise IndexError
      end
  | JObj _ => Raise KeyError
  | _ => Raise TypeError
  end.

(** [x.get(k, default)]: only a [dict] has the method. *)
Definition py_get (x : json) (k : string) (default : json) : result json :=
  match x with
  | JObj fields =>
      Ok (match dict_lookup k fields with Some v => v | None => default end)
  | _ => Raise AttributeError
  end.

(** [for item in x]. *)
Definition py_iter (x : json) : result (list json) :=
  match x with
  | JArr items => Ok items
  | JObj fields => Ok (map (fun kv => JStr (fst kv)) fields)
  | JStr s => Ok (map JStr (str_chars s))
  | _ => Raise TypeError
  end.

(** One row of the [DataFrame] that [process_metric] builds: the keys of the
    dictionary appended to [records]. *)
Record Row : Type := mkRow {
  timestamp : datetime;
  value : float;
  metric : json;
  mode : string;
  device : string
}.

(** A [DataFrame] is the list of its rows, in index order; [pd.DataFrame()]
    is the frame with no rows. *)
Definition DataFrame : Type := list Row.

Definition empty (df : DataFrame) : bool :=
  match df with
  | [] => true
  | _ => false
  end.

(** What the code calls and the repository does not hold: the numeral
    parser behind [float(str)], the local-time conversion behind
    [datetime.fromtimestamp], [repr], and the column inference of the
    [DataFrame] constructor, which can refuse the records it is given:
    [frame_error records] is the exception [pd.DataFrame(records)] raises
    on a list of records that is not empty, [None] when it builds the
    frame.  (pandas raises [UnicodeEncodeError], for one, over a text
    column that holds a lone surrogate.) *)
Class Builtins : Type := {
  float_of_str : string -> result float;
  fromtimestamp_int : Z -> result datetime;
  fromtimestamp_float : float -> result datetime;
  py_repr : json -> string;
  frame_error : list Row -> option exn
}.

(** [float(n)] for an [int]: rounded to nearest even, [OverflowError] when
    the result is beyond the largest double. *)
Definition float_of_Z (z : Z) : float :=
  SF2Prim (binary_normalize prec emax z 0 false).

Definition float_of_int (z : Z) : result float :=
  let f := float_of_Z z in
  if is_infinity f then Raise OverflowError else Ok f.

Definition Z_of_bool (b : bool) : Z := if b then 1 else 0.

Section Conversions.
Context {B : Builtins}.

(** [float(x)] *)
Definition py_float (x : json) : result float :=
  match x with
  | JStr s => float_of_str s
  | JFloat f => Ok f
  | JInt z => float_of_int z
  | JBool b => float_of_int (Z_of_bool b)
  | _ => Raise TypeError
  end.

(** [datetime.fromtimestamp(x)] *)
Definition fromtimestamp (x : json) : result datetime :=
  match x with
  | JInt z => fromtimestamp_int z
  | JBool b => fromtimestamp_int (Z_of_bool b)
  | JFloat f => fromtimestamp_float f
  | _ => Raise TypeError
  end.

(** [str(x)] *)
Definition py_str (x : json) : string :=
  match x with
  | JStr s => s
  | _ => py_repr x
  end.
End Conversions.

(** ** [process_metric]: from a raw response to a frame of sample records *)

Section Parser.
Context {B : Builtins}.
Local Open Scope result_scope.

(** The condition of the first [if] of [process_metric],
    [not result or 'data' not in result or not result['data']['result']],
    with the short-circuit evaluation of [or]. *)
Definition no_result (res : json) : result bool :=
  if negb (truthy res) then Ok true
  else
    has_data <- py_in "data" res ;;
    if negb has_data then Ok true
    else
      data <- getitem res "data" ;;
      items <- getitem data "result" ;;
      Ok (negb (truthy items)).

(** The body of the [try] block: the record built from one result item. *)
Definition parse_item (item : json) : result Row :=
  metric_info <- py_get item "metric" (JObj []) ;;
  pair0 <- getitem item "value" ;;
  t <- getindex pair0 0 ;;
  ts <- fromtimestamp t ;;
  pair1 <- getitem item "value" ;;
  v <- getindex pair1 1 ;;
  val <- py_float v ;;
  m <- py_get metric_info "mode" (JStr "unknown") ;;
  d <- py_get metric_info "device" (JStr "unknown") ;;
  Ok {| timestamp := ts; value := val; metric := metric_info;
        mode := py_str m; device := py_str d |}.

(** The [for] loop: [records] grows by one row per item that parses; an
    item whose parsing raises is reported with [st.warning] (the second
    component collects those reports) and the loop goes on. *)
Fixpoint process_items (items : list json) (records : list Row)
    (warnings : list exn) : list Row * list exn :=
  match items with
  | [] => (records, warnings)
  | item :: rest =>
      match parse_item item with
      | Ok r => process_items rest (records ++ [r]) warnings
      | Raise e => process_items rest records (warnings ++ [e])
      end
  end.

(** [pd.DataFrame(records)]: one row per record, in order, unless the
    constructor raises; no exception for the empty list. *)
Definition pd_DataFrame (records : list Row) : result DataFrame :=
  match records with
  | [] => Ok []
  | _ :: _ =>
      match frame_error records with
      | Some e => Raise e
      | None => Ok records
      end
  end.

(** [process_metric(result)]: the frame it returns together with the
    warnings it emitted, or the exception that escapes it.  The last line,
    [return pd.DataFrame(records)], is outside the [try]: an exception of
    the constructor leaves the function. *)
Definition process_metric (res : json) : result (DataFrame * list exn) :=
  skip <- no_result res ;;
  if skip then Ok ([], [])
  else
    data <- getitem res "data" ;;
    coll <- getitem data "result" ;;
    items <- py_iter coll ;;
    let (records, warnings) := process_items items [] [] in
    df <- pd_DataFrame records ;;
    Ok (df, warnings).

(** The warnings [process_metric] emits, whether it then returns or
    raises: those of its loop when the loop is reached, none when the
    guard returns or raises or the iteration raises.  They are on the page
    before an exception of the constructor leaves the function. *)
Definition warned (res : json) : list exn :=
  match (data <- getitem res "data" ;;
         coll <- getitem data "result" ;;
         py_iter coll) with
  | Ok items => snd (process_items items [] [])
  | Raise _ => []
  end.
End Parser.

(** ** The statistics computed by [display_metrics] *)

Local Open Scope float_scope.

(** [Series.unique()] on a column of strings: first occurrences, in order. *)
Definition unique (l : list string) : list string :=
  fold_left
    (fun seen x => if existsb (String.eqb x) seen then seen else (seen ++ [x])%list)
    l [].

(** [Series.mean()] on the [value] column: NaN entries are masked to zero
    and left out of the count; an all-NaN or empty column has mean NaN.
    Summation runs from the first row to the last, the order in which
    numpy adds fewer than eight values; from eight values on numpy adds
    them in blocks, and the last bits of the sum may differ from the ones
    computed here. *)
Definition series_sum (vs : list float) : float :=
  fold_left (fun acc v => acc + (if is_nan v then 0 else v)) vs 0.

Definition series_count (vs : list float) : nat :=
  List.length (filter (fun v => negb (is_nan v)) vs).

Definition series_mean (vs : list float) : float :=
  match series_count vs with
  | O => nan
  | S _ => series_sum vs / float_of_Z (Z.of_nat (series_count vs))
  end.

Definition mean_value (df : DataFrame) : float := series_mean (map value df).

(** The last row, [df.iloc[-1]], of a frame that is not empty. *)
Definition iloc_last (df : DataFrame) : option Row :=
  match rev df with
  | [] => None
  | r :: _ => Some r
  end.

(** The expression inside every [delta=f"{...:.1f}%"]:
    [(current_value / mean - 1) * 100]. *)
Definition delta_pct (current_value mean : float) : float :=
  (current_value / mean - 1) * 100.

(** One [st.metric] of a per-device or per-mount loop: the group key, the
    value shown and the number formatted in [delta] (when it is one). *)
Record Card : Type := mkCard {
  card_key : string;
  card_value : float;
  card_delta : option float
}.

(** [df[df['device'] == device]] *)
Definition device_rows (df : DataFrame) (dev : string) : DataFrame :=
  filter (fun r => String.eqb (device r) dev) df.

(** The loop [for device in df['device'].unique(): ...] that the network
    and disk panels repeat.  [skip_loop] is the test
    [if 'loop' not in device] of the disk panels; [with_delta] tells the
    panels whose delta is the percentage from the panel of network errors,
    whose delta repeats the value. *)
Definition device_cards (skip_loop with_delta : bool) (df : DataFrame) : list Card :=
  flat_map
    (fun dev =>
       if skip_loop && str_contains "loop" dev then []
       else
         let device_data := device_rows df dev in
         match iloc_last device_data with
         | None => []
         | Some r =>
             let current_value := value r in
             [ {| card_key := dev;
                  card_value := current_value;
                  card_delta :=
                    if with_delta
                    then Some (delta_pct current_value (mean_value device_data))
                    else None |} ]
         end)
    (unique (map device df)).

(** The gauge and headline numbers: [data[name].iloc[-1]['value']] when the
    frame of [name] is there and not empty. *)
Definition data_get (data : list (string * DataFrame)) (name : string) : DataFrame :=
  match dict_lookup name data with
  | Some df => df
  | None => []
  end.

Definition kpi (data : list (string * DataFrame)) (name : string) : option float :=
  option_map value (iloc_last (data_get data name)).

(** *** The storage panel *)

(** [f == n] between a [float] and an [int]: Python compares the exact
    values. *)
Definition float_eq_Z (f : float) (z : Z) : bool :=
  match Prim2SF f with
  | S754_zero _ => (z =? 0)%Z
  | S754_finite s m e =>
      let mag :=
        if (0 <=? e)%Z then Some (Zpos m * 2 ^ e)%Z
        else if (Zpos m mod 2 ^ (- e) =? 0)%Z then Some (Zpos m / 2 ^ (- e))%Z
        else None in
      match mag with
      | Some v => (z =? (if s then - v else v))%Z
      | None => false
      end
  | _ => false
  end.

(** [a == b] between two label values that can be hashed ([None], [bool],
    [int], [float], [str]); a [bool] compares as the integer it is. *)
Definition py_eq (a b : json) : bool :=
  match a, b with
  | JNull, JNull => true
  | JStr s, JStr t => String.eqb s t
  | JBool x, JBool y => Bool.eqb x y
  | JBool x, JInt z | JInt z, JBool x => (Z_of_bool x =? z)%Z
  | JInt x, JInt y => (x =? y)%Z
  | JFloat f, JFloat g => f =? g
  | JFloat f, JInt z | JInt z, JFloat f => float_eq_Z f z
  | JFloat f, JBool x | JBool x, JFloat f => float_eq_Z f (Z_of_bool x)
  | _, _ => false
  end.

Definition hashable (j : json) : bool :=
  match j with
  | JArr _ | JObj _ => false
  | _ => true
  end.

Definition json_is_nan (j : json) : bool :=
  match j with
  | JFloat f => is_nan f
  | _ => false
  end.

(** Two values are one key of the hash table of [unique()] when they are
    equal, or both NaN. *)
Definition same_key (a b : json) : bool :=
  py_eq a b || (json_is_nan a && json_is_nan b).

(** [Series.unique()] on a column of objects: [TypeError] for a list or a
    dictionary, which cannot be hashed. *)
Definition unique_objects (l : list json) : result (list json) :=
  if forallb hashable l
  then Ok (fold_left
             (fun seen x => if existsb (same_key x) seen then seen else (seen ++ [x])%list)
             l [])
  else Raise TypeError.

Fixpoint mapM {A C : Type} (f : A -> result C) (l : list A) : result (list C) :=
  match l with
  | [] => Ok []
  | a :: rest =>
      rbind (f a) (fun c => rbind (mapM f rest) (fun cs => Ok (c :: cs)))
  end.

(** [lambda x: x.get('mountpoint', '')] *)
Definition mountpoint_of (x : json) : result json :=
  py_get x "mountpoint" (JStr EmptyString).

(** [df_space['metric'].apply(lambda x: x.get('mountpoint', ''))] *)
Definition mountpoints (df : DataFrame) : result (list json) :=
  mapM (fun r => mountpoint_of (metric r)) df.

(** [df_space[df_space['metric'].apply(lambda x: x.get('mountpoint', '') == mountpoint)]] *)
Fixpoint mount_rows (df : DataFrame) (mountpoint : json) : result DataFrame :=
  match df with
  | [] => Ok []
  | r :: rest =>
      rbind (mountpoint_of (metric r)) (fun m =>
      rbind (mount_rows rest mountpoint) (fun rows =>
      Ok (if py_eq m mountpoint then r :: rows else rows)))
  end.

(** The guard [if mountpoint and mountpoint != '/boot']. *)
Definition shown_mount (mountpoint : json) : bool :=
  truthy mountpoint && negb (py_eq mountpoint (JStr "/boot")).

(** The groups both loops of the panel visit, in order: for each unique
    mount point that passes the guard and has rows, the mount point and
    its rows. *)
Fixpoint mount_groups_of (df : DataFrame) (keys : list json)
    : result (list (json * DataFrame)) :=
  match keys with
  | [] => Ok []
  | mountpoint :: rest =>
      if shown_mount mountpoint
      then
        rbind (mount_rows df mountpoint) (fun mount_data =>
        rbind (mount_groups_of df rest) (fun groups =>
        Ok (if empty mount_data then groups
            else (mountpoint, mount_data) :: groups)))
      else mount_groups_of df rest
  end.

Definition mount_groups (df : DataFrame) : result (list (json * DataFrame)) :=
  rbind (mountpoints df) (fun col =>
  rbind (unique_objects col) (fun keys =>
  mount_groups_of df keys)).

(** [current_value = mount_data.iloc[-1]['value']] of a group. *)
Definition current_value_of (mount_data : DataFrame) : float :=
  match iloc_last mount_data with
  | Some r => value r
  | None => nan
  end.

(** The counters of the first loop: each group adds one to [total_mounts],
    and one to [critical_mounts] when [current_value > 85]. *)
Definition count_mounts (groups : list (json * DataFrame)) : nat * nat :=
  fold_left
    (fun counters g =>
       let '(total_mounts, critical_mounts) := counters in
       let current_value := current_value_of (snd g) in
       (S total_mounts,
        if 85 <? current_value then S critical_mounts else critical_mounts))
    groups (O, O).

Inductive bar_color : Type := Blue | Red.

(** [color = '#4b6cb7' if current_value < 85 else '#ff4b5c'] *)
Definition color_of (current_value : float) : bar_color :=
  if current_value <? 85 then Blue else Red.

Inductive delta_color : Type := Inverse | Normal.

Record MountCard : Type := mkMountCard {
  mount_key : json;
  mount_value : float;
  mount_delta : float;
  mount_delta_color : delta_color
}.

(** The [st.metric] of the second loop. *)
Definition mount_card (g : json * DataFrame) : MountCard :=
  let current_value := current_value_of (snd g) in
  {| mount_key := fst g;
     mount_value := current_value;
     mount_delta := delta_pct current_value (mean_value (snd g));
     mount_delta_color := if 85 <? current_value then Inverse else Normal |}.

Record Storage : Type := mkStorage {
  total_mounts : nat;
  critical_mounts : nat;
  bars : list (json * float * bar_color);
  avg_usage : float;
  over_target : bool;
  details : list MountCard
}.

(** The storage panel for a frame [df_space] that is not empty. *)
Definition storage_panel (df_space : DataFrame) : result Storage :=
  rbind (mount_groups df_space) (fun groups =>
  let '(total, critical) := count_mounts groups in
  let avg := mean_value df_space in
  Ok {| total_mounts := total;
        critical_mounts := critical;
        bars := map (fun g => (fst g, current_value_of (snd g),
                               color_of (current_value_of (snd g)))) groups;
        avg_usage := avg;
        over_target := 70 <? avg;
        details := map mount_card groups |}).

(** What [display_metrics(data)] computes from the frames. *)
Record View : Type := mkView {
  current_cpu : option float;
  current_mem : option float;
  current_net_in : option float;
  current_net_out : option float;
  network_in_cards : list Card;
  network_out_cards : list Card;
  network_errors_cards : list Card;
  disk_reads_cards : list Card;
  disk_writes_cards : list Card;
  disk_io_time_cards : list Card;
  storage : option Storage
}.

(** The panels that [display_metrics] draws before it reaches the storage
    panel: the headline numbers and the cards of the network and disk
    panels. *)
Definition panels_above_storage (data : list (string * DataFrame)) : View :=
  {| current_cpu := kpi data "cpu_usage";
     current_mem := kpi data "memory_usage";
     current_net_in := kpi data "network_in";
     current_net_out := kpi data "network_out";
     network_in_cards := device_cards false true (data_get data "network_in");
     network_out_cards := device_cards false true (data_get data "network_out");
     network_errors_cards := device_cards false false (data_get data "network_errors");
     disk_reads_cards := device_cards true true (data_get data "disk_reads");
     disk_writes_cards := device_cards true true (data_get data "disk_writes");
     disk_io_time_cards := device_cards true true (data_get data "disk_io_time");
     storage := None |}.

Definition display_metrics (data : list (string * DataFrame)) : result View :=
  rbind
    (let df_space := data_get data "disk_space" in
     if empty df_space then Ok None
     else rbind (storage_panel df_space) (fun s => Ok (Some s)))
    (fun st =>
  Ok {| current_cpu := kpi data "cpu_usage";
        current_mem := kpi data "memory_usage";
        current_net_in := kpi data "network_in";
        current_net_out := kpi data "network_out";
        network_in_cards := device_cards false true (data_get data "network_in");
        network_out_cards := device_cards false true (data_get data "network_out");
        network_errors_cards := device_cards false false (data_get data "network_errors");
        disk_reads_cards := device_cards true true (data_get data "disk_reads");
        disk_writes_cards := device_cards true true (data_get data "disk_writes");
        disk_io_time_cards := device_cards true true (data_get data "disk_io_time");
        storage := st |}).

Local Close Scope float_scope.

(** ** The outside world: requests, sleeps and messages *)

(** What one HTTP request can come back with:
    - a response without a [Location] header, or with an empty one: its
      status, the seconds of a [Retry-After] header when it has one, and
      its body decoded as JSON, [None] when the body is not JSON;
    - a response with a [Location] header (no [Retry-After], a body that
      is not JSON): its status and the URL the header resolves to, [None]
      when it names something [requests] cannot send a request to (an
      unknown scheme, an invalid URL);
    - a failure below HTTP (refused connection, reset, the 10 s timeout). *)
Inductive outcome : Type :=
| Response (status : Z) (retry_after : option Z) (body : option json)
| Redirect (status : Z) (location : option string)
| NetworkError.

(** The backend: the outcome of the [n]-th request the process sends, given
    what that request asks for: the query expression it carries or, for a
    request that follows a redirect, the URL it was sent to. *)
Definition Backend : Type := nat -> string -> outcome.

(** The observable actions, in the order they happen.  Sleeps are in
    milliseconds.  [Drawn v] says that the panels of [v] are on the page,
    [Rendered v] that [display_metrics] has returned after drawing [v]. *)
Inductive event : Type :=
| Request (q : string)
| Sleep (ms : Z)
| StError (e : exn)
| StWarning (e : exn)
| ConnectionTested (ok : bool)
| Drawn (v : View)
| Rendered (v : View)
| LastUpdated.

Record world : Type := mkWorld {
  sent : nat;
  trace : list event
}.

Definition M (A : Type) : Type := world -> A * world.

Definition ret {A : Type} (a : A) : M A := fun w => (a, w).

Definition bind {A B : Type} (c : M A) (k : A -> M B) : M B :=
  fun w => let (a, w') := c w in k a w'.

Declare Scope io_scope.
Delimit Scope io_scope with io.
Notation "x <- c ;; k" := (bind c (fun x => k))
  (at level 61, c at next level, right associativity) : io_scope.
Notation "c ;; k" := (bind c (fun _ => k))
  (at level 61, right associativity) : io_scope.

Definition emit (e : event) : M unit :=
  fun w => (tt, {| sent := sent w; trace := trace w ++ [e] |}).

Fixpoint emit_all (es : list event) : M unit :=
  match es with
  | [] => ret tt
  | e :: rest => bind (emit e) (fun _ => emit_all rest)
  end.

(** [time.sleep(seconds)]; the argument is given in milliseconds. *)
Definition sleep (ms : Z) : M unit := emit (Sleep ms).

(** Sending one request: it is recorded, counted, and answered by the
    backend. *)
Definition send (backend : Backend) (q : string) : M outcome :=
  fun w => (backend (sent w) q,
            {| sent := S (sent w); trace := trace w ++ [Request q] |}).

(** ** The retry policy mounted on the session

    [Retry(total=3, backoff_factor=1, status_forcelist=[500, 502, 503, 504])]
    is an object of urllib3; the loop below is urllib3's [urlopen] for a
    [GET] under such an object, with the other counters of [Retry] left at
    their default [None].  [total] counts the retries that remain, not the
    requests: a request is retried while [total] has not fallen below zero. *)
Record Retry : Type := mkRetry {
  total : nat;
  backoff_factor : Z;
  status_forcelist : list Z
}.

Definition BACKOFF_MAX : Z := 120.
Definition RETRY_AFTER_STATUS_CODES : list Z := [413; 429; 503].

Definition mem_status (status : Z) (l : list Z) : bool := existsb (Z.eqb status) l.

(** [Retry.is_retry] for the method [GET], with [total] retries left. *)
Definition is_retry (r : Retry) (left : nat) (status : Z) (has_retry_after : bool) : bool :=
  mem_status status (status_forcelist r) ||
  (negb (Nat.eqb left 0) && has_retry_after && mem_status status RETRY_AFTER_STATUS_CODES).

(** [Retry.get_backoff_time], in seconds, after [errors] consecutive failed
    requests: nothing before the first retry, then
    [backoff_factor * 2 ** (errors - 1)], capped. *)
Definition get_backoff_time (r : Retry) (errors : nat) : Z :=
  if (errors <=? 1)%nat then 0
  else Z.min BACKOFF_MAX (backoff_factor r * 2 ^ (Z.of_nat errors - 1)).

(** [Retry.sleep]: the [Retry-After] delay when the response asks for one,
    otherwise the backoff; no call to [time.sleep] for a zero delay. *)
Definition retry_sleep (r : Retry) (errors : nat) (retry_after : option Z) : M unit :=
  match retry_after with
  | Some s => if 0 <? s then sleep (s * 1000)
              else if 0 <? get_backoff_time r errors
                   then sleep (get_backoff_time r errors * 1000) else ret tt
  | None => if 0 <? get_backoff_time r errors
            then sleep (get_backoff_time r errors * 1000) else ret tt
  end.

(** The statuses [requests] takes for a redirect when the response has a
    [Location] header, and the number of redirects a session follows
    before it raises [TooManyRedirects]. *)
Definition REDIRECT_STATI : list Z := [301; 302; 303; 307; 308].
Definition DEFAULT_REDIRECT_LIMIT : nat := 30.

(** What the adapter returns for one request: a response, with the target
    of its [Location] header when it has one. *)
Inductive reply : Type :=
| Plain (status : Z) (body : option json)
| Located (status : Z) (location : option string).

Section Client.
Variable backend : Backend.
Local Open Scope io_scope.

(** One request through the adapter, which calls urllib3 with
    [redirect=False]: the request is sent again while the policy allows
    it.  [left] is the value of [total] in the current [Retry] object and
    [errors] the length of its history.  The result is the response the
    adapter hands to the session, or the exception that [requests]
    raises. *)
Fixpoint urlopen (r : Retry) (left errors : nat) (q : string)
    : M (result reply) :=
  o <- send backend q ;;
  match o with
  | NetworkError =>
      match left with
      | O => ret (Raise ConnectionError)
      | S left' =>
          retry_sleep r (S errors) None ;;
          urlopen r left' (S errors) q
      end
  | Response status retry_after body =>
      if is_retry r left status
           (match retry_after with Some _ => true | None => false end)
      then
        match left with
        | O => ret (Raise RetryError)
        | S left' =>
            retry_sleep r (S errors) retry_after ;;
            urlopen r left' (S errors) q
        end
      else ret (Ok (Plain status body))
  | Redirect status location =>
      if is_retry r left status false
      then
        match left with
        | O => ret (Raise RetryError)
        | S left' =>
            retry_sleep r (S errors) None ;;
            urlopen r left' (S errors) q
        end
      else ret (Ok (Located status location))
  end.

(** [Session.send] with [allow_redirects=True], the default of
    [session.get]: a response with a [Location] header and one of the
    statuses of [REDIRECT_STATI] is answered with a request to the URL it
    names, under a fresh copy of the policy, [hops] being the number of
    redirects that may still be followed.  The result is the final
    response (status and decoded body) or the exception that [requests]
    raises. *)
Fixpoint session_send (r : Retry) (hops : nat) (q : string)
    : M (result (Z * option json)) :=
  resp <- urlopen r (total r) 0 q ;;
  match resp with
  | Raise e => ret (Raise e)
  | Ok (Plain status body) => ret (Ok (status, body))
  | Ok (Located status location) =>
      if mem_status status REDIRECT_STATI
      then
        match hops with
        | O => ret (Raise TooManyRedirects)
        | S hops' =>
            match location with
            | None => ret (Raise InvalidURL)
            | Some target => session_send r hops' target
            end
        end
      else ret (Ok (status, None))
  end.

(** [class PrometheusClient]: the base URL and the policy of its session. *)
Record PrometheusClient : Type := mkClient {
  url : string;
  max_retries : Retry
}.

(** [session.get(url, params={'query': q}, timeout=10)] *)
Definition session_get (self : PrometheusClient) (q : string)
    : M (result (Z * option json)) :=
  session_send (max_retries self) DEFAULT_REDIRECT_LIMIT q.

(** [response.raise_for_status()] *)
Definition raise_for_status (status : Z) : result unit :=
  if (400 <=? status) && (status <? 600) then Raise (HTTPError status)
  else Ok tt.

(** [response.json()] *)
Definition response_json (body : option json) : result json :=
  match body with
  | Some j => Ok j
  | None => Raise JSONDecodeError
  end.

(** [PrometheusClient.query]: the decoded body, or [None] (here [JNull])
    after an [st.error] for any exception. *)
Definition query (self : PrometheusClient) (q : string) : M json :=
  r <- session_get self q ;;
  match rbind r (fun resp =>
          rbind (raise_for_status (fst resp)) (fun _ =>
          response_json (snd resp))) with
  | Ok j => ret j
  | Raise e => emit (StError e) ;; ret JNull
  end.
End Client.

Definition PROMETHEUS_URL : string := "http://localhost:9091".
Definition REFRESH_INTERVAL : Z := 15.

Definition prom_client : PrometheusClient :=
  {| url := PROMETHEUS_URL;
     max_retries := {| total := 3; backoff_factor := 1;
                       status_forcelist := [500; 502; 503; 504] |} |}.

(** A double quote, for the query expressions. *)
Definition dq : string := String (ascii_of_nat 34) EmptyString.

(** The query catalog, in the order the dictionary literal lists it. *)
Definition METRICS : list (string * string) :=
  [ ("cpu_usage",
     "100 - (avg by(instance)(rate(node_cpu_seconds_total{mode=" ++ dq ++ "idle" ++ dq ++ "}[1m])) * 100)");
    ("memory_usage",
     "(node_memory_MemTotal_bytes - node_memory_MemFree_bytes) / node_memory_MemTotal_bytes * 100");
    ("cpu_by_mode",
     "rate(node_cpu_seconds_total[1m]) * 100");
    ("network_in",
     "sum by (device) (rate(node_network_receive_bytes_total{device!=" ++ dq ++ "lo" ++ dq ++ "}[1m]))");
    ("network_out",
     "sum by (device) (rate(node_network_transmit_bytes_total{device!=" ++ dq ++ "lo" ++ dq ++ "}[1m]))");
    ("network_errors",
     "sum by (device) (rate(node_network_receive_errs_total{device!=" ++ dq ++ "lo" ++ dq ++ "}[1m]) + rate(node_network_transmit_errs_total{device!=" ++ dq ++ "lo" ++ dq ++ "}[1m]))");
    ("disk_reads",
     "sum by (device) (rate(node_disk_reads_completed_total[1m]))");
    ("disk_writes",
     "sum by (device) (rate(node_disk_writes_completed_total[1m]))");
    ("disk_io_time",
     "sum by (device) (rate(node_disk_io_time_seconds_total[1m]) * 100)");
    ("disk_space",
     "(node_filesystem_size_bytes - node_filesystem_free_bytes) / node_filesystem_size_bytes * 100") ].

(** [d[k] = v] on a dictionary kept in insertion order. *)
Fixpoint dict_set {V : Type} (d : list (string * V)) (k : string) (v : V)
    : list (string * V) :=
  match d with
  | [] => [(k, v)]
  | (k', v') :: rest =>
      if String.eqb k k' then (k, v) :: rest else (k', v') :: dict_set rest k v
  end.

Section Fetch.
Context {B : Builtins}.
Variable backend : Backend.
Local Open Scope io_scope.

(** The loop of [fetch_metrics] over the entries of the catalog that are
    left, [results] being the dictionary built so far.  An exception of
    [process_metric] leaves the loop and the function, after the warnings
    that [process_metric] had time to emit. *)
Fixpoint fetch_loop (entries : list (string * string))
    (results : list (string * DataFrame))
    : M (result (list (string * DataFrame))) :=
  match entries with
  | [] => ret (Ok results)
  | (name, q) :: rest =>
      raw_data <- query backend prom_client q ;;
      match process_metric raw_data with
      | Raise e =>
          emit_all (map StWarning (warned raw_data)) ;;
          ret (Raise e)
      | Ok (df, warnings) =>
          emit_all (map StWarning warnings) ;;
          sleep 100 ;;
          fetch_loop rest (dict_set results name df)
      end
  end.

Definition fetch_metrics : M (result (list (string * DataFrame))) :=
  fetch_loop METRICS [].
End Fetch.

(** ** [main]: the refresh loop *)

Section Main.
Context {B : Builtins}.
Variable backend : Backend.
Local Open Scope io_scope.

(** The sidebar button: [prom_client.query("up")] and its verdict,
    [test_result and test_result.get('data')]. *)
Definition test_connection : M (result unit) :=
  test_result <- query backend prom_client "up" ;;
  if truthy test_result
  then
    match py_get test_result "data" JNull with
    | Raise e => ret (Raise e)
    | Ok d => emit (ConnectionTested (truthy d)) ;; ret (Ok tt)
    end
  else emit (ConnectionTested false) ;; ret (Ok tt).

(** The body of [while True]: fetch, display, stamp, sleep.
    [display_metrics] draws panel by panel, the storage panel last: the
    panels above it are on the page before an exception of the storage
    panel leaves the function.  The sleep is [refresh_rate] seconds when
    the box is ticked and one second when it is not. *)
Definition cycle (auto_refresh : bool) (refresh_rate : Z) : M (result unit) :=
  fetched <- fetch_metrics backend ;;
  match fetched with
  | Raise e => ret (Raise e)
  | Ok data =>
      emit (Drawn (panels_above_storage data)) ;;
      match display_metrics data with
      | Raise e => ret (Raise e)
      | Ok v =>
          emit (Rendered v) ;;
          emit LastUpdated ;;
          (if auto_refresh then sleep (refresh_rate * 1000) else sleep 1000) ;;
          ret (Ok tt)
      end
  end.

(** The first [n] turns of [while True]; an exception ends the loop. *)
Fixpoint main_loop (n : nat) (auto_refresh : bool) (refresh_rate : Z)
    : M (result unit) :=
  match n with
  | O => ret (Ok tt)
  | S k =>
      r <- cycle auto_refresh refresh_rate ;;
      match r with
      | Raise e => ret (Raise e)
      | Ok _ => main_loop k auto_refresh refresh_rate
      end
  end.

(** [main()] for one run of the script: whether the button was pressed,
    the state of the "Auto Refresh" box and of the slider, observed for
    [n] turns of the loop. *)
Definition main (button auto_refresh : bool) (refresh_rate : Z) (n : nat)
    : M (result unit) :=
  pre <- (if button then test_connection else ret (Ok tt)) ;;
  match pre with
  | Raise e => ret (Raise e)
  | Ok _ => main_loop n auto_refresh refresh_rate
  end.
End Main.

Definition start : world := {| sent := 0; trace := [] |}.

(** ** Reading a trace *)

Definition is_request (e : event) : bool :=
  match e with Request _ => true | _ => false end.

Definition requests (t : list event) : nat := List.length (filter is_request t).

Fixpoint sleeps (t : list event) : list Z :=
  match t with
  | [] => []
  | Sleep ms :: rest => ms :: sleeps rest
  | _ :: rest => sleeps rest
  end.

Definition is_rendered (e : event) : bool :=
  match e with Rendered _ => true | _ => false end.

(** The number of completed fetch-and-display cycles a trace shows. *)
Definition cycles (t : list event) : nat := List.length (filter is_rendered t).

(** ** A reference runtime

    An instance of [Builtins] on which the examples run: CPython on a host
    whose local time is UTC, for the inputs of the examples.  [float(str)]
    is implemented for plain decimal numerals, an optional minus sign,
    digits and an optional fraction, of at most 15 digits, where one
    division of two exact doubles gives the correctly rounded result; it
    rejects every other string, as Python rejects those that are no
    numeral at all (the numerals Python reads and this parser does not,
    exponents, [nan], [inf], underscores, longer ones, are outside the
    instance).  [datetime.fromtimestamp] accepts every second of the years
    1 to 9999 (CPython refuses some within a day of either end of that
    range).  [repr] is implemented for
    [None] and the booleans and is a placeholder elsewhere.  The
    [DataFrame] constructor refuses a lone surrogate in the text columns
    [mode] and [device], where pandas with its string type raises
    [UnicodeEncodeError], and nothing else. *)

Definition digit_of (c : ascii) : option Z :=
  let n := Z.of_nat (nat_of_ascii c) in
  if (48 <=? n) && (n <=? 57) then Some (n - 48) else None.

(** The digits of [s] up to its end or to the first dot: their value on top
    of [acc], how many they are, and what follows the dot. *)
Fixpoint read_digits (s : string) (acc : Z) (n : nat)
    : option (Z * nat * option string) :=
  match s with
  | EmptyString => Some (acc, n, None)
  | String c rest =>
      if Ascii.eqb c "."%char then Some (acc, n, Some rest)
      else
        match digit_of c with
        | Some d => read_digits rest (acc * 10 + d) (S n)
        | None => None
        end
  end.

Definition read_decimal (s : string) : option (Z * nat * nat) :=
  match read_digits s 0 0 with
  | Some (ip, n, None) => Some (ip, n, O)
  | Some (ip, n, Some frac) =>
      match read_digits frac ip 0 with
      | Some (m, k, None) => Some (m, (n + k)%nat, k)
      | _ => None
      end
  | None => None
  end.

Definition ref_float_of_str (s : string) : result float :=
  let '(neg, body) :=
    match s with
    | String c rest => if Ascii.eqb c "-"%char then (true, rest) else (false, s)
    | EmptyString => (false, s)
    end in
  match read_decimal body with
  | Some (m, n, k) =>
      if ((1 <=? n) && (n <=? 15))%nat
      then
        let f := (float_of_Z m / float_of_Z (10 ^ Z.of_nat k))%float in
        Ok (if neg then (- f)%float else f)
      else Raise ValueError
  | None => Raise ValueError
  end.

(** The first and last second [datetime] can hold, years 1 to 9999. *)
Definition MIN_TIMESTAMP : Z := -62135596800.
Definition MAX_TIMESTAMP : Z := 253402300799.

Definition ref_fromtimestamp_int (z : Z) : result datetime :=
  if (MIN_TIMESTAMP <=? z) && (z <=? MAX_TIMESTAMP) then Ok (z * 1000000)
  else Raise ValueError.

(** The integer nearest to a finite double, ties to even. *)
Definition round_half_even (f : float) : Z :=
  match Prim2SF f with
  | S754_finite s m e =>
      let mag :=
        if 0 <=? e then Zpos m * 2 ^ e
        else
          let q := Zpos m / 2 ^ (- e) in
          let r := Zpos m mod 2 ^ (- e) in
          let half := 2 ^ (- e - 1) in
          if (half <? r) || ((r =? half) && Z.odd q) then q + 1 else q in
      if s then - mag else mag
  | _ => 0
  end.

(** [datetime.fromtimestamp(f)]: the whole seconds of [f], and its
    fraction times [1e6] rounded to the nearest microsecond. *)
Definition ref_fromtimestamp_float (f : float) : result datetime :=
  match Prim2SF f with
  | S754_nan => Raise ValueError
  | S754_infinity _ => Raise OverflowError
  | S754_zero _ => Ok 0
  | S754_finite s m e =>
      let sign := if s then -1 else 1 in
      let intpart := if 0 <=? e then Zpos m * 2 ^ e else Zpos m / 2 ^ (- e) in
      let fracpart :=
        if 0 <=? e then 0%float
        else SF2Prim (binary_normalize prec emax
                        (sign * (Zpos m mod 2 ^ (- e))) e false) in
      let us := round_half_even (fracpart * 1000000)%float in
      let seconds := sign * intpart in
      if (MIN_TIMESTAMP <=? seconds) && (seconds <=? MAX_TIMESTAMP)
      then Ok (seconds * 1000000 + us)
      else Raise ValueError
  end.

Definition ref_repr (x : json) : string :=
  match x with
  | JNull => "None"
  | JBool true => "True"
  | JBool false => "False"
  | _ => "<object>"
  end.

(** A surrogate in a [str]: the byte [0xED] followed by a byte from [0xA0]
    to [0xBF]. *)
Fixpoint has_surrogate (s : string) : bool :=
  match s with
  | String c ((String d _) as rest) =>
      ((nat_of_ascii c =? 237)%nat
       && (160 <=? nat_of_ascii d)%nat && (nat_of_ascii d <? 192)%nat)
      || has_surrogate rest
  | _ => false
  end.

Definition ref_frame_error (records : list Row) : option exn :=
  if existsb (fun r => has_surrogate (mode r) || has_surrogate (device r)) records
  then Some UnicodeEncodeError
  else None.

Definition reference : Builtins :=
  {| float_of_str := ref_float_of_str;
     fromtimestamp_int := ref_fromtimestamp_int;
     fromtimestamp_float := ref_fromtimestamp_float;
     py_repr := ref_repr;
     frame_error := ref_frame_error |}.

(** ** Vocabulary of the properties *)

Section ParserVocabulary.
Context {B : Builtins}.

(** The rows that the items of a batch give, in order, and the
    exceptions of those that give none. *)
Definition parsed (items : list json) : list Row :=
  flat_map (fun item => match parse_item item with
                        | Ok r => [r]
                        | Raise _ => []
                        end) items.

Definition failures (items : list json) : list exn :=
  flat_map (fun item => match parse_item item with
                        | Ok _ => []
                        | Raise e => [e]
                        end) items.

(** A malformed item, in the words of the specification: its value is
    missing (no ["value"] entry, or one that is not a pair), its timestamp
    is absent, or its value is not numeric. *)
Definition malformed (item : json) : bool :=
  match item with
  | JObj fields =>
      match dict_lookup "value" fields with
      | None => true
      | Some (JArr (t :: v :: _)) =>
          match t with JNull => true | _ => false end
          || match py_float v with Raise _ => true | Ok _ => false end
      | Some _ => true
      end
  | _ => false
  end.

(** The label mapping of an item: its ["metric"] entry, the empty mapping
    when it has none. *)
Definition labels_of (fields : list (string * json)) : json :=
  match dict_lookup "metric" fields with
  | Some j => j
  | None => JObj []
  end.
End ParserVocabulary.

(** An outcome that the retry policy of [prom_client] answers with another
    request: a status of the force list, without a [Retry-After] header. *)
Definition transient (o : outcome) : bool :=
  match o with
  | Response status None _ =>
      mem_status status (status_forcelist (max_retries prom_client))
  | _ => false
  end.

(** An outcome that cannot end in a decoded body: no response at all, or
    a response without a [Location] header that has an error status or a
    body that is not JSON. *)
Definition failing (o : outcome) : bool :=
  match o with
  | NetworkError => true
  | Response status _ body =>
      ((400 <=? status) && (status <? 600))
      || match body with None => true | Some _ => false end
  | Redirect _ _ => false
  end.

(** An outcome that [requests] answers with a request to another URL. *)
Definition redirects (o : outcome) : bool :=
  match o with
  | Redirect status _ => mem_status status REDIRECT_STATI
  | _ => false
  end.

(** A backend that never redirects a request for [q]. *)
Definition no_redirect (backend : Backend) (q : string) : Prop :=
  forall n, redirects (backend n q) = false.

(** The delay [Retry.sleep] inserts when no [Retry-After] is given. *)
Definition backoff_events (r : Retry) (errors : nat) : list event :=
  if 0 <? get_backoff_time r errors
  then [Sleep (get_backoff_time r errors * 1000)]
  else [].

(** The requests and sleeps of a [session.get] that meets transient
    failures only, from a policy with [left] retries and a history of
    [errors] failures. *)
Fixpoint exhausted_trace (r : Retry) (left errors : nat) (q : string) : list event :=
  Request q ::
  match left with
  | O => []
  | S left' =>
      (backoff_events r (S errors) ++ exhausted_trace r left' (S errors) q)%list
  end.

Definition total_sleep (t : list event) : Z := fold_right Z.add 0 (sleeps t).

(** The backend that answers every request with a bare 503. *)
Definition always_503 : Backend := fun _ _ => Response 503 None None.

(** The backend that cannot be reached. *)
Definition unreachable : Backend := fun _ _ => NetworkError.

(** The backend that answers every query with [{"data": {}}]. *)
Definition data_without_result : Backend :=
  fun _ _ => Response 200 None (Some (JObj [("data", JObj [])])).

(** The dictionary a fetch pass leaves when every query fails: an empty
    frame under each name. *)
Definition all_empty (entries : list (string * string))
    (results : list (string * DataFrame)) : list (string * DataFrame) :=
  fold_left (fun d entry => dict_set d (fst entry) []) entries results.

(** The keys of a dictionary after [d[k] = v]. *)
Definition add_key (keys : list string) (k : string) : list string :=
  if existsb (String.eqb k) keys then keys else (keys ++ [k])%list.

(** The response of the end-to-end scenario of the specification: one
    sample, no labels, timestamp 1000 and value ["42.5"]. *)
Definition sample_body : json :=
  JObj [("status", JStr "success");
        ("data", JObj [("resultType", JStr "vector");
                       ("result", JArr [JObj [("metric", JObj []);
                                              ("value", JArr [JInt 1000; JStr "42.5"])]])])].

(** The backend that answers every query with [sample_body]. *)
Definition healthy : Backend := fun _ _ => Response 200 None (Some sample_body).

(** The query expression the catalog has under a name. *)
Definition catalog_query (name : string) : string :=
  match dict_lookup name METRICS with
  | Some q => q
  | None => EmptyString
  end.

(** The backend that cannot be reached by the query of [network_in] and
    answers every other query with [sample_body]. *)
Definition network_in_down : Backend :=
  fun _ q =>
    if String.eqb q (catalog_query "network_in") then NetworkError
    else Response 200 None (Some sample_body).

(** The [latest] of the specification: the record with the greatest
    timestamp of the group, the last one seen among equals. *)
Definition latest_by_timestamp (rows : list Row) : option Row :=
  fold_left
    (fun best r =>
       match best with
       | None => Some r
       | Some b => if timestamp b <=? timestamp r then Some r else Some b
       end)
    rows None.

Fixpoint nondecreasing (l : list Z) : bool :=
  match l with
  | x :: ((y :: _) as rest) => (x <=? y) && nondecreasing rest
  | _ => true
  end.

(** The classifier of the specification, with inclusive lower bounds. *)
Inductive Classification : Type := normal | warning | critical.

Definition classify_spec (warningPct criticalPct latest : float) : Classification :=
  if (criticalPct <=? latest)%float then critical
  else if (warningPct <=? latest)%float then warning
  else normal.

(** A row of a frame, for the examples: device and mount point labels. *)
Definition device_row (ts : Z) (v : float) (dev : string) : Row :=
  {| timestamp := ts; value := v; metric := JObj [("device", JStr dev)];
     mode := "unknown"; device := dev |}.

Definition mount_row (ts : Z) (v : float) (mnt : string) : Row :=
  {| timestamp := ts; value := v; metric := JObj [("mountpoint", JStr mnt)];
     mode := "unknown"; device := "unknown" |}.

(** The test of the storage panel on the latest value of a group. *)
Definition over_85 (g : json * DataFrame) : bool :=
  (85 <? current_value_of (snd g))%float.

(** A result item with a [device] label, for the examples. *)
Definition device_item (dev v : string) : json :=
  JObj [("metric", JObj [("device", JStr dev)]);
        ("value", JArr [JInt 1000; JStr v])].

(** The [str] that holds the surrogate [U+D800] alone, as the decoder gives
    it for the escape of that code point. *)
Definition lone_surrogate : string :=
  String (ascii_of_nat 237) (String (ascii_of_nat 160)
    (String (ascii_of_nat 128) EmptyString)).

Definition vector_response (items : list json) : list (string * json) :=
  [("status", JStr "success");
   ("data", JObj [("resultType", JStr "vector"); ("result", JArr items)])].

(** ** [format_bytes] *)

(** The loop of [format_bytes] over the units that are left: the number
    that the f-string prints (with two decimals) and the unit printed
    after it. *)
Fixpoint format_loop (units : list string) (bytes_value : float) : float * string :=
  match units with
  | [] => (bytes_value, "TB/s")
  | unit :: rest =>
      if (bytes_value <? 1024)%float then (bytes_value, unit)
      else format_loop rest (bytes_value / 1024)%float
  end.

(** [bytes_value] after [k] turns of the loop: divided [k] times by 1024. *)
Definition scaled (k : nat) (v : float) : float :=
  Nat.iter k (fun y => (y / 1024)%float) v.

Definition UNITS : list string := ["B/s"; "KB/s"; "MB/s"; "GB/s"].

Definition format_bytes (bytes_value : float) : float * string :=
  format_loop UNITS bytes_value.

(** ** More vocabulary: counting in traces *)

(** The world after the events [es] have happened in [w]. *)
Definition extend (w : world) (es : list event) : world :=
  {| sent := sent w + requests es; trace := (trace w ++ es)%list |}.

Definition is_st_error (e : event) : bool :=
  match e with StError _ => true | _ => false end.

Definition st_errors (t : list event) : nat := List.length (filter is_st_error t).

(** The pauses of a tenth of a second that [fetch_metrics] makes. *)
Definition is_pause (e : event) : bool :=
  match e with Sleep ms => ms =? 100 | _ => false end.

Definition pauses (t : list event) : nat := List.length (filter is_pause t).

(** The turns of the loop of [main] that got as far as drawing. *)
Definition is_drawn (e : event) : bool :=
  match e with Drawn _ => true | _ => false end.

Definition draws (t : list event) : nat := List.length (filter is_drawn t).

(** The events of the HTTP adapter: requests, and sleeps of a second or
    more. *)
Definition adapter_event (e : event) : bool :=
  match e with
  | Request _ => true
  | Sleep ms => 1000 <=? ms
  | _ => false
  end.

(** A backend that never sends a [Retry-After] header in answer to [q]. *)
Definition no_retry_after (backend : Backend) (q : string) : Prop :=
  forall n, match backend n q with
            | Response _ (Some _) _ => False
            | _ => True
            end.

(** A label value that [unique()] cannot hash. *)
Definition unhashable_mountpoint (r : Row) : bool :=
  match metric r with
  | JObj labels =>
      match dict_lookup "mountpoint" labels with
      | Some v => negb (hashable v)
      | None => false
      end
  | _ => false
  end.

(** The rows [process_metric] can produce: their labels are a mapping. *)
Definition labelled (r : Row) : bool :=
  match metric r with JObj _ => true | _ => false end.

Section FetchVocabulary.
Context {B : Builtins}.

(** The exceptions that leave [process_metric]: the [KeyError] and the
    [TypeError] of its guard and of its iteration, and whatever the
    [DataFrame] constructor raises on a list of records. *)
Definition parser_exn (e : exn) : Prop :=
  e = KeyError \/ e = TypeError
  \/ exists records, records <> [] /\ frame_error records = Some e.

(** A decoded body that a cycle gets through: [process_metric] returns a
    frame for it, and no mount point of that frame is a list or a
    dictionary. *)
Definition presentable (res : json) : bool :=
  match process_metric res with
  | Ok (df, _) => negb (existsb unhashable_mountpoint df)
  | Raise _ => false
  end.

(** An outcome that answers the query: a response with a status from 200
    to 299, without a [Location] header, whose body is JSON and
    presentable. *)
Definition answered (o : outcome) : bool :=
  match o with
  | Response status _ (Some body) =>
      (200 <=? status) && (status <? 300) && presentable body
  | _ => false
  end.
End FetchVocabulary.

(** The sleeps before [k] retries in a row, none of them asked for by a
    [Retry-After] header, after [errors] failed requests. *)
Fixpoint backoffs (r : Retry) (errors k : nat) : list Z :=
  match k with
  | O => []
  | S k' => (sleeps (backoff_events r (S errors)) ++ backoffs r (S errors) k')%list
  end.

(** What one request through the adapter adds to the trace, and where its
    result comes from: events of the adapter, between one request and one
    more than the retries that are left, the backoff sleeps when no
    [Retry-After] header is met, and a result that is a response of the
    backend to [q]. *)
Definition urlopen_adds (backend : Backend) (r : Retry) (q : string)
    (left errors : nat) (res : result reply) (es : list event) : Prop :=
  forallb adapter_event es = true
  /\ (1 <= requests es <= S left)%nat
  /\ (no_retry_after backend q ->
      sleeps es = backoffs r errors (requests es - 1))
  /\ (forall status location,
        res = Ok (Located status location) ->
        exists n, backend n q = Redirect status location)
  /\ (forall status body,
        res = Ok (Plain status body) ->
        exists n retry_after, backend n q = Response status retry_after body).

(** The mount point of a row whose labels are a mapping. *)
Definition mountpoint_label (r : Row) : json :=
  match metric r with
  | JObj labels =>
      match dict_lookup "mountpoint" labels with
      | Some v => v
      | None => JStr EmptyString
      end
  | _ => JNull
  end.

(** * Properties *)

(** ** The parser *)

Section ParserFacts.
Context {B : Builtins}.

Lemma process_items_acc (items : list json) :
  forall records warnings,
    process_items items records warnings =
    ((records ++ parsed items)%list, (warnings ++ failures items)%list).
Proof.
  induction items as [|item rest IH]; intros records warnings; simpl.
  - now rewrite !app_nil_r.
  - unfold parsed, failures; simpl.
    destruct (parse_item item) as [r|e]; rewrite IH; simpl;
      now rewrite <- ?app_assoc.
Qed.

Lemma parsed_app (xs ys : list json) :
  parsed (xs ++ ys) = (parsed xs ++ parsed ys)%list.
Proof. unfold parsed. apply flat_map_app. Qed.

Lemma failures_app (xs ys : list json) :
  failures (xs ++ ys) = (failures xs ++ failures ys)%list.
Proof. unfold failures. apply flat_map_app. Qed.

Lemma parsed_In (items : list json) (item : json) (r : Row) :
  In item items -> parse_item item = Ok r -> In r (parsed items).
Proof.
  intros Hin Hp. unfold parsed. apply in_flat_map.
  exists item. split; [assumption|]. rewrite Hp. now left.
Qed.

(** The responses for which the first [if] of [process_metric] returns
    the empty frame. *)
Lemma process_metric_empty_cases :
  process_metric JNull = Ok ([], []) /\
  process_metric (JObj []) = Ok ([], []) /\
  (forall fields, dict_lookup "data" fields = None ->
                  process_metric (JObj fields) = Ok ([], [])) /\
  (forall fields dfields,
      dict_lookup "data" fields = Some (JObj dfields) ->
      dict_lookup "result" dfields = Some (JArr []) ->
      process_metric (JObj fields) = Ok ([], [])).
Proof.
  repeat split; try reflexivity.
  - intros fields H. unfold process_metric, no_result.
    destruct fields; [reflexivity|].
    cbn [truthy negb py_in rbind]. rewrite H. reflexivity.
  - intros fields dfields Hd Hr. unfold process_metric, no_result.
    destruct fields; [discriminate|].
    cbn [truthy negb py_in getitem rbind]. rewrite Hd.
    cbn [getitem rbind negb]. rewrite Hr. reflexivity.
Qed.

Lemma malformed_raises (item : json) :
  malformed item = true -> exists e, parse_item item = Raise e.
Proof.
  destruct item as [| | | | |items|fields]; try discriminate.
  unfold malformed, parse_item. cbn [py_get getitem rbind].
  destruct (dict_lookup "value" fields) as [pair|];
    [|intros _; eexists; reflexivity].
  destruct pair as [| | |f|s|[|t [|v rest]]|pf]; cbn [getindex nth_error rbind];
    try (intros _; eexists; reflexivity).
  - intros _. destruct (str_chars s); eexists; reflexivity.
  - intros _. destruct (fromtimestamp t); eexists; reflexivity.
  - destruct (fromtimestamp t) as [ts|e] eqn:Ht; cbn [rbind];
      [|intros _; eexists; reflexivity].
    destruct (py_float v) as [x|e]; cbn [rbind];
      [|intros _; eexists; reflexivity].
    destruct t; try discriminate Ht; discriminate.
Qed.

(** A response whose ["data"] is a dictionary without ["result"] raises
    [KeyError], whatever else it holds. *)
Lemma process_metric_missing_result_key (fields dfields : list (string * json)) :
  dict_lookup "data" fields = Some (JObj dfields) ->
  dict_lookup "result" dfields = None ->
  process_metric (JObj fields) = Raise KeyError.
Proof.
  intros Hd Hr. unfold process_metric, no_result.
  destruct fields; [discriminate|].
  cbn [truthy negb py_in getitem rbind]. rewrite Hd.
  cbn [getitem rbind negb]. rewrite Hr. reflexivity.
Qed.

Lemma pd_DataFrame_Ok (records : list Row) (df : DataFrame) :
  pd_DataFrame records = Ok df -> df = records.
Proof.
  unfold pd_DataFrame. destruct records as [|r rest]; [now intros [= <-]|].
  destruct (frame_error (r :: rest)); [discriminate|now intros [= <-]].
Qed.

Lemma pd_DataFrame_Raise (records : list Row) (e : exn) :
  pd_DataFrame records = Raise e -> records <> [] /\ frame_error records = Some e.
Proof.
  unfold pd_DataFrame. destruct records as [|r rest]; [discriminate|].
  destruct (frame_error (r :: rest)) as [e'|]; [|discriminate].
  intros [= <-]. split; [discriminate|reflexivity].
Qed.

(** [process_metric] on a response whose result collection is a list: the
    rows of the items that parse go to the constructor, the warnings are
    those of the other items. *)
Lemma process_metric_list (fields dfields : list (string * json)) (items : list json) :
  dict_lookup "data" fields = Some (JObj dfields) ->
  dict_lookup "result" dfields = Some (JArr items) ->
  process_metric (JObj fields) =
    rbind (pd_DataFrame (parsed items)) (fun df => Ok (df, failures items)).
Proof.
  intros Hd Hr. unfold process_metric, no_result.
  destruct fields as [|kv fields']; [discriminate|].
  cbn [truthy negb py_in getitem rbind]. rewrite Hd.
  cbn [getitem rbind negb]. rewrite Hr. cbn [rbind].
  destruct items as [|item rest]; [reflexivity|].
  cbn [truthy negb rbind py_iter]. now rewrite process_items_acc.
Qed.

Lemma warned_list (fields dfields : list (string * json)) (items : list json) :
  dict_lookup "data" fields = Some (JObj dfields) ->
  dict_lookup "result" dfields = Some (JArr items) ->
  warned (JObj fields) = failures items.
Proof.
  intros Hd Hr. unfold warned. cbn [getitem rbind]. rewrite Hd.
  cbn [getitem rbind]. rewrite Hr. cbn [rbind py_iter].
  now rewrite process_items_acc.
Qed.

Lemma parse_item_well_formed (ifields : list (string * json)) (t v : json)
    (rest : list json) (ts : datetime) (x : float) (labels : list (string * json)) :
  dict_lookup "value" ifields = Some (JArr (t :: v :: rest)) ->
  fromtimestamp t = Ok ts ->
  py_float v = Ok x ->
  labels_of ifields = JObj labels ->
  exists r, parse_item (JObj ifields) = Ok r
            /\ timestamp r = ts /\ value r = x /\ metric r = JObj labels.
Proof.
  intros Hv Ht Hx Hl. eexists. split.
  - unfold parse_item. unfold labels_of in Hl.
    cbn [py_get getitem rbind]. rewrite Hv. cbn [getindex nth_error rbind].
    rewrite Ht. cbn [rbind]. rewrite Hx. cbn [rbind].
    destruct (dict_lookup "metric" ifields); rewrite Hl; cbn [py_get rbind];
      reflexivity.
  - simpl. repeat split; reflexivity.
Qed.

(** C2. A response whose ["data"] has no ["result"] entry, the smallest
    one being [{"data": {}}], makes [process_metric] raise [KeyError]: the
    guard reads [result['data']['result']] without testing that the key
    is there. *)
Theorem process_metric_data_without_result_raises :
  process_metric (JObj [("data", JObj [])]) = Raise KeyError.
Proof. reflexivity. Qed.

(** C3. A malformed item anywhere in the result collection is skipped
    with one warning and changes nothing else: the call ends as it does
    on the batch without that item, with the same frame (the rows of the
    items before and after it, in order) or with the same exception of
    the [DataFrame] constructor, and the warning is emitted either way.
    Whenever the call returns, every item of the batch whose timestamp and
    value convert, and whose labels are a mapping, has its row in the
    frame. *)
Theorem process_metric_skips_malformed_items :
  forall (fields dfields fields' dfields' : list (string * json))
         (before after : list json) (bad : json),
    dict_lookup "data" fields = Some (JObj dfields) ->
    dict_lookup "result" dfields = Some (JArr (before ++ bad :: after)) ->
    dict_lookup "data" fields' = Some (JObj dfields') ->
    dict_lookup "result" dfields' = Some (JArr (before ++ after)) ->
    malformed bad = true ->
    exists e : exn,
      parse_item bad = Raise e
      /\ warned (JObj fields) = (failures before ++ e :: failures after)%list
      /\ match process_metric (JObj fields') with
         | Ok (df, warnings) =>
             df = (parsed before ++ parsed after)%list
             /\ warnings = (failures before ++ failures after)%list
             /\ process_metric (JObj fields) =
                  Ok (df, (failures before ++ e :: failures after)%list)
         | Raise e' => process_metric (JObj fields) = Raise e'
         end
      /\ forall df warnings,
           process_metric (JObj fields) = Ok (df, warnings) ->
           forall ifields t v rest ts x labels,
             In (JObj ifields) (before ++ after) ->
             dict_lookup "value" ifields = Some (JArr (t :: v :: rest)) ->
             fromtimestamp t = Ok ts ->
             py_float v = Ok x ->
             labels_of ifields = JObj labels ->
             exists r : Row,
               In r df /\ timestamp r = ts /\ value r = x /\ metric r = JObj labels.
Proof.
  intros fields dfields fields' dfields' before after bad Hd Hr Hd' Hr' Hbad.
  destruct (malformed_raises bad Hbad) as [e He].
  assert (Hp : parsed (before ++ bad :: after) = parsed (before ++ after)).
  { rewrite !parsed_app. f_equal. unfold parsed. cbn [flat_map]. now rewrite He. }
  assert (Hf : failures (before ++ bad :: after)
               = (failures before ++ e :: failures after)%list).
  { rewrite failures_app. f_equal. unfold failures. cbn [flat_map]. now rewrite He. }
  pose proof (process_metric_list fields dfields _ Hd Hr) as Hrun.
  pose proof (process_metric_list fields' dfields' _ Hd' Hr') as Hrun'.
  rewrite Hp, Hf in Hrun. rewrite failures_app in Hrun'.
  exists e. split; [exact He|]. split; [|split].
  - now rewrite (warned_list fields dfields _ Hd Hr).
  - rewrite Hrun', Hrun.
    destruct (pd_DataFrame (parsed (before ++ after))) as [df|e'] eqn:Ef;
      cbn [rbind]; [|reflexivity].
    apply pd_DataFrame_Ok in Ef. subst df.
    split; [apply parsed_app|]. split; reflexivity.
  - intros df warnings Hok ifields t v rest ts x labels Hin Hv Ht Hx Hl.
    rewrite Hrun in Hok.
    destruct (pd_DataFrame (parsed (before ++ after))) as [df'|e'] eqn:Ef;
      cbn [rbind] in Hok; [|discriminate].
    apply pd_DataFrame_Ok in Ef. inversion Hok; subst df' df warnings.
    destruct (parse_item_well_formed ifields t v rest ts x labels Hv Ht Hx Hl)
      as (r & Hr0 & H1 & H2 & H3).
    exists r. split; [exact (parsed_In _ _ r Hin Hr0)|]. now repeat split.
Qed.
End ParserFacts.

Lemma process_metric_skips_witness :
  let good := device_item "eth0" "90" in
  let bad := device_item "eth1" "n/a" in
  let last := device_item "eth2" "10" in
  @malformed reference bad = true
  /\ @process_metric reference (JObj (vector_response [good; last])) =
       Ok ([{| timestamp := 1000000000; value := 90;
               metric := JObj [("device", JStr "eth0")];
               mode := "unknown"; device := "eth0" |};
            {| timestamp := 1000000000; value := 10;
               metric := JObj [("device", JStr "eth2")];
               mode := "unknown"; device := "eth2" |}],
           [])
  /\ @process_metric reference (JObj (vector_response [good; bad; last])) =
       Ok ([{| timestamp := 1000000000; value := 90;
               metric := JObj [("device", JStr "eth0")];
               mode := "unknown"; device := "eth0" |};
            {| timestamp := 1000000000; value := 10;
               metric := JObj [("device", JStr "eth2")];
               mode := "unknown"; device := "eth2" |}],
           [ValueError]).
Proof.
  intros good bad last. split; [reflexivity|]. split; [reflexivity|].
  destruct (@process_metric_skips_malformed_items reference
              (vector_response [good; bad; last])
              [("resultType", JStr "vector"); ("result", JArr [good; bad; last])]
              (vector_response [good; last])
              [("resultType", JStr "vector"); ("result", JArr [good; last])]
              [good] [last] bad eq_refl eq_refl eq_refl eq_refl eq_refl)
    as (e & He & _ & Hrel & _).
  vm_compute in He. inversion He; subst e.
  destruct (@process_metric reference (JObj (vector_response [good; last])))
    as [[df ws]|e'] eqn:E; vm_compute in E; [|discriminate E].
  destruct Hrel as (_ & _ & Hrun). rewrite Hrun.
  inversion E; subst df. reflexivity.
Defined.

(** ** The client and its retries *)

Section ClientFacts.
Variable backend : Backend.

Lemma emit_run (e : event) (w : world) :
  emit e w = (tt, {| sent := sent w; trace := (trace w ++ [e])%list |}).
Proof. reflexivity. Qed.

Lemma session_send_unfold (r : Retry) (hops : nat) (q : string) :
  session_send backend r hops q =
  bind (urlopen backend r (total r) 0 q) (fun resp =>
    match resp with
    | Raise e => ret (Raise e)
    | Ok (Plain status body) => ret (Ok (status, body))
    | Ok (Located status location) =>
        if mem_status status REDIRECT_STATI
        then
          match hops with
          | O => ret (Raise TooManyRedirects)
          | S hops' =>
              match location with
              | None => ret (Raise InvalidURL)
              | Some target => session_send backend r hops' target
              end
          end
        else ret (Ok (status, None))
    end).
Proof. destruct hops; reflexivity. Qed.

Lemma urlopen_transient (r : Retry) (q : string) :
  status_forcelist r = status_forcelist (max_retries prom_client) ->
  (forall n, transient (backend n q) = true) ->
  forall left errors w,
    urlopen backend r left errors q w =
    (Raise RetryError,
     {| sent := sent w + S left;
        trace := (trace w ++ exhausted_trace r left errors q)%list |}).
Proof.
  intros Hr Hall left.
  induction left as [|left IH]; intros errors w.
  - cbn [urlopen]. unfold bind, send.
    specialize (Hall (sent w)). unfold transient in Hall.
    destruct (backend (sent w) q) as [status [ra|] body|status loc|]; try discriminate.
    unfold is_retry. rewrite Hr, Hall. cbn [orb ret exhausted_trace].
    now rewrite Nat.add_1_r.
  - cbn [urlopen]. unfold bind at 1. unfold send at 1.
    pose proof (Hall (sent w)) as Hw. unfold transient in Hw.
    destruct (backend (sent w) q) as [status [ra|] body|status loc|]; try discriminate.
    unfold is_retry. rewrite Hr, Hw. cbn [orb].
    unfold bind at 1. unfold retry_sleep.
    cbn [exhausted_trace]. unfold backoff_events.
    destruct (0 <? get_backoff_time r (S errors)) eqn:Hb.
    + unfold sleep. rewrite emit_run, IH. cbn [sent trace].
      f_equal. f_equal; [lia|]. now rewrite <- !app_assoc.
    + unfold ret. rewrite IH. cbn [sent trace].
      f_equal. f_equal; [lia|]. now rewrite <- !app_assoc.
Qed.
End ClientFacts.

(** C1, as the code has it.  When every attempt of a query is answered with
    a status of the force list (503 for one), [query] sends four requests,
    the first one and the three retries that [total=3] allows; it sleeps
    before the second and the third retry only, for 2 s and 4 s (6 s in
    all, no less than 3 s); nothing follows the last request but the
    [st.error] of the [RetryError], and [query] returns [None]. *)
Theorem query_transient_failures_exhaust_retries :
  forall (backend : Backend) (q : string) (w : world),
    (forall n, transient (backend n q) = true) ->
    let attempts :=
      [Request q; Request q; Sleep 2000; Request q; Sleep 4000; Request q] in
    query backend prom_client q w =
      (JNull, {| sent := sent w + 4;
                 trace := (trace w ++ attempts ++ [StError RetryError])%list |})
    /\ requests attempts = 4%nat
    /\ sleeps attempts = [2000; 4000]
    /\ 3000 <= total_sleep attempts
    /\ List.last attempts (Sleep 0) = Request q.
Proof.
  intros backend q w Hall attempts. repeat split; try reflexivity.
  - unfold query, session_get. rewrite session_send_unfold. unfold bind.
    rewrite (urlopen_transient backend _ q eq_refl Hall).
    unfold ret. cbn [rbind]. rewrite emit_run. unfold ret. cbn [sent trace].
    f_equal. f_equal. now rewrite <- app_assoc.
  - unfold total_sleep. simpl. lia.
Qed.

Lemma query_transient_failures_witness :
  (forall n, transient (always_503 n "up") = true) /\
  query always_503 prom_client "up" start =
    (JNull, {| sent := 4;
               trace := [Request "up"; Request "up"; Sleep 2000; Request "up";
                         Sleep 4000; Request "up"; StError RetryError] |}).
Proof.
  split; [reflexivity|].
  exact (proj1 (query_transient_failures_exhaust_retries always_503 "up" start
                  (fun n => eq_refl))).
Defined.

(** C1, as the specification has it, fails on a backend that always answers
    503: the requests are not three and the delays not 1 s and 2 s. *)
Lemma query_503_three_attempts_refuted :
  let t := trace (snd (query always_503 prom_client "up" start)) in
  ~ (requests t = 3%nat /\ sleeps t = [1000; 2000]).
Proof. intros t [H _]. vm_compute in H. discriminate H. Qed.
(** ** Counting in traces *)

Lemma cycles_snoc (t : list event) (e : event) :
  is_rendered e = false -> cycles (t ++ [e]) = cycles t.
Proof.
  intros H. unfold cycles. rewrite filter_app, length_app. simpl.
  rewrite H. simpl. lia.
Qed.

Lemma cycles_snoc_rendered (t : list event) (v : View) :
  cycles (t ++ [Rendered v]) = S (cycles t).
Proof.
  unfold cycles. rewrite filter_app, length_app. simpl. lia.
Qed.

Lemma requests_app (t u : list event) :
  requests (t ++ u) = (requests t + requests u)%nat.
Proof. unfold requests. now rewrite filter_app, length_app. Qed.

Lemma st_errors_app (t u : list event) :
  st_errors (t ++ u) = (st_errors t + st_errors u)%nat.
Proof. unfold st_errors. now rewrite filter_app, length_app. Qed.

Lemma pauses_app (t u : list event) :
  pauses (t ++ u) = (pauses t + pauses u)%nat.
Proof. unfold pauses. now rewrite filter_app, length_app. Qed.

Lemma cycles_app (t u : list event) :
  cycles (t ++ u) = (cycles t + cycles u)%nat.
Proof. unfold cycles. now rewrite filter_app, length_app. Qed.

Lemma sleeps_app (t u : list event) : sleeps (t ++ u) = (sleeps t ++ sleeps u)%list.
Proof.
  induction t as [|e t IH]; [reflexivity|].
  destruct e; cbn [app sleeps]; now rewrite IH.
Qed.

Lemma extend_nil (w : world) : extend w [] = w.
Proof.
  destruct w as [s t]. unfold extend. cbn [sent trace requests filter List.length].
  now rewrite Nat.add_0_r, app_nil_r.
Qed.

Lemma extend_app (w : world) (a b : list event) :
  extend (extend w a) b = extend w (a ++ b).
Proof.
  unfold extend. cbn [sent trace].
  now rewrite requests_app, Nat.add_assoc, app_assoc.
Qed.

Lemma emit_extend (e : event) (w : world) :
  is_request e = false -> emit e w = (tt, extend w [e]).
Proof.
  intros H. unfold emit, extend, requests. cbn [filter]. rewrite H.
  cbn [List.length]. now rewrite Nat.add_0_r.
Qed.

Lemma send_extend (backend : Backend) (q : string) (w : world) :
  send backend q w = (backend (sent w) q, extend w [Request q]).
Proof.
  unfold send, extend, requests. cbn [filter is_request List.length].
  now rewrite Nat.add_1_r.
Qed.

(** The events of the adapter are neither pauses of the fetch pass, nor
    messages, nor renderings. *)
Lemma adapter_events_counts (es : list event) :
  forallb adapter_event es = true ->
  pauses es = 0%nat /\ st_errors es = 0%nat /\ cycles es = 0%nat.
Proof.
  induction es as [|e es IH]; [now repeat split|].
  cbn [forallb]. intros H. apply andb_prop in H. destruct H as [He Hes].
  destruct (IH Hes) as [Hp [Hs Hc]].
  unfold pauses, st_errors, cycles in *.
  destruct e; cbn in He; try discriminate; cbn [filter is_pause is_st_error is_rendered];
    try (now repeat split).
  destruct (ms =? 100) eqn:E; [|now repeat split].
  apply Z.eqb_eq in E. apply Z.leb_le in He. lia.
Qed.

Lemma backoff_events_adapter (r : Retry) (n : nat) :
  forallb adapter_event (backoff_events r n) = true
  /\ requests (backoff_events r n) = 0%nat.
Proof.
  unfold backoff_events.
  destruct (0 <? get_backoff_time r n) eqn:E; [|now split].
  split; [|reflexivity]. cbn. apply Z.ltb_lt in E.
  rewrite andb_true_r. apply Z.leb_le. lia.
Qed.

Lemma retry_sleep_extend (r : Retry) (n : nat) (ra : option Z) (w : world) :
  exists es,
    retry_sleep r n ra w = (tt, extend w es)
    /\ forallb adapter_event es = true
    /\ requests es = 0%nat
    /\ (ra = None -> es = backoff_events r n).
Proof.
  assert (Hb : retry_sleep r n None w = (tt, extend w (backoff_events r n))).
  { unfold retry_sleep, backoff_events, sleep.
    destruct (0 <? get_backoff_time r n).
    - now apply emit_extend.
    - unfold ret. now rewrite extend_nil. }
  destruct ra as [s|].
  - unfold retry_sleep. destruct (0 <? s) eqn:Es.
    + exists [Sleep (s * 1000)]. split; [now apply emit_extend|].
      split; [|split; [reflexivity|discriminate]].
      cbn. apply Z.ltb_lt in Es. rewrite andb_true_r. apply Z.leb_le. lia.
    + exists (backoff_events r n). split; [exact Hb|].
      destruct (backoff_events_adapter r n) as [Ha Hr].
      split; [exact Ha|]. split; [exact Hr|discriminate].
  - exists (backoff_events r n). split; [exact Hb|].
    destruct (backoff_events_adapter r n) as [Ha Hr].
    split; [exact Ha|]. split; [exact Hr|reflexivity].
Qed.

Section ClientTraces.
Variable backend : Backend.

Lemma urlopen_extend (r : Retry) (q : string) :
  forall left errors w,
  exists res es,
    urlopen backend r left errors q w = (res, extend w es)
    /\ urlopen_adds backend r q left errors res es.
Proof.
  assert (Hone : forall left errors res,
            (forall status location,
               res = Ok (Located status location) ->
               exists n, backend n q = Redirect status location) ->
            (forall status body,
               res = Ok (Plain status body) ->
               exists n retry_after, backend n q = Response status retry_after body) ->
            urlopen_adds backend r q left errors res [Request q]).
  { intros left errors res H1 H2. unfold urlopen_adds.
    split; [reflexivity|]. split; [cbn; lia|]. split; [intros _; reflexivity|].
    now split. }
  induction left as [|left IH]; intros errors w;
    cbn [urlopen]; unfold bind at 1; rewrite send_extend.
  - destruct (backend (sent w) q) as [status ra body|status loc|] eqn:Eb.
    + destruct (is_retry r 0 status _); unfold ret; eexists; exists [Request q];
        (split; [reflexivity|]); apply Hone; intros ? ? H; inversion H; subst; eauto.
    + destruct (is_retry r 0 status _); unfold ret; eexists; exists [Request q];
        (split; [reflexivity|]); apply Hone; intros ? ? H; inversion H; subst; eauto.
    + unfold ret; eexists; exists [Request q];
        (split; [reflexivity|]); apply Hone; intros ? ? H; inversion H.
  - assert (Hstep : forall ra,
              (no_retry_after backend q -> ra = None) ->
              exists res es,
                bind (retry_sleep r (S errors) ra)
                     (fun _ => urlopen backend r left (S errors) q)
                     (extend w [Request q]) = (res, extend w es)
                /\ urlopen_adds backend r q (S left) errors res es).
    { intros ra Hra. unfold bind.
      destruct (retry_sleep_extend r (S errors) ra (extend w [Request q]))
        as (es1 & Hs & Ha1 & Hr1 & Hb1).
      rewrite Hs.
      destruct (IH (S errors) (extend (extend w [Request q]) es1))
        as (res & es2 & Hu & Ha2 & Hr2 & Hb2 & Hl2 & Hp2).
      rewrite Hu. exists res, ([Request q] ++ es1 ++ es2)%list.
      rewrite !extend_app. split; [reflexivity|]. unfold urlopen_adds.
      split; [cbn [app forallb adapter_event andb]; now rewrite forallb_app, Ha1, Ha2|].
      rewrite !requests_app, Hr1. cbn [requests filter is_request List.length].
      split; [lia|]. split; [|split; assumption].
      intros Hno. rewrite !sleeps_app, (Hb2 Hno). cbn [sleeps app].
      rewrite (Hb1 (Hra Hno)).
      replace (1 + (0 + requests es2) - 1)%nat with (S (requests es2 - 1)) by lia.
      reflexivity. }
    destruct (backend (sent w) q) as [status ra body|status loc|] eqn:Eb.
    + destruct (is_retry r (S left) status _).
      * apply Hstep. intros Hno. specialize (Hno (sent w)). rewrite Eb in Hno.
        destruct ra; [contradiction|reflexivity].
      * unfold ret; eexists; exists [Request q];
          (split; [reflexivity|]); apply Hone; intros ? ? H; inversion H; subst; eauto.
    + destruct (is_retry r (S left) status _).
      * apply Hstep. reflexivity.
      * unfold ret; eexists; exists [Request q];
          (split; [reflexivity|]); apply Hone; intros ? ? H; inversion H; subst; eauto.
    + apply Hstep. reflexivity.
Qed.

(** What [session.get] adds to the trace: the events of the adapter, for
    at most as many requests as the policy allows on each of the URLs the
    redirects lead through. *)
Lemma session_send_extend (r : Retry) :
  forall hops q w,
  exists res es,
    session_send backend r hops q w = (res, extend w es)
    /\ forallb adapter_event es = true
    /\ (1 <= requests es <= S hops * S (total r))%nat
    /\ (no_redirect backend q ->
        (requests es <= S (total r))%nat
        /\ (no_retry_after backend q ->
            sleeps es = backoffs r 0 (requests es - 1))).
Proof.
  induction hops as [|hops IH]; intros q w; rewrite session_send_unfold;
    unfold bind;
    destruct (urlopen_extend r q (total r) 0 w)
      as (res & es & Hu & Ha & Hr & Hb & Hl & _);
    rewrite Hu;
    (destruct res as [[status body|status loc]|e];
     [ | destruct (mem_status status REDIRECT_STATI) eqn:Em | ]).
  all: try (unfold ret; eexists; exists es; split; [reflexivity|];
            split; [exact Ha|]; split; [nia|]; intros _; split; [lia|exact Hb]).
  destruct loc as [target|].
  - destruct (IH target (extend w es)) as (res2 & es2 & Hu2 & Ha2 & Hr2 & _).
    rewrite Hu2, extend_app. exists res2, (es ++ es2)%list.
    split; [reflexivity|]. split; [now rewrite forallb_app, Ha, Ha2|].
    rewrite requests_app. split; [nia|]. intros Hno.
    destruct (Hl status (Some target) eq_refl) as [n Hn]. specialize (Hno n).
    rewrite Hn in Hno. cbn [redirects] in Hno. congruence.
  - unfold ret; eexists; exists es; split; [reflexivity|].
    split; [exact Ha|]. split; [nia|]. intros _. split; [lia|exact Hb].
Qed.

(** What one call of [query] adds to the trace: the events of the adapter,
    then one [st.error] when it returns [None] for an exception. *)
Lemma query_extend (q : string) (w : world) :
  exists j es errs,
    query backend prom_client q w = (j, extend w (es ++ errs))
    /\ forallb adapter_event es = true
    /\ (1 <= requests es <= 124)%nat
    /\ (no_redirect backend q ->
        (requests es <= 4)%nat
        /\ (no_retry_after backend q ->
            sleeps es = backoffs (max_retries prom_client) 0 (requests es - 1)))
    /\ (errs = [] \/ exists e, errs = [StError e] /\ j = JNull).
Proof.
  unfold query, session_get, bind.
  destruct (session_send_extend (max_retries prom_client) DEFAULT_REDIRECT_LIMIT q w)
    as (res & es & Hu & Ha & Hr & Hb).
  rewrite Hu. change (S DEFAULT_REDIRECT_LIMIT * S (total (max_retries prom_client)))%nat
    with 124%nat in Hr.
  change (S (total (max_retries prom_client))) with 4%nat in Hb.
  destruct (rbind res _) as [j|e].
  - exists j, es, []. unfold ret. rewrite app_nil_r.
    split; [reflexivity|]. split; [exact Ha|]. split; [exact Hr|].
    split; [exact Hb|]. now left.
  - exists JNull, es, [StError e]. rewrite emit_extend by reflexivity.
    unfold ret. rewrite extend_app.
    split; [reflexivity|]. split; [exact Ha|]. split; [exact Hr|].
    split; [exact Hb|]. right. now exists e.
Qed.

Lemma query_quiet (q : string) (w : world) :
  cycles (trace (snd (query backend prom_client q w))) = cycles (trace w).
Proof.
  destruct (query_extend q w) as (j & es & errs & Hq & Ha & _ & _ & Herr).
  rewrite Hq. cbn [snd extend trace].
  destruct (adapter_events_counts es Ha) as [_ [_ Hc]].
  rewrite !cycles_app, Hc.
  destruct Herr as [->|[e [-> _]]]; cbn; lia.
Qed.

(** Where the result of [query] comes from when no request for [q] is
    answered with a [Location] header: it is [None], or the body of a
    response whose status is no error status. *)
Lemma query_result (q : string) (w : world) :
  (forall n, match backend n q with Redirect _ _ => False | _ => True end) ->
  fst (query backend prom_client q w) = JNull
  \/ exists n status retry_after,
       backend n q = Response status retry_after
                       (Some (fst (query backend prom_client q w)))
       /\ (400 <=? status) && (status <? 600) = false.
Proof.
  intros Hno. unfold query, session_get. rewrite session_send_unfold. unfold bind.
  destruct (urlopen_extend (max_retries prom_client) q
              (total (max_retries prom_client)) 0 w)
    as (res & es & Hu & _ & _ & _ & Hl & Hp).
  rewrite Hu. destruct res as [[status body|status loc]|e].
  - unfold ret. cbn [rbind fst snd]. unfold raise_for_status.
    destruct ((400 <=? status) && (status <? 600)) eqn:Es; cbn [rbind];
      [now left|].
    destruct body as [j|]; cbn [response_json fst]; [|now left].
    destruct (Hp status (Some j) eq_refl) as (n & ra & Hn).
    right. now exists n, status, ra.
  - destruct (Hl status loc eq_refl) as [n Hn]. specialize (Hno n).
    rewrite Hn in Hno. contradiction.
  - unfold ret. cbn [rbind fst]. now left.
Qed.

(** A query that meets failing outcomes only returns [None]. *)
Lemma query_failing (q : string) :
  (forall n, failing (backend n q) = true) ->
  forall w, fst (query backend prom_client q w) = JNull.
Proof.
  intros Hall w.
  destruct (query_result q w) as [H|(n & status & ra & Hn & Hs)]; [|exact H|].
  - intros n. specialize (Hall n). destruct (backend n q); [exact I|discriminate|exact I].
  - specialize (Hall n). rewrite Hn in Hall. cbn [failing] in Hall.
    rewrite Hs in Hall. discriminate.
Qed.
End ClientTraces.

(** ** The fetch pass and the refresh loop *)

Section FetchFacts.
Context {B : Builtins}.
Variable backend : Backend.

Lemma process_metric_None : process_metric JNull = Ok ([], []).
Proof. reflexivity. Qed.

Lemma fetch_loop_failed_query (name q : string) (rest : list (string * string))
    (results : list (string * DataFrame)) (w : world) :
  fst (query backend prom_client q w) = JNull ->
  fetch_loop backend ((name, q) :: rest) results w =
  fetch_loop backend rest (dict_set results name [])
             (snd (sleep 100 (snd (query backend prom_client q w)))).
Proof.
  intros H. cbn [fetch_loop]. unfold bind at 1.
  destruct (query backend prom_client q w) as [j w1]. cbn [fst] in H. subst j.
  rewrite process_metric_None. reflexivity.
Qed.

Lemma fetch_loop_outage :
  (forall n q, failing (backend n q) = true) ->
  forall entries results w,
    exists w',
      fetch_loop backend entries results w = (Ok (all_empty entries results), w')
      /\ cycles (trace w') = cycles (trace w).
Proof.
  intros Hall. induction entries as [|[name q] rest IH]; intros results w.
  - exists w. split; reflexivity.
  - rewrite fetch_loop_failed_query by (apply query_failing; intros n; apply Hall).
    destruct (IH (dict_set results name [])
                 (snd (sleep 100 (snd (query backend prom_client q w)))))
      as [w' [Hrun Hc]].
    exists w'. split; [exact Hrun|].
    rewrite Hc. unfold sleep. cbn [emit snd trace].
    rewrite cycles_snoc by reflexivity. apply query_quiet.
Qed.

Lemma display_all_empty :
  exists v, display_metrics (all_empty METRICS []) = Ok v.
Proof. eexists. reflexivity. Qed.

Lemma cycle_outage (auto_refresh : bool) (refresh_rate : Z) :
  (forall n q, failing (backend n q) = true) ->
  forall w, exists w',
    cycle backend auto_refresh refresh_rate w = (Ok tt, w')
    /\ cycles (trace w') = S (cycles (trace w)).
Proof.
  intros Hall w. unfold cycle, fetch_metrics. unfold bind at 1.
  destruct (fetch_loop_outage Hall METRICS [] w) as [w1 [Hrun Hc]].
  rewrite Hrun.
  destruct display_all_empty as [v Hv]. rewrite Hv.
  destruct auto_refresh; (eexists; split; [reflexivity|]);
    cbn [trace]; rewrite !cycles_snoc by reflexivity;
    rewrite cycles_snoc_rendered, cycles_snoc by reflexivity; now rewrite Hc.
Qed.

Lemma main_loop_outage (auto_refresh : bool) (refresh_rate : Z) :
  (forall n q, failing (backend n q) = true) ->
  forall n w, exists w',
    main_loop backend n auto_refresh refresh_rate w = (Ok tt, w')
    /\ cycles (trace w') = (cycles (trace w) + n)%nat.
Proof.
  intros Hall. induction n as [|n IH]; intros w.
  - exists w. split; [reflexivity|lia].
  - cbn [main_loop]. unfold bind.
    destruct (cycle_outage auto_refresh refresh_rate Hall w) as [w1 [Hrun Hc]].
    rewrite Hrun. destruct (IH w1) as [w' [Hrun' Hc']].
    exists w'. split; [exact Hrun'|]. rewrite Hc', Hc. lia.
Qed.
End FetchFacts.

Lemma METRICS_names_NoDup : NoDup (map fst METRICS).
Proof.
  unfold METRICS. cbn [map fst].
  repeat (constructor; [cbn [In]; intuition discriminate|]). constructor.
Qed.

Lemma dict_lookup_set_same {V : Type} (d : list (string * V)) (k : string) (v : V) :
  dict_lookup k (dict_set d k v) = Some v.
Proof.
  induction d as [|[k' v'] rest IH]; cbn [dict_set dict_lookup].
  - now rewrite String.eqb_refl.
  - destruct (String.eqb k k') eqn:E; cbn [dict_lookup].
    + now rewrite String.eqb_refl.
    + now rewrite E.
Qed.

Lemma dict_lookup_set_other {V : Type} (d : list (string * V)) (k k0 : string) (v : V) :
  k0 <> k -> dict_lookup k0 (dict_set d k v) = dict_lookup k0 d.
Proof.
  intros Hne. induction d as [|[k' v'] rest IH]; cbn [dict_set dict_lookup].
  - destruct (String.eqb_spec k0 k); [contradiction|reflexivity].
  - destruct (String.eqb_spec k k') as [->|Hk]; cbn [dict_lookup].
    + destruct (String.eqb_spec k0 k'); [contradiction|reflexivity].
    + destruct (String.eqb k0 k'); [reflexivity|exact IH].
Qed.

Lemma keys_dict_set {V : Type} (d : list (string * V)) (k : string) (v : V) :
  map fst (dict_set d k v) = add_key (map fst d) k.
Proof.
  unfold add_key. induction d as [|[k' v'] rest IH]; cbn [dict_set map fst existsb].
  - reflexivity.
  - destruct (String.eqb k k') eqn:E; cbn [orb map fst].
    + apply String.eqb_eq in E. now subst.
    + rewrite IH. now destruct (existsb (String.eqb k) (map fst rest)).
Qed.

Section FetchResult.
Context {B : Builtins}.
Variable backend : Backend.

(** One turn of the loop of [fetch_metrics] that does not raise. *)
Lemma fetch_loop_step (name q : string) (rest : list (string * string))
    (results data : list (string * DataFrame)) (w w' : world) :
  fetch_loop backend ((name, q) :: rest) results w = (Ok data, w') ->
  exists df warnings w1,
    process_metric (fst (query backend prom_client q w)) = Ok (df, warnings)
    /\ fetch_loop backend rest (dict_set results name df) w1 = (Ok data, w').
Proof.
  cbn [fetch_loop]. unfold bind at 1.
  destruct (query backend prom_client q w) as [j w1]. cbn [fst].
  destruct (process_metric j) as [[df warnings]|e];
    [|unfold bind, ret; destruct (emit_all _ w1); discriminate].
  intros H. exists df, warnings.
  exists (snd (sleep 100 (snd (emit_all (map StWarning warnings) w1)))).
  split; [reflexivity|].
  unfold bind in H.
  destruct (emit_all (map StWarning warnings) w1) as [u1 w2]. cbn [snd].
  destruct (sleep 100 w2) as [u2 w3]. exact H.
Qed.

Lemma fetch_loop_other (name : string) :
  forall entries results data w w',
    ~ In name (map fst entries) ->
    fetch_loop backend entries results w = (Ok data, w') ->
    dict_lookup name data = dict_lookup name results.
Proof.
  induction entries as [|[n1 q1] rest IH]; intros results data w w' Hnot Hrun.
  - cbn in Hrun. now inversion Hrun.
  - destruct (fetch_loop_step _ _ _ _ _ _ _ Hrun) as (df & ws & w1 & _ & Hrest).
    cbn [map fst In] in Hnot.
    rewrite (IH _ _ _ _ (fun H => Hnot (or_intror H)) Hrest).
    apply dict_lookup_set_other. intros ->. apply Hnot. now left.
Qed.

Lemma fetch_loop_failed_entry (name q : string) :
  (forall n, failing (backend n q) = true) ->
  forall entries results data w w',
    NoDup (map fst entries) ->
    In (name, q) entries ->
    fetch_loop backend entries results w = (Ok data, w') ->
    dict_lookup name data = Some [].
Proof.
  intros Hfail.
  induction entries as [|[n1 q1] rest IH]; intros results data w w' Hnd Hin Hrun.
  - contradiction.
  - destruct (fetch_loop_step _ _ _ _ _ _ _ Hrun) as (df & ws & w1 & Hp & Hrest).
    cbn [map fst] in Hnd. inversion Hnd as [|? ? Hnot Hnd']; subst.
    destruct Hin as [Heq|Hin].
    + inversion Heq; subst n1 q1.
      rewrite (query_failing backend q Hfail w) in Hp.
      rewrite process_metric_None in Hp. inversion Hp; subst df ws.
      rewrite (fetch_loop_other name _ _ _ _ _ Hnot Hrest).
      apply dict_lookup_set_same.
    + exact (IH _ _ _ _ Hnd' Hin Hrest).
Qed.

(** When a fetch pass returns, its keys are those of the catalog, in the
    catalog's order. *)
Lemma fetch_loop_keys :
  forall entries results data w w',
    fetch_loop backend entries results w = (Ok data, w') ->
    map fst data = fold_left add_key (map fst entries) (map fst results).
Proof.
  induction entries as [|[n1 q1] rest IH]; intros results data w w' Hrun.
  - cbn in Hrun. now inversion Hrun.
  - destruct (fetch_loop_step _ _ _ _ _ _ _ Hrun) as (df & ws & w1 & _ & Hrest).
    rewrite (IH _ _ _ _ Hrest). cbn [map fst fold_left].
    now rewrite keys_dict_set.
Qed.

Lemma fetch_metrics_keys (data : list (string * DataFrame)) (w w' : world) :
  fetch_metrics backend w = (Ok data, w') -> map fst data = map fst METRICS.
Proof.
  intros H. unfold fetch_metrics in H.
  rewrite (fetch_loop_keys _ _ _ _ _ H). reflexivity.
Qed.
End FetchResult.

(** C10. On a backend that answers [{"data": {}}], [fetch_metrics] returns
    no mapping at all: the [KeyError] of [process_metric] leaves it at the
    first catalog entry. *)
Theorem fetch_metrics_raises_on_data_without_result :
  forall B : Builtins,
    fst (@fetch_metrics B data_without_result start) = Raise KeyError.
Proof. intros B. reflexivity. Qed.

(** C9. With the "Auto Refresh" box unticked the loop of [main] keeps
    running fetch-and-display cycles, [n] of them in its first [n] turns,
    one second apart: on a backend that cannot be reached, for every [n],
    and on a backend that answers, for two turns, where the 20 queries of
    the two cycles are sent and each cycle is followed by a sleep of one
    second. *)
Theorem paused_loop_keeps_fetching :
  (forall (B : Builtins) (n : nat) (refresh_rate : Z),
      exists w',
        main unreachable false false refresh_rate n start = (Ok tt, w')
        /\ cycles (trace w') = n)
  /\ (let t := trace (snd (@main reference healthy false false 15 2 start)) in
      cycles t = 2%nat /\ requests t = 20%nat /\
      filter (fun ms => negb (ms =? 100)) (sleeps t) = [1000; 1000]).
Proof.
  split.
  - intros B n refresh_rate. unfold main, bind, ret.
    exact (main_loop_outage unreachable false refresh_rate
             (fun _ _ => eq_refl) n start).
  - vm_compute. repeat split; reflexivity.
Qed.

(** ** The statistics of the panels *)

Section FloatFacts.
Local Open Scope float_scope.

Lemma Prim2SF_one : Prim2SF 1 = S754_finite false 4503599627370496 (-52).
Proof. reflexivity. Qed.

Lemma Prim2SF_hundred : Prim2SF 100 = S754_finite false 7036874417766400 (-46).
Proof. reflexivity. Qed.

Lemma is_finite_SF (x : float) :
  is_finite x = match Prim2SF x with
                | S754_zero _ | S754_finite _ _ _ => true
                | _ => false
                end.
Proof.
  unfold is_finite, is_nan, is_infinity.
  rewrite !eqb_spec, abs_spec.
  change (Prim2SF infinity) with (S754_infinity false).
  destruct (Prim2SF x) as [s|s| |s m e]; simpl; try reflexivity.
  - destruct s; reflexivity.
  - unfold SFeqb, SFcompare; simpl.
    rewrite Z.compare_refl, Pos.compare_refl. destruct s; reflexivity.
Qed.

Lemma is_zero_SF (x : float) :
  (x =? 0) = true -> exists s, Prim2SF x = S754_zero s.
Proof.
  rewrite eqb_spec. change (Prim2SF 0) with (S754_zero false).
  destruct (Prim2SF x) as [s|s| |s m e]; intros H.
  - now exists s.
  - destruct s; discriminate H.
  - discriminate H.
  - destruct s; discriminate H.
Qed.

(** With a zero mean the delta is NaN or infinite. *)
Lemma delta_pct_zero_mean (latest mean : float) :
  (mean =? 0) = true -> is_finite (delta_pct latest mean) = false.
Proof.
  intros H. destruct (is_zero_SF mean H) as [s Hs].
  rewrite is_finite_SF. unfold delta_pct.
  rewrite mul_spec, sub_spec, div_spec, Prim2SF_one, Prim2SF_hundred, Hs.
  destruct (Prim2SF latest) as [s'|s'| |s' m' e]; simpl; try reflexivity;
    destruct s', s; reflexivity.
Qed.

Lemma not_finite_not_zero (x : float) : is_finite x = false -> (x =? 0) = false.
Proof.
  rewrite is_finite_SF, eqb_spec. change (Prim2SF 0) with (S754_zero false).
  destruct (Prim2SF x) as [s|s| |s m e]; try discriminate; intros _.
  - destruct s; reflexivity.
  - reflexivity.
Qed.

(** [x < y] is [x <= y] without [x == y]. *)
Lemma ltb_leb_eqb (x y : float) : (x <? y) = (x <=? y) && negb (x =? y).
Proof.
  rewrite ltb_spec, leb_spec, eqb_spec. unfold SFltb, SFleb, SFeqb.
  destruct (SFcompare (Prim2SF x) (Prim2SF y)) as [[| |]|]; reflexivity.
Qed.
End FloatFacts.

Lemma iloc_last_snoc (rows : DataFrame) (r : Row) : iloc_last (rows ++ [r])%list = Some r.
Proof. unfold iloc_last. now rewrite rev_app_distr. Qed.

Lemma unique_acc_In (x : string) (l : list string) :
  forall seen,
    In x seen \/ In x l ->
    In x (fold_left
            (fun seen x => if existsb (String.eqb x) seen then seen
                           else (seen ++ [x])%list) l seen).
Proof.
  induction l as [|y l IH]; intros seen [H|H]; cbn [fold_left].
  - exact H.
  - contradiction.
  - apply IH. left. destruct (existsb (String.eqb y) seen); [exact H|].
    apply in_or_app. now left.
  - apply IH. destruct H as [->|H]; [left|now right].
    destruct (existsb (String.eqb x) seen) eqn:E.
    + apply existsb_exists in E. destruct E as [z [Hz Hxz]].
      apply String.eqb_eq in Hxz. now subst.
    + apply in_or_app. right. now left.
Qed.

Lemma unique_In (x : string) (l : list string) : In x l -> In x (unique l).
Proof. intros H. apply unique_acc_In. now right. Qed.

(** What a card of a per-device loop shows. *)
Lemma device_cards_In (skip_loop with_delta : bool) (df : DataFrame) (c : Card) :
  In c (device_cards skip_loop with_delta df) ->
  exists r,
    iloc_last (device_rows df (card_key c)) = Some r
    /\ card_value c = value r
    /\ card_delta c =
         (if with_delta
          then Some (delta_pct (value r) (mean_value (device_rows df (card_key c))))
          else None).
Proof.
  unfold device_cards. intros H. apply in_flat_map in H.
  destruct H as [dev [_ H]].
  destruct (skip_loop && str_contains "loop" dev); [contradiction|].
  destruct (iloc_last (device_rows df dev)) as [r|] eqn:E; [|contradiction].
  destruct H as [<-|[]]. cbn [card_key card_value card_delta].
  exists r. repeat split; assumption || reflexivity.
Qed.

(** C4, as the code has it.  The delta of every group is
    [(latest / mean - 1) * 100] in double arithmetic, with no special case:
    when the mean of the group is zero the result is NaN or infinite, and
    so never zero. *)
Theorem delta_pct_has_no_zero_mean_case :
  (forall skip_loop df c,
      In c (device_cards skip_loop true df) ->
      card_delta c =
        Some ((card_value c / mean_value (device_rows df (card_key c)) - 1) * 100)%float)
  /\ (forall g,
        mount_delta (mount_card g) =
          ((mount_value (mount_card g) / mean_value (snd g) - 1) * 100)%float)
  /\ (forall latest mean,
        (mean =? 0)%float = true ->
        is_finite (delta_pct latest mean) = false
        /\ (delta_pct latest mean =? 0)%float = false).
Proof.
  split; [|split].
  - intros skip_loop df c H.
    destruct (device_cards_In _ _ _ _ H) as [r [_ [Hv Hd]]].
    rewrite Hd, Hv. reflexivity.
  - intros g. reflexivity.
  - intros latest mean H. split.
    + now apply delta_pct_zero_mean.
    + apply not_finite_not_zero. now apply delta_pct_zero_mean.
Qed.

Lemma delta_pct_witness :
  let df := [device_row 1000 0 "eth0"] in
  let c := {| card_key := "eth0"; card_value := 0; card_delta := Some nan |} in
  (In c (device_cards false true df)
   /\ card_delta c =
        Some ((card_value c / mean_value (device_rows df (card_key c)) - 1) * 100)%float)
  /\ (mean_value df =? 0)%float = true
  /\ is_finite (delta_pct 0 (mean_value df)) = false
  /\ (delta_pct 0 (mean_value df) =? 0)%float = false.
Proof.
  intros df c.
  assert (Hin : In c (device_cards false true df)) by (left; reflexivity).
  split; [split; [exact Hin|]|split; [reflexivity|]].
  - exact (proj1 delta_pct_has_no_zero_mean_case false df c Hin).
  - exact (proj2 (proj2 delta_pct_has_no_zero_mean_case) 0%float
             (mean_value df) eq_refl).
Defined.

(** C4, as the specification has it, fails on a device whose only sample
    is 0: the mean of the group is 0 and the delta is NaN, not 0. *)
Lemma delta_zero_mean_counterexample :
  let df := [device_row 1000 0 "eth0"] in
  (mean_value (device_rows df "eth0") =? 0)%float = true
  /\ map card_delta (device_cards false true df) = [Some nan]
  /\ (nan =? 0)%float = false.
Proof. repeat split; reflexivity. Qed.

(** *** The latest value of a group *)

Lemma nondecreasing_snoc (l : list Z) (x : Z) :
  nondecreasing (l ++ [x]) = true ->
  nondecreasing l = true /\ forall y, In y l -> y <= x.
Proof.
  induction l as [|a l IH]; intros H.
  - split; [reflexivity|intros y []].
  - destruct l as [|b l].
    + cbn in H. apply andb_prop in H. destruct H as [H _].
      split; [reflexivity|]. intros y [<-|[]]. now apply Z.leb_le.
    + change (nondecreasing ((a :: b :: l) ++ [x]))
        with ((a <=? b) && nondecreasing ((b :: l) ++ [x])) in H.
      apply andb_prop in H. destruct H as [Hab H].
      destruct (IH H) as [Hs Hle]. split.
      * change (nondecreasing (a :: b :: l)) with ((a <=? b) && nondecreasing (b :: l)).
        now rewrite Hab, Hs.
      * intros y [<-|Hy]; [|now apply Hle].
        apply Z.leb_le in Hab. specialize (Hle b (or_introl eq_refl)). lia.
Qed.

Lemma latest_by_timestamp_In (rows : list Row) (b : Row) :
  latest_by_timestamp rows = Some b -> In b rows.
Proof.
  unfold latest_by_timestamp.
  induction rows as [|r rows IH] using rev_ind; [discriminate|].
  rewrite fold_left_app. cbn [fold_left].
  destruct (fold_left _ rows None) as [b0|].
  - destruct (timestamp b0 <=? timestamp r); intros H; inversion H; subst.
    + apply in_or_app. right. now left.
    + apply in_or_app. left. now apply IH.
  - intros H; inversion H; subst. apply in_or_app. right. now left.
Qed.

(** On a group whose timestamps do not decrease along the rows, the last
    row is the one with the greatest timestamp, last seen among equals. *)
Lemma latest_by_timestamp_sorted (rows : list Row) :
  nondecreasing (map timestamp rows) = true ->
  latest_by_timestamp rows = iloc_last rows.
Proof.
  destruct rows as [|r rows] using rev_ind; [reflexivity|].
  intros H. rewrite iloc_last_snoc.
  rewrite map_app in H. cbn [map] in H.
  destruct (nondecreasing_snoc _ _ H) as [_ Hle].
  unfold latest_by_timestamp. rewrite fold_left_app. cbn [fold_left].
  destruct (fold_left _ rows None) as [b|] eqn:E; [|reflexivity].
  assert (Hb : timestamp b <= timestamp r).
  { apply Hle. apply in_map. now apply latest_by_timestamp_In. }
  apply Z.leb_le in Hb. now rewrite Hb.
Qed.

(** C8, as the code has it.  The value a group shows, in the per-device
    loops, in the headline numbers and in the storage panel, is that of its
    last row in input order, whatever the timestamps; it is the value of
    the record with the greatest timestamp, last seen among equals, when
    the timestamps of the group do not decrease along its rows (as when
    they are all equal). *)
Theorem latest_is_last_row :
  (forall skip_loop with_delta df c,
      In c (device_cards skip_loop with_delta df) ->
      let rows := device_rows df (card_key c) in
      option_map value (iloc_last rows) = Some (card_value c)
      /\ (nondecreasing (map timestamp rows) = true ->
          option_map value (latest_by_timestamp rows) = Some (card_value c)))
  /\ (forall data name,
        let rows := data_get data name in
        kpi data name = option_map value (iloc_last rows)
        /\ (nondecreasing (map timestamp rows) = true ->
            kpi data name = option_map value (latest_by_timestamp rows)))
  /\ (forall g,
        snd g <> [] ->
        option_map value (iloc_last (snd g)) = Some (mount_value (mount_card g))).
Proof.
  split; [|split].
  - intros skip_loop with_delta df c H rows.
    destruct (device_cards_In _ _ _ _ H) as [r [Hl [Hv _]]].
    fold rows in Hl. split.
    + rewrite Hl, Hv. reflexivity.
    + intros Hs. rewrite (latest_by_timestamp_sorted rows Hs), Hl, Hv. reflexivity.
  - intros data name rows. split; [reflexivity|].
    intros Hs. unfold kpi. fold rows. now rewrite latest_by_timestamp_sorted.
  - intros [k rows] Hne. unfold mount_card, current_value_of.
    cbn [snd mount_value] in *.
    destruct rows as [|r rows'] using rev_ind; [contradiction|].
    rewrite iloc_last_snoc. reflexivity.
Qed.

Lemma latest_is_last_row_witness :
  let df := [device_row 1000 1 "eth0"; device_row 1000 7 "eth1";
             device_row 1000 2 "eth0"] in
  let c := {| card_key := "eth0"; card_value := 2; card_delta := None |} in
  In c (device_cards false false df)
  /\ nondecreasing (map timestamp (device_rows df "eth0")) = true
  /\ option_map value (latest_by_timestamp (device_rows df "eth0")) = Some 2%float.
Proof.
  intros df c.
  assert (Hin : In c (device_cards false false df)) by (left; reflexivity).
  split; [exact Hin|]. split; [reflexivity|].
  exact (proj2 (proj1 latest_is_last_row false false df c Hin) eq_refl).
Defined.

(** C8, as the specification has it, fails on a group whose rows arrive
    newest first: the value shown is that of the last row, 2, and the
    record with the greatest timestamp holds 1. *)
Lemma latest_not_max_timestamp_counterexample :
  let df := [device_row 2000 1 "eth0"; device_row 1000 2 "eth0"] in
  map card_value (device_cards false true df) = [2%float]
  /\ option_map value (latest_by_timestamp (device_rows df "eth0")) = Some 1%float
  /\ (1 =? 2)%float = false.
Proof. repeat split; reflexivity. Qed.

(** *** The critical threshold *)

Lemma count_mounts_acc (groups : list (json * DataFrame)) :
  forall a b,
    fold_left
      (fun counters g =>
         let '(total_mounts, critical_mounts) := counters in
         let current_value := current_value_of (snd g) in
         (S total_mounts,
          if (85 <? current_value)%float then S critical_mounts else critical_mounts))
      groups (a, b)
    = ((a + List.length groups)%nat, (b + List.length (filter over_85 groups))%nat).
Proof.
  induction groups as [|g groups IH]; intros a b; cbn [fold_left filter List.length].
  - now rewrite !Nat.add_0_r.
  - rewrite IH. unfold over_85 at 2.
    destruct (85 <? current_value_of (snd g))%float; cbn [List.length];
      f_equal; lia.
Qed.

Lemma count_mounts_spec (groups : list (json * DataFrame)) :
  count_mounts groups = (List.length groups, List.length (filter over_85 groups)).
Proof. unfold count_mounts. now rewrite count_mounts_acc. Qed.

(** C5, as the code has it.  The storage panel counts a mount point as
    critical, and inverts the colour of its delta, when its latest value is
    strictly above 85, so a value equal to 85 is not counted (the test is
    the classifier's inclusive one less the boundary); its bar is blue
    below 85 and red otherwise; 70 is compared, strictly too, with the mean
    over all rows only, and no group is given a warning level. *)
Theorem critical_threshold_is_strict :
  (forall df s,
      storage_panel df = Ok s ->
      exists groups,
        mount_groups df = Ok groups
        /\ total_mounts s = List.length groups
        /\ critical_mounts s = List.length (filter over_85 groups)
        /\ over_target s = (70 <? mean_value df)%float
        /\ map mount_delta_color (details s) =
             map (fun g => if over_85 g then Inverse else Normal) groups
        /\ map snd (bars s) =
             map (fun g => if (current_value_of (snd g) <? 85)%float
                           then Blue else Red) groups)
  /\ (forall v,
        (85 <? v)%float = true <->
        classify_spec 70 85 v = critical /\ (85 =? v)%float = false).
Proof.
  split.
  - intros df s. unfold storage_panel.
    destruct (mount_groups df) as [groups|e]; cbn [rbind]; [|discriminate].
    rewrite count_mounts_spec. intros H. inversion H; subst; clear H.
    exists groups. cbn [total_mounts critical_mounts over_target details bars].
    repeat split; try reflexivity; rewrite map_map; reflexivity.
  - intros v. rewrite ltb_leb_eqb. unfold classify_spec.
    destruct (85 <=? v)%float; destruct (85 =? v)%float; cbn [andb negb];
      split; try discriminate; try (intros [H1 H2]; discriminate); auto.
    destruct (70 <=? v)%float; intros [H _]; discriminate H.
Qed.

Lemma critical_threshold_witness :
  let df := [mount_row 1000 90 "/"; mount_row 1000 85 "/data"] in
  (exists s, storage_panel df = Ok s
             /\ total_mounts s = 2%nat /\ critical_mounts s = 1%nat)
  /\ (85 <? 90)%float = true
  /\ classify_spec 70 85 90 = critical.
Proof.
  intros df.
  destruct (storage_panel df) as [s|e] eqn:E; [|discriminate E].
  destruct (proj1 critical_threshold_is_strict df s E)
    as [groups [Hg [Ht [Hc _]]]].
  assert (Hgroups : groups = [(JStr "/", [mount_row 1000 90 "/"]);
                              (JStr "/data", [mount_row 1000 85 "/data"])]).
  { vm_compute in Hg. now inversion Hg. }
  subst groups. split.
  - exists s. split; [reflexivity|]. split; [exact Ht|exact Hc].
  - split; [reflexivity|].
    exact (proj1 (proj1 (proj2 critical_threshold_is_strict 90%float) eq_refl)).
Defined.

(** C5, as the specification has it, fails on a mount point at exactly 85:
    the inclusive classifier says critical, the panel counts no critical
    mount point and leaves the delta colour normal. *)
Lemma boundary_85_not_critical_counterexample :
  let df := [mount_row 1000 85 "/"] in
  classify_spec 70 85 85 = critical
  /\ option_map (fun s => (total_mounts s, critical_mounts s,
                           map mount_delta_color (details s)))
       (match storage_panel df with Ok s => Some s | Raise _ => None end)
     = Some (1%nat, 0%nat, [Normal]).
Proof. split; reflexivity. Qed.

(** *** Records without the grouping label *)

Lemma mount_rows_In (k : json) :
  forall df rows r,
    mount_rows df k = Ok rows -> In r rows ->
    exists m, mountpoint_of (metric r) = Ok m /\ py_eq m k = true.
Proof.
  induction df as [|r0 df IH]; intros rows r Hrun Hin; cbn [mount_rows] in Hrun.
  - inversion Hrun; subst. contradiction.
  - destruct (mountpoint_of (metric r0)) as [m|e] eqn:Em; cbn [rbind] in Hrun;
      [|discriminate].
    destruct (mount_rows df k) as [rows0|e]; cbn [rbind] in Hrun; [|discriminate].
    inversion Hrun; subst; clear Hrun.
    destruct (py_eq m k) eqn:Ek.
    + destruct Hin as [<-|Hin]; [now exists m|]. now apply (IH rows0).
    + now apply (IH rows0).
Qed.

Lemma mount_groups_of_In (df : DataFrame) :
  forall keys groups g,
    mount_groups_of df keys = Ok groups -> In g groups ->
    shown_mount (fst g) = true /\ mount_rows df (fst g) = Ok (snd g).
Proof.
  induction keys as [|k keys IH]; intros groups g Hrun Hin; cbn [mount_groups_of] in Hrun.
  - inversion Hrun; subst. contradiction.
  - destruct (shown_mount k) eqn:Es; [|now apply (IH groups)].
    destruct (mount_rows df k) as [rows|e] eqn:Er; cbn [rbind] in Hrun; [|discriminate].
    destruct (mount_groups_of df keys) as [gs|e]; cbn [rbind] in Hrun; [|discriminate].
    inversion Hrun; subst; clear Hrun.
    destruct (empty rows); [now apply (IH gs)|].
    destruct Hin as [<-|Hin]; [now split|now apply (IH gs)].
Qed.

Lemma mount_groups_In (df : DataFrame) (groups : list (json * DataFrame))
    (g : json * DataFrame) :
  mount_groups df = Ok groups -> In g groups ->
  shown_mount (fst g) = true /\ mount_rows df (fst g) = Ok (snd g).
Proof.
  unfold mount_groups.
  destruct (mountpoints df) as [col|e]; cbn [rbind]; [|discriminate].
  destruct (unique_objects col) as [keys|e]; cbn [rbind]; [|discriminate].
  apply mount_groups_of_In.
Qed.

Lemma empty_key_not_shown (k : json) :
  py_eq (JStr EmptyString) k = true -> shown_mount k = false.
Proof.
  destruct k as [| | | |s| |]; cbn [py_eq]; try discriminate.
  intros H. apply String.eqb_eq in H. subst s. reflexivity.
Qed.

Lemma device_rows_In (df : DataFrame) (r : Row) :
  In r df -> In r (device_rows df (device r)).
Proof.
  intros H. unfold device_rows. apply filter_In. split; [exact H|].
  apply String.eqb_refl.
Qed.

Section LabelFacts.
Context {B : Builtins}.

Lemma parse_item_labels (item : json) (r : Row) :
  parse_item item = Ok r ->
  exists labels,
    metric r = JObj labels
    /\ mode r = py_str (match dict_lookup "mode" labels with
                        | Some v => v | None => JStr "unknown" end)
    /\ device r = py_str (match dict_lookup "device" labels with
                          | Some v => v | None => JStr "unknown" end).
Proof.
  unfold parse_item.
  destruct (py_get item "metric" (JObj [])) as [mi|e]; cbn [rbind]; [|discriminate].
  destruct (getitem item "value") as [pair|e]; cbn [rbind]; [|discriminate].
  destruct (getindex pair 0) as [t|e]; cbn [rbind]; [|discriminate].
  destruct (fromtimestamp t) as [ts|e]; cbn [rbind]; [|discriminate].
  destruct (getindex pair 1) as [v|e]; cbn [rbind]; [|discriminate].
  destruct (py_float v) as [x|e]; cbn [rbind]; [|discriminate].
  destruct mi as [| | | | | |labels]; cbn [py_get rbind]; try discriminate.
  intros H. inversion H; subst; clear H. exists labels.
  cbn [metric mode device]. repeat split; reflexivity.
Qed.

(** C6, as the code has it.  A record without the [device] label is in
    the group ["unknown"] of every per-device loop, and one without the
    [mode] label has the mode ["unknown"]; a record without the
    [mountpoint] label has the empty mount point and is in none of the
    groups of the storage panel. *)
Theorem missing_label_groups :
  forall (item : json) (r : Row),
    parse_item item = Ok r ->
    exists labels,
      metric r = JObj labels
      /\ (dict_lookup "device" labels = None ->
          device r = "unknown"
          /\ forall df, In r df ->
               In "unknown" (unique (map device df))
               /\ In r (device_rows df "unknown"))
      /\ (dict_lookup "mode" labels = None -> mode r = "unknown")
      /\ (dict_lookup "mountpoint" labels = None ->
          mountpoint_of (metric r) = Ok (JStr EmptyString)
          /\ forall df groups g,
               mount_groups df = Ok groups -> In g groups -> ~ In r (snd g)).
Proof.
  intros item r Hp.
  destruct (parse_item_labels item r Hp) as [labels [Hm [Hmode Hdev]]].
  exists labels. split; [exact Hm|]. split; [|split].
  - intros Hnone. rewrite Hnone in Hdev. cbn [py_str] in Hdev.
    split; [exact Hdev|]. intros df Hin. split.
    + apply unique_In. rewrite <- Hdev. now apply in_map.
    + rewrite <- Hdev. now apply device_rows_In.
  - intros Hnone. now rewrite Hnone in Hmode.
  - intros Hnone.
    assert (Hk : mountpoint_of (metric r) = Ok (JStr EmptyString)).
    { rewrite Hm. unfold mountpoint_of. cbn [py_get]. now rewrite Hnone. }
    split; [exact Hk|].
    intros df groups g Hg Hin Hr.
    destruct (mount_groups_In df groups g Hg Hin) as [Hshown Hrows].
    destruct (mount_rows_In (fst g) df (snd g) r Hrows Hr) as [m [Hm' He]].
    rewrite Hk in Hm'. inversion Hm'; subst m.
    rewrite (empty_key_not_shown _ He) in Hshown. discriminate.
Qed.
End LabelFacts.

Lemma missing_label_witness :
  let item := JObj [("metric", JObj []); ("value", JArr [JInt 1000; JStr "42.5"])] in
  let r := {| timestamp := 1000000000; value := 42.5; metric := JObj [];
              mode := "unknown"; device := "unknown" |} in
  @parse_item reference item = Ok r
  /\ In r (device_rows [r] "unknown")
  /\ mount_groups [r] = Ok [].
Proof.
  intros item r.
  assert (Hp : @parse_item reference item = Ok r) by reflexivity.
  destruct (@missing_label_groups reference item r Hp)
    as [labels [Hm [Hdev _]]].
  assert (Hl : labels = []) by (inversion Hm; reflexivity). subst labels.
  split; [exact Hp|]. split; [|reflexivity].
  exact (proj2 (proj2 (Hdev eq_refl) [r] (or_introl eq_refl))).
Defined.

(** C6, as the specification has it, fails for the mount point: the record
    of the end-to-end scenario, which has no labels, is in the group
    ["unknown"] of the per-device loops, but the storage panel has no group
    for it, neither ["unknown"] nor any other. *)
Lemma missing_mountpoint_dropped_counterexample :
  exists r,
    @process_metric reference sample_body = Ok ([r], [])
    /\ map card_key (device_cards false true [r]) = ["unknown"]
    /\ mountpoint_of (metric r) = Ok (JStr EmptyString)
    /\ mount_groups [r] = Ok []
    /\ option_map total_mounts
         (match storage_panel [r] with Ok s => Some s | Raise _ => None end)
       = Some 0%nat.
Proof. eexists. repeat split; reflexivity. Qed.

(** ** Scenarios *)

(** One sample without labels, value ["42.5"]: one row, in the group
    ["unknown"], whose latest value is 42.5 and whose delta is 0. *)
Example scenario_single_sample :
  exists r,
    @process_metric reference sample_body = Ok ([r], [])
    /\ value r = 42.5%float
    /\ device_cards false true [r] =
         [{| card_key := "unknown"; card_value := 42.5; card_delta := Some 0%float |}]
    /\ kpi [("cpu_usage", [r])] "cpu_usage" = Some 42.5%float.
Proof. eexists. repeat split; reflexivity. Qed.

(** Two mount points at 90 and 10: one of two is critical. *)
Example scenario_two_mounts :
  option_map (fun s => (total_mounts s, critical_mounts s, map snd (bars s)))
    (match storage_panel [mount_row 1000 90 "/"; mount_row 1000 10 "/home"] with
     | Ok s => Some s
     | Raise _ => None
     end)
  = Some (2%nat, 1%nat, [Red; Blue]).
Proof. reflexivity. Qed.

(** A full pass against a backend that answers: ten requests, ten sleeps of
    a tenth of a second, and the ten names of the catalog in order. *)
Example scenario_fetch_metrics :
  let run := @fetch_metrics reference healthy start in
  option_map (map fst) (match fst run with Ok d => Some d | Raise _ => None end)
    = Some (map fst METRICS)
  /\ requests (trace (snd run)) = 10%nat
  /\ sleeps (trace (snd run)) = repeat 100 10.
Proof. repeat split; reflexivity. Qed.

(** A 404 is not retried: one request, one [st.error], [None]. *)
Example scenario_not_found :
  query (fun _ _ => Response 404 None None) prom_client "up" start =
    (JNull, {| sent := 1; trace := [Request "up"; StError (HTTPError 404)] |}).
Proof. reflexivity. Qed.

(** A backend that recovers after two 503s: three requests, a sleep of two
    seconds before the third, and the body. *)
Example scenario_recovery :
  query (fun n _ => if (n <? 2)%nat then Response 503 None None
                    else Response 200 None (Some sample_body))
        prom_client "up" start =
    (sample_body,
     {| sent := 3; trace := [Request "up"; Request "up"; Sleep 2000; Request "up"] |}).
Proof. reflexivity. Qed.

(** A redirect is followed under a fresh retry budget: a 302 to a URL that
    answers 503 throughout costs one request, then four. *)
Example scenario_redirect :
  query (fun _ q => if String.eqb q "up"
                    then Redirect 302 (Some "http://localhost:9091/moved")
                    else Response 503 None None)
        prom_client "up" start =
    (JNull,
     {| sent := 5;
        trace := [Request "up";
                  Request "http://localhost:9091/moved";
                  Request "http://localhost:9091/moved"; Sleep 2000;
                  Request "http://localhost:9091/moved"; Sleep 4000;
                  Request "http://localhost:9091/moved";
                  StError RetryError] |}).
Proof. reflexivity. Qed.

(** A backend that redirects every request: the session gives up after
    following 30 redirects. *)
Example scenario_redirect_loop :
  let run := query (fun _ _ => Redirect 301 (Some "up")) prom_client "up" start in
  fst run = JNull
  /\ requests (trace (snd run)) = 31%nat
  /\ List.last (trace (snd run)) LastUpdated = StError TooManyRedirects.
Proof. repeat split; reflexivity. Qed.

(** Characters are code points: a string of one, two and three bytes for
    its three characters is iterated character by character. *)
Example scenario_characters :
  map String.length
    (str_chars (String "a" (String (ascii_of_nat 195) (String (ascii_of_nat 169)
       (String (ascii_of_nat 226) (String (ascii_of_nat 130)
          (String (ascii_of_nat 172) EmptyString)))))))
  = [1; 2; 3]%nat.
Proof. reflexivity. Qed.

(** A label that holds a lone surrogate: the item parses, and the
    constructor refuses its row, after the warning for the item before
    it. *)
Example scenario_lone_surrogate :
  let res := JObj (vector_response [JNull; device_item lone_surrogate "1"]) in
  @process_metric reference res = Raise UnicodeEncodeError
  /\ @warned reference res = [AttributeError]
  /\ fst (@fetch_metrics reference
             (fun _ _ => Response 200 None (Some res)) start)
     = Raise UnicodeEncodeError.
Proof. repeat split; reflexivity. Qed.

(** * Further properties *)

(** ** [process_metric] *)

Section ParserMore.
Context {B : Builtins}.

Lemma parsed_failures_length (items : list json) :
  (List.length (parsed items) + List.length (failures items))%nat = List.length items.
Proof.
  induction items as [|item rest IH]; [reflexivity|].
  unfold parsed, failures in *. cbn [flat_map].
  destruct (parse_item item); rewrite !length_app; cbn [List.length]; lia.
Qed.

(** Every item of a result list is accounted for: it gives one row, or one
    warning; rows and warnings keep the order of the items, and the
    warnings are emitted whatever happens next.  The call returns the frame
    of those rows unless the [DataFrame] constructor refuses them, whose
    exception then leaves it; it returns for the empty list and for a list
    without any row. *)
Theorem process_metric_accounts_for_every_item :
  forall (fields dfields : list (string * json)) (items : list json),
    dict_lookup "data" fields = Some (JObj dfields) ->
    dict_lookup "result" dfields = Some (JArr items) ->
    (List.length (parsed items) + List.length (failures items))%nat
      = List.length items
    /\ warned (JObj fields) = failures items
    /\ match process_metric (JObj fields) with
       | Ok (df, warnings) => df = parsed items /\ warnings = failures items
       | Raise e => parsed items <> [] /\ frame_error (parsed items) = Some e
       end.
Proof.
  intros fields dfields items Hd Hr.
  split; [apply parsed_failures_length|].
  split; [exact (warned_list fields dfields items Hd Hr)|].
  rewrite (process_metric_list fields dfields items Hd Hr).
  destruct (pd_DataFrame (parsed items)) as [df|e] eqn:Ef; cbn [rbind].
  - apply pd_DataFrame_Ok in Ef. now split.
  - now apply pd_DataFrame_Raise.
Qed.

Lemma process_metric_raises (res : json) (e : exn) :
  process_metric res = Raise e ->
  truthy res = true
  /\ ((e = KeyError /\
       exists fields dfields,
         res = JObj fields
         /\ dict_lookup "data" fields = Some (JObj dfields)
         /\ dict_lookup "result" dfields = None)
      \/ e = TypeError
      \/ exists fields dfields coll items,
           res = JObj fields
           /\ dict_lookup "data" fields = Some (JObj dfields)
           /\ dict_lookup "result" dfields = Some coll
           /\ py_iter coll = Ok items
           /\ parsed items <> []
           /\ frame_error (parsed items) = Some e).
Proof.
  unfold process_metric, no_result.
  destruct (truthy res) eqn:Et; cbn [negb]; [|discriminate].
  intros H. split; [reflexivity|].
  destruct res as [|b|z|f|s|items|fields]; cbn [py_in rbind] in H;
    try (inversion H; right; now left).
  - destruct (str_contains "data" s); cbn [negb getitem rbind] in H;
      [inversion H; right; now left|discriminate].
  - destruct (existsb (is_str "data") items); cbn [negb getitem rbind] in H;
      [inversion H; right; now left|discriminate].
  - destruct (dict_lookup "data" fields) as [data|] eqn:Ed;
      cbn [negb getitem rbind] in H; [|discriminate].
    rewrite Ed in H. cbn [rbind] in H.
    destruct data as [| | | | | |dfields]; cbn [getitem rbind] in H;
      try (inversion H; right; now left).
    destruct (dict_lookup "result" dfields) as [coll|] eqn:Er; cbn [rbind] in H.
    + destruct (truthy coll); cbn [negb rbind] in H; [|discriminate].
      destruct (py_iter coll) as [items|e'] eqn:Ei; cbn [rbind] in H.
      * rewrite process_items_acc in H. cbn [app] in H.
        destruct (pd_DataFrame (parsed items)) as [df|e''] eqn:Ef;
          cbn [rbind] in H; [discriminate|].
        inversion H; subst e''. apply pd_DataFrame_Raise in Ef.
        right; right. exists fields, dfields, coll, items. now repeat split.
      * inversion H; subst e'.
        destruct coll; cbn [py_iter] in Ei; try discriminate;
          inversion Ei; right; now left.
    + inversion H. left. split; [reflexivity|]. now exists fields, dfields.
Qed.

(** The exceptions that leave [process_metric], never for a falsy
    response: [KeyError], which the guard raises for a dictionary whose
    ["data"] is a dictionary without ["result"]; [TypeError], from the
    guard or from the iteration; and the exception of the [DataFrame]
    constructor, when it refuses the rows of the items. *)
Theorem process_metric_escaping_exceptions :
  forall (res : json) (e : exn),
    process_metric res = Raise e ->
    truthy res = true
    /\ ((e = KeyError /\
         exists fields dfields,
           res = JObj fields
           /\ dict_lookup "data" fields = Some (JObj dfields)
           /\ dict_lookup "result" dfields = None)
        \/ e = TypeError
        \/ exists fields dfields coll items,
             res = JObj fields
             /\ dict_lookup "data" fields = Some (JObj dfields)
             /\ dict_lookup "result" dfields = Some coll
             /\ py_iter coll = Ok items
             /\ parsed items <> []
             /\ frame_error (parsed items) = Some e).
Proof. intros res e H. exact (process_metric_raises res e H). Qed.

Lemma process_items_strings (items : list json) :
  (forall item, In item items -> exists s, item = JStr s) ->
  parsed items = [] /\ failures items = repeat AttributeError (List.length items).
Proof.
  induction items as [|item rest IH]; intros H; [now split|].
  destruct (H item (or_introl eq_refl)) as [s ->].
  destruct (IH (fun it Hin => H it (or_intror Hin))) as [Hp Hf].
  unfold parsed, failures in *. cbn [flat_map parse_item py_get rbind].
  rewrite Hp, Hf. now split.
Qed.

(** A result collection that is not a list.  A non-empty dictionary or
    string is iterated, key by key or character by character, and every
    one of these is skipped with an [AttributeError] warning: the frame is
    empty.  A number other than zero, or [True], raises [TypeError].  (A
    list gives the rows of its items to the constructor.) *)
Theorem process_metric_result_not_a_list :
  forall (fields dfields : list (string * json)) (coll : json),
    dict_lookup "data" fields = Some (JObj dfields) ->
    dict_lookup "result" dfields = Some coll ->
    truthy coll = true ->
    match coll with
    | JObj kvs =>
        process_metric (JObj fields) =
          Ok ([], repeat AttributeError (List.length kvs))
    | JStr s =>
        process_metric (JObj fields) =
          Ok ([], repeat AttributeError (List.length (str_chars s)))
    | JArr items =>
        process_metric (JObj fields) =
          rbind (pd_DataFrame (parsed items)) (fun df => Ok (df, failures items))
    | _ => process_metric (JObj fields) = Raise TypeError
    end.
Proof.
  intros fields dfields coll Hd Hr Ht.
  destruct coll as [|b|z|f|s|items|kvs];
    try (exact (process_metric_list fields dfields _ Hd Hr)).
  all: unfold process_metric, no_result.
  all: destruct fields as [|kv fields']; [discriminate|].
  all: cbn [truthy negb py_in getitem rbind]; rewrite Hd.
  all: cbn [getitem rbind negb]; rewrite Hr; cbn [rbind]; rewrite Ht.
  all: cbn [negb rbind py_iter]; try reflexivity.
  - rewrite process_items_acc.
    destruct (process_items_strings (map JStr (str_chars s))) as [Hp Hf].
    { intros item Hin. apply in_map_iff in Hin. destruct Hin as [c [<- _]]. now exists c. }
    cbn [app]. rewrite Hp, Hf, length_map. reflexivity.
  - rewrite process_items_acc.
    destruct (process_items_strings (map (fun kv => JStr (fst kv)) kvs)) as [Hp Hf].
    { intros item Hin. apply in_map_iff in Hin. destruct Hin as [c [<- _]].
      now exists (fst c). }
    cbn [app]. rewrite Hp, Hf, length_map. reflexivity.
Qed.

Lemma parsed_In_inv (items : list json) (r : Row) :
  In r (parsed items) -> exists item, In item items /\ parse_item item = Ok r.
Proof.
  unfold parsed. intros H. apply in_flat_map in H.
  destruct H as [item [Hin Hr]]. exists item. split; [exact Hin|].
  destruct (parse_item item) as [r'|e]; [|contradiction].
  destruct Hr as [->|[]]. reflexivity.
Qed.

Lemma process_metric_rows (res : json) (df : DataFrame) (warnings : list exn) (r : Row) :
  process_metric res = Ok (df, warnings) -> In r df ->
  exists item, parse_item item = Ok r.
Proof.
  unfold process_metric.
  destruct (no_result res) as [[|]|e]; cbn [rbind]; try discriminate.
  - intros H. inversion H; subst. contradiction.
  - destruct (getitem res "data") as [data|e]; cbn [rbind]; [|discriminate].
    destruct (getitem data "result") as [coll|e]; cbn [rbind]; [|discriminate].
    destruct (py_iter coll) as [items|e]; cbn [rbind]; [|discriminate].
    rewrite process_items_acc. cbn [app].
    destruct (pd_DataFrame (parsed items)) as [df'|e] eqn:Ef; cbn [rbind];
      [|discriminate].
    apply pd_DataFrame_Ok in Ef. intros H Hin. inversion H; subst.
    destruct (parsed_In_inv _ _ Hin) as [item [_ Hp]]. now exists item.
Qed.

(** The warnings a call returns are the ones it emitted. *)
Lemma warned_Ok (res : json) (df : DataFrame) (warnings : list exn) :
  process_metric res = Ok (df, warnings) -> warned res = warnings.
Proof.
  unfold process_metric, no_result, warned.
  destruct (truthy res) eqn:Et; cbn [negb rbind].
  - destruct (py_in "data" res) as [[|]|e] eqn:Ei; cbn [negb rbind];
      try discriminate.
    + destruct (getitem res "data") as [data|e]; cbn [rbind]; [|discriminate].
      destruct (getitem data "result") as [coll|e]; cbn [rbind]; [|discriminate].
      destruct (truthy coll) eqn:Ec; cbn [negb rbind].
      * destruct (py_iter coll) as [items|e]; cbn [rbind]; [|discriminate].
        rewrite process_items_acc. cbn [app snd].
        destruct (pd_DataFrame (parsed items)); cbn [rbind]; [|discriminate].
        now intros [= _ <-].
      * intros [= _ <-].
        destruct coll as [|b|z|f|s|items|kvs]; cbn [py_iter]; try reflexivity;
          cbn [truthy] in Ec.
        -- apply negb_false_iff, String.eqb_eq in Ec. now subst s.
        -- destruct items; [reflexivity|discriminate].
        -- destruct kvs; [reflexivity|discriminate].
    + intros [= _ <-].
      destruct res as [|b|z|f|s|items|fields]; cbn [getitem rbind]; try reflexivity.
      cbn [py_in] in Ei. destruct (dict_lookup "data" fields); [discriminate|reflexivity].
  - intros [= _ <-].
    destruct res as [|b|z|f|s|items|fields]; cbn [getitem rbind]; try reflexivity.
    destruct fields; [reflexivity|discriminate].
Qed.

(** The columns of a frame agree with its labels: in every row that
    [process_metric] returns, the labels are a mapping, and [device] and
    [mode] are the text of the label of that name, ["unknown"] when the
    mapping has none; a label that is a string comes out unchanged. *)
Theorem process_metric_columns_follow_labels :
  forall (res : json) (df : DataFrame) (warnings : list exn) (r : Row),
    process_metric res = Ok (df, warnings) ->
    In r df ->
    exists labels,
      metric r = JObj labels
      /\ device r = py_str (match dict_lookup "device" labels with
                            | Some v => v | None => JStr "unknown" end)
      /\ mode r = py_str (match dict_lookup "mode" labels with
                          | Some v => v | None => JStr "unknown" end)
      /\ (forall d, dict_lookup "device" labels = Some (JStr d) -> device r = d)
      /\ (forall m, dict_lookup "mode" labels = Some (JStr m) -> mode r = m).
Proof.
  intros res df warnings r Hrun Hin.
  destruct (process_metric_rows res df warnings r Hrun Hin) as [item Hp].
  destruct (parse_item_labels item r Hp) as [labels [Hm [Hmode Hdev]]].
  exists labels. split; [exact Hm|]. split; [exact Hdev|]. split; [exact Hmode|].
  split; intros v Hv; [rewrite Hv in Hdev|rewrite Hv in Hmode]; assumption.
Qed.
End ParserMore.

Lemma process_metric_accounts_witness :
  let items := [device_item "eth0" "90"; device_item "eth1" "n/a"; JNull] in
  exists df warnings,
    @process_metric reference (JObj (vector_response items)) = Ok (df, warnings)
    /\ (List.length df + List.length warnings)%nat = 3%nat
    /\ @warned reference (JObj (vector_response items)) = warnings.
Proof.
  intros items.
  destruct (@process_metric_accounts_for_every_item reference
              (vector_response items)
              [("resultType", JStr "vector"); ("result", JArr items)]
              items eq_refl eq_refl) as (Hlen & Hw & Hrun).
  destruct (@process_metric reference (JObj (vector_response items)))
    as [[df warnings]|e] eqn:E; [|vm_compute in E; discriminate E].
  destruct Hrun as [-> ->]. exists (@parsed reference items), (@failures reference items).
  split; [reflexivity|]. split; [exact Hlen|exact Hw].
Defined.

Lemma process_metric_escaping_witness :
  let res := JObj (vector_response [device_item lone_surrogate "1"]) in
  @process_metric reference res = Raise UnicodeEncodeError
  /\ truthy res = true.
Proof.
  intros res. split; [reflexivity|].
  exact (proj1 (@process_metric_escaping_exceptions reference
                  res UnicodeEncodeError eq_refl)).
Defined.

Lemma process_metric_result_not_a_list_witness :
  let coll := JObj [("metric", JObj []); ("value", JArr [JInt 1000; JStr "1"])] in
  truthy coll = true
  /\ @process_metric reference (JObj [("data", JObj [("result", coll)])]) =
       Ok ([], [AttributeError; AttributeError]).
Proof.
  intros coll. split; [reflexivity|].
  exact (@process_metric_result_not_a_list reference
           [("data", JObj [("result", coll)])] [("result", coll)] coll
           eq_refl eq_refl eq_refl).
Defined.

Lemma process_metric_columns_witness :
  let r := {| timestamp := 1000000000; value := 90;
              metric := JObj [("device", JStr "eth0")];
              mode := "unknown"; device := "eth0" |} in
  @process_metric reference (JObj (vector_response [device_item "eth0" "90"])) =
    Ok ([r], [])
  /\ exists labels,
       metric r = JObj labels
       /\ (forall d, dict_lookup "device" labels = Some (JStr d) -> device r = d).
Proof.
  intros r.
  assert (Hrun : @process_metric reference
                   (JObj (vector_response [device_item "eth0" "90"])) = Ok ([r], []))
    by reflexivity.
  split; [exact Hrun|].
  destruct (@process_metric_columns_follow_labels reference _ _ _ r Hrun
              (or_introl eq_refl)) as (labels & Hm & _ & _ & Hd & _).
  exists labels. split; [exact Hm|exact Hd].
Defined.

(** ** [PrometheusClient.query] *)

(** One call of [query] sends at least one request, and at most four
    when no request for [q] is answered with a redirect.  Whatever the
    backend answers it sends at most 124, four to each of the 31 URLs that
    the 30 redirects a session follows can lead through; nothing else is
    counted as sent. *)
Theorem query_sends_one_to_four_requests :
  forall (backend : Backend) (q : string) (w : world),
    let w' := snd (query backend prom_client q w) in
    exists k,
      (1 <= k <= 124)%nat
      /\ (no_redirect backend q -> (k <= 4)%nat)
      /\ sent w' = (sent w + k)%nat
      /\ requests (trace w') = (requests (trace w) + k)%nat.
Proof.
  intros backend q w w'.
  destruct (query_extend backend q w) as (j & es & errs & Hq & _ & Hr & Hno & Herr).
  subst w'. rewrite Hq. cbn [snd extend sent trace].
  assert (He : requests errs = 0%nat)
    by (destruct Herr as [->|[e [-> _]]]; reflexivity).
  exists (requests es). rewrite !requests_app, He.
  split; [exact Hr|]. split; [intros H; exact (proj1 (Hno H))|]. split; lia.
Qed.

Lemma query_sends_witness :
  no_redirect always_503 "up"
  /\ exists k,
       (1 <= k <= 4)%nat
       /\ sent (snd (query always_503 prom_client "up" start)) = (0 + k)%nat.
Proof.
  assert (H : no_redirect always_503 "up") by (intros n; reflexivity).
  split; [exact H|].
  destruct (query_sends_one_to_four_requests always_503 "up" start)
    as (k & Hk & H4 & Hs & _).
  exists k. split; [split; [exact (proj1 Hk)|exact (H4 H)]|exact Hs].
Defined.

(** [query] reports at most one error per call, as the last thing it does,
    and none when it returns a decoded body. *)
Theorem query_reports_one_error_at_most :
  forall (backend : Backend) (q : string) (w : world),
    let run := query backend prom_client q w in
    exists t,
      trace (snd run) = (trace w ++ t)%list
      /\ (st_errors t <= 1)%nat
      /\ (fst run <> JNull -> st_errors t = 0%nat)
      /\ (st_errors t = 1%nat ->
          fst run = JNull /\ exists e, List.last t (Sleep 0) = StError e).
Proof.
  intros backend q w run.
  destruct (query_extend backend q w) as (j & es & errs & Hq & Ha & _ & _ & Herr).
  subst run. rewrite Hq. cbn [fst snd extend trace].
  destruct (adapter_events_counts es Ha) as [_ [Hs _]].
  exists (es ++ errs)%list. split; [reflexivity|].
  rewrite st_errors_app, Hs.
  destruct Herr as [->|[e [-> ->]]]; cbn [st_errors filter is_st_error List.length].
  - split; [lia|]. split; [reflexivity|]. intros H; discriminate H.
  - split; [lia|]. split; [intros H; now contradiction H|].
    intros _. split; [reflexivity|]. exists e. now rewrite last_last.
Qed.

(** An answer whose status is not one of 500, 502, 503, 504 and that
    carries neither a [Retry-After] nor a [Location] header is final: one
    request, no sleep.  The call returns the body when the status is below
    400 (or above 599) and the body is JSON; otherwise it reports
    [HTTPError] for the status, or the decoding error, and returns
    [None]. *)
Theorem query_does_not_retry_other_statuses :
  forall (backend : Backend) (q : string) (w : world) (status : Z) (body : option json),
    backend (sent w) q = Response status None body ->
    mem_status status [500; 502; 503; 504] = false ->
    query backend prom_client q w =
      if (400 <=? status) && (status <? 600)
      then (JNull, extend w [Request q; StError (HTTPError status)])
      else match body with
           | Some j => (j, extend w [Request q])
           | None => (JNull, extend w [Request q; StError JSONDecodeError])
           end.
Proof.
  intros backend q w status body Hb Hs.
  unfold query, session_get. rewrite session_send_unfold. unfold bind.
  cbn [max_retries prom_client total urlopen].
  unfold bind at 1. rewrite send_extend, Hb.
  unfold is_retry. cbn [status_forcelist]. rewrite Hs. cbn [orb andb negb Nat.eqb].
  unfold ret. cbn [rbind fst snd]. unfold raise_for_status.
  destruct ((400 <=? status) && (status <? 600)); cbn [rbind].
  - rewrite emit_extend by reflexivity. now rewrite extend_app.
  - destruct body; cbn [response_json]; [reflexivity|].
    rewrite emit_extend by reflexivity. now rewrite extend_app.
Qed.

Lemma query_does_not_retry_witness :
  let backend : Backend := fun _ _ => Response 404 None None in
  backend (sent start) "up" = Response 404 None None
  /\ mem_status 404 [500; 502; 503; 504] = false
  /\ query backend prom_client "up" start =
       (JNull, {| sent := 1; trace := [Request "up"; StError (HTTPError 404)] |}).
Proof.
  intros backend. split; [reflexivity|]. split; [reflexivity|].
  exact (query_does_not_retry_other_statuses backend "up" start 404 None
           eq_refl eq_refl).
Defined.

(** The retry schedule.  Against a backend that answers the requests for
    [q] without a redirect and without a [Retry-After] header, whatever
    mix of responses and network failures it gives, the sleeps of one call
    are none for up to two requests, 2 s before the third request and 4 s
    before the fourth: never more than 6 s in all. *)
Theorem query_backoff_schedule :
  forall (backend : Backend) (q : string) (w : world),
    no_redirect backend q ->
    no_retry_after backend q ->
    exists t k,
      trace (snd (query backend prom_client q w)) = (trace w ++ t)%list
      /\ (k <= 3)%nat
      /\ requests t = S k
      /\ sleeps t = firstn (k - 1) [2000; 4000]
      /\ total_sleep t <= 6000.
Proof.
  intros backend q w Hnr Hno.
  destruct (query_extend backend q w) as (j & es & errs & Hq & _ & [Hr1 _] & Hb & Herr).
  destruct (Hb Hnr) as [Hr4 Hs]. clear Hb.
  rewrite Hq. cbn [snd extend trace].
  assert (He : requests errs = 0%nat /\ sleeps errs = [])
    by (destruct Herr as [->|[e [-> _]]]; now split).
  destruct He as [He1 He2].
  exists (es ++ errs)%list, (requests es - 1)%nat.
  split; [reflexivity|]. split; [lia|].
  rewrite requests_app, He1. split; [lia|].
  unfold total_sleep. rewrite sleeps_app, He2, app_nil_r, (Hs Hno).
  destruct (requests es) as [|[|[|[|[|n]]]]]; try lia; cbn; split; (reflexivity || lia).
Qed.

Lemma query_backoff_schedule_witness :
  no_redirect unreachable "up"
  /\ no_retry_after unreachable "up"
  /\ exists t k,
       trace (snd (query unreachable prom_client "up" start)) = ([] ++ t)%list
       /\ (k <= 3)%nat
       /\ requests t = S k
       /\ sleeps t = firstn (k - 1) [2000; 4000]
       /\ total_sleep t <= 6000.
Proof.
  assert (Hr : no_redirect unreachable "up") by (intros n; reflexivity).
  assert (H : no_retry_after unreachable "up") by (intros n; exact I).
  split; [exact Hr|]. split; [exact H|].
  exact (query_backoff_schedule unreachable "up" start Hr H).
Defined.

(** ** The panels of [display_metrics] *)

Lemma unique_acc_sub (x : string) (l : list string) :
  forall seen,
    In x (fold_left
            (fun seen x => if existsb (String.eqb x) seen then seen
                           else (seen ++ [x])%list) l seen) ->
    In x seen \/ In x l.
Proof.
  induction l as [|y l IH]; intros seen H; cbn [fold_left] in H; [now left|].
  apply IH in H. destruct H as [H|H]; [|right; now right].
  destruct (existsb (String.eqb y) seen); [now left|].
  apply in_app_or in H. destruct H as [H|[->|[]]]; [now left|right; now left].
Qed.

Lemma unique_sub (x : string) (l : list string) : In x (unique l) -> In x l.
Proof. intros H. apply unique_acc_sub in H. destruct H as [[]|H]. exact H. Qed.

Lemma NoDup_snoc {A : Type} (l : list A) (x : A) :
  NoDup l -> ~ In x l -> NoDup (l ++ [x]).
Proof.
  intros Hl Hx. apply (NoDup_Add (a := x) (l := l)).
  - rewrite <- (app_nil_r l) at 1. apply Add_app.
  - now split.
Qed.

Lemma unique_acc_NoDup (l : list string) :
  forall seen,
    NoDup seen ->
    NoDup (fold_left
             (fun seen x => if existsb (String.eqb x) seen then seen
                            else (seen ++ [x])%list) l seen).
Proof.
  induction l as [|y l IH]; intros seen H; cbn [fold_left]; [exact H|].
  apply IH. destruct (existsb (String.eqb y) seen) eqn:E; [exact H|].
  apply NoDup_snoc; [exact H|]. intros Hin.
  assert (Ht : existsb (String.eqb y) seen = true).
  { apply existsb_exists. exists y. split; [exact Hin|apply String.eqb_refl]. }
  rewrite Ht in E. discriminate.
Qed.

Lemma unique_NoDup (l : list string) : NoDup (unique l).
Proof. apply unique_acc_NoDup. constructor. Qed.

Lemma iloc_last_nonempty (df : DataFrame) (r : Row) :
  In r df -> exists r', iloc_last df = Some r'.
Proof.
  destruct df as [|r0 df'] using rev_ind; [contradiction|].
  intros _. exists r0. apply iloc_last_snoc.
Qed.

Lemma device_rows_nonempty (df : DataFrame) (dev : string) :
  In dev (map device df) -> exists r, iloc_last (device_rows df dev) = Some r.
Proof.
  intros H. apply in_map_iff in H. destruct H as [r [<- Hin]].
  apply (iloc_last_nonempty _ r). now apply device_rows_In.
Qed.

Lemma device_cards_keys_over (skip_loop with_delta : bool) (df : DataFrame)
    (devs : list string) :
  (forall dev, In dev devs -> In dev (map device df)) ->
  map card_key
    (flat_map
       (fun dev =>
          if skip_loop && str_contains "loop" dev then []
          else
            let device_data := device_rows df dev in
            match iloc_last device_data with
            | None => []
            | Some r =>
                let current_value := value r in
                [ {| card_key := dev;
                     card_value := current_value;
                     card_delta :=
                       if with_delta
                       then Some (delta_pct current_value (mean_value device_data))
                       else None |} ]
            end)
       devs)
  = filter (fun dev => negb (skip_loop && str_contains "loop" dev)) devs.
Proof.
  match goal with |- _ -> map card_key (flat_map ?f _) = _ => set (body := f) end.
  induction devs as [|dev devs IH]; intros H; [reflexivity|].
  cbn [flat_map filter]. rewrite map_app, IH by (intros d Hd; apply H; now right).
  unfold body at 1.
  destruct (skip_loop && str_contains "loop" dev); cbn [negb]; [reflexivity|].
  destruct (device_rows_nonempty df dev (H dev (or_introl eq_refl))) as [r Hr].
  cbv zeta. rewrite Hr. reflexivity.
Qed.

(** Each per-device panel shows one card per distinct device, in the order
    the devices first appear in the frame (the disk panels leaving out the
    devices whose name contains ["loop"]): no device is shown twice and
    none is left out, the test [if not device_data.empty] never failing. *)
Theorem device_cards_one_per_device :
  forall (skip_loop with_delta : bool) (df : DataFrame),
    let keys := map card_key (device_cards skip_loop with_delta df) in
    keys = filter (fun dev => negb (skip_loop && str_contains "loop" dev))
                  (unique (map device df))
    /\ NoDup keys
    /\ (forall r, In r df ->
          skip_loop && str_contains "loop" (device r) = false ->
          In (device r) keys).
Proof.
  intros skip_loop with_delta df keys.
  assert (Hk : keys = filter (fun dev => negb (skip_loop && str_contains "loop" dev))
                        (unique (map device df))).
  { subst keys. unfold device_cards. apply device_cards_keys_over.
    intros dev. apply unique_sub. }
  split; [exact Hk|]. rewrite Hk. split.
  - apply NoDup_filter, unique_NoDup.
  - intros r Hin Hs. apply filter_In. split.
    + apply unique_In. now apply in_map.
    + now rewrite Hs.
Qed.

Lemma list_sum_step (a : nat) (l : list nat) :
  list_sum (a :: l) = (a + list_sum l)%nat.
Proof. reflexivity. Qed.

Lemma list_sum_indicator_out (x : string) (ks : list string) :
  ~ In x ks ->
  list_sum (map (fun k => if String.eqb x k then 1 else 0)%nat ks) = 0%nat.
Proof.
  induction ks as [|k ks IH]; intros Hnot; [reflexivity|].
  rewrite map_cons, list_sum_step. destruct (String.eqb_spec x k) as [E|_].
  - exfalso. apply Hnot. left. now symmetry.
  - apply IH. intros H. apply Hnot. now right.
Qed.

Lemma list_sum_indicator (x : string) (ks : list string) :
  NoDup ks -> In x ks ->
  list_sum (map (fun k => if String.eqb x k then 1 else 0)%nat ks) = 1%nat.
Proof.
  induction ks as [|k ks IH]; intros Hnd Hin; [contradiction|].
  inversion Hnd as [|? ? Hnot Hnd']; subst. rewrite map_cons, list_sum_step.
  destruct (String.eqb_spec x k) as [E|Hne].
  - rewrite list_sum_indicator_out; [reflexivity|]. now rewrite E.
  - destruct Hin as [E|Hin]; [now symmetry in E|]. now rewrite IH.
Qed.

Lemma list_sum_add {A : Type} (f g : A -> nat) (l : list A) :
  list_sum (map (fun x => f x + g x)%nat l)
  = (list_sum (map f l) + list_sum (map g l))%nat.
Proof.
  induction l as [|a l IH]; [reflexivity|].
  rewrite !map_cons, !list_sum_step, IH. lia.
Qed.

Lemma device_rows_partition (ks : list string) :
  NoDup ks ->
  forall df,
    (forall r, In r df -> In (device r) ks) ->
    list_sum (map (fun dev => List.length (device_rows df dev)) ks) = List.length df.
Proof.
  intros Hnd. induction df as [|r df IH]; intros H.
  - clear H Hnd. induction ks as [|k ks IHk]; [reflexivity|].
    rewrite map_cons, list_sum_step, IHk. reflexivity.
  - rewrite (map_ext _ (fun dev => (if String.eqb (device r) dev then 1 else 0)
                                   + List.length (device_rows df dev))%nat).
    + rewrite list_sum_add, IH by (intros r' Hr'; apply H; now right).
      rewrite list_sum_indicator; [reflexivity|exact Hnd|].
      apply H. now left.
    + intros dev. unfold device_rows. cbn [filter].
      destruct (String.eqb (device r) dev); reflexivity.
Qed.

(** The groups of a per-device loop partition the frame: a row is in the
    group of its own device and in no other, and the sizes of the groups
    add up to the number of rows. *)
Theorem device_groups_partition_frame :
  forall df : DataFrame,
    list_sum (map (fun dev => List.length (device_rows df dev))
                  (unique (map device df))) = List.length df
    /\ (forall r dev, In r (device_rows df dev) <-> In r df /\ device r = dev).
Proof.
  intros df. split.
  - apply device_rows_partition; [apply unique_NoDup|].
    intros r Hr. apply unique_In. now apply in_map.
  - intros r dev. unfold device_rows. rewrite filter_In.
    split; intros [H1 H2]; (split; [exact H1|]); now apply String.eqb_eq.
Qed.

(** *** The storage panel *)

Lemma mount_rows_sub (k : json) :
  forall df rows r, mount_rows df k = Ok rows -> In r rows -> In r df.
Proof.
  induction df as [|r0 df IH]; intros rows r Hrun Hin; cbn [mount_rows] in Hrun.
  - inversion Hrun; subst. contradiction.
  - destruct (mountpoint_of (metric r0)) as [m|e]; cbn [rbind] in Hrun; [|discriminate].
    destruct (mount_rows df k) as [rows0|e]; cbn [rbind] in Hrun; [|discriminate].
    inversion Hrun; subst; clear Hrun.
    destruct (py_eq m k).
    + destruct Hin as [<-|Hin]; [now left|right; now apply (IH rows0)].
    + right. now apply (IH rows0).
Qed.

Lemma mount_groups_of_nonempty (df : DataFrame) :
  forall keys groups g,
    mount_groups_of df keys = Ok groups -> In g groups -> snd g <> [].
Proof.
  induction keys as [|k keys IH]; intros groups g Hrun Hin; cbn [mount_groups_of] in Hrun.
  - inversion Hrun; subst. contradiction.
  - destruct (shown_mount k); [|now apply (IH groups)].
    destruct (mount_rows df k) as [rows|e]; cbn [rbind] in Hrun; [|discriminate].
    destruct (mount_groups_of df keys) as [gs|e]; cbn [rbind] in Hrun; [|discriminate].
    inversion Hrun; subst; clear Hrun.
    destruct rows as [|r rows]; cbn [empty] in Hin; [now apply (IH gs)|].
    destruct Hin as [<-|Hin]; [discriminate|now apply (IH gs)].
Qed.

Lemma mount_groups_nonempty (df : DataFrame) (groups : list (json * DataFrame))
    (g : json * DataFrame) :
  mount_groups df = Ok groups -> In g groups -> snd g <> [].
Proof.
  unfold mount_groups.
  destruct (mountpoints df) as [col|e]; cbn [rbind]; [|discriminate].
  destruct (unique_objects col) as [keys|e]; cbn [rbind]; [|discriminate].
  apply mount_groups_of_nonempty.
Qed.

Lemma current_value_of_In (rows : DataFrame) :
  rows <> [] -> exists r, In r rows /\ value r = current_value_of rows.
Proof.
  destruct rows as [|r rows'] using rev_ind; [contradiction|]. intros _.
  exists r. split; [apply in_or_app; right; now left|].
  unfold current_value_of. now rewrite iloc_last_snoc.
Qed.

(** The numbers of the storage panel hang together: the critical mount
    points are among the mount points counted, there is one bar and one
    detail card per mount point counted, in the same order; and every bar
    stands for a mount point that is not empty and not ['/boot'], at the
    value of a row of the frame that carries that mount point. *)
Theorem storage_panel_counts_and_keys :
  forall (df : DataFrame) (s : Storage),
    storage_panel df = Ok s ->
    (critical_mounts s <= total_mounts s)%nat
    /\ List.length (bars s) = total_mounts s
    /\ List.length (details s) = total_mounts s
    /\ map mount_key (details s) = map (fun b => fst (fst b)) (bars s)
    /\ (forall k v c,
          In (k, v, c) (bars s) ->
          truthy k = true
          /\ py_eq k (JStr "/boot") = false
          /\ exists r m,
               In r df /\ value r = v
               /\ mountpoint_of (metric r) = Ok m /\ py_eq m k = true).
Proof.
  intros df s. unfold storage_panel.
  destruct (mount_groups df) as [groups|e] eqn:Eg; cbn [rbind]; [|discriminate].
  rewrite count_mounts_spec. intros H. inversion H; subst; clear H.
  cbn [total_mounts critical_mounts bars details].
  split; [apply filter_length_le|].
  split; [apply length_map|]. split; [apply length_map|].
  split; [rewrite !map_map; reflexivity|].
  intros k v c Hin. apply in_map_iff in Hin.
  destruct Hin as [[k' rows] [Heq Hg]]. cbn [fst snd] in Heq.
  inversion Heq; subst k' v c; clear Heq.
  destruct (mount_groups_In df groups (k, rows) Eg Hg) as [Hshown Hrows].
  cbn [fst snd] in Hshown, Hrows.
  unfold shown_mount in Hshown. apply andb_prop in Hshown.
  destruct Hshown as [Ht Hb]. apply negb_true_iff in Hb.
  split; [exact Ht|]. split; [exact Hb|].
  destruct (current_value_of_In rows (mount_groups_nonempty df groups _ Eg Hg))
    as [r [Hr Hv]].
  destruct (mount_rows_In k df rows r Hrows Hr) as [m [Hm He]].
  exists r, m. split; [exact (mount_rows_sub k df rows r Hrows Hr)|].
  now repeat split.
Qed.

Lemma storage_panel_counts_witness :
  let df := [mount_row 1000 90 "/"; mount_row 1000 40 "/boot";
             mount_row 1000 10 "/home"] in
  exists s,
    storage_panel df = Ok s
    /\ (critical_mounts s <= total_mounts s)%nat
    /\ List.length (bars s) = total_mounts s
    /\ total_mounts s = 2%nat.
Proof.
  intros df.
  destruct (storage_panel df) as [s|e] eqn:E; [|vm_compute in E; discriminate E].
  destruct (storage_panel_counts_and_keys df s E) as (H1 & H2 & _).
  exists s. split; [reflexivity|]. split; [exact H1|]. split; [exact H2|].
  vm_compute in E. inversion E. reflexivity.
Defined.

Section FloatOrder.
Local Open Scope float_scope.

Lemma SFcompare_antisym (x y : spec_float) :
  SFcompare y x = option_map CompOpp (SFcompare x y).
Proof.
  destruct x as [sx|sx| |sx mx ex], y as [sy|sy| |sy my ey]; cbn;
    try reflexivity; try (destruct sx; reflexivity); try (destruct sy; reflexivity);
    try (destruct sx, sy; reflexivity).
  destruct sx, sy; try reflexivity; f_equal;
    rewrite (Z.compare_antisym ex ey);
    destruct (ex ?= ey)%Z; cbn; try reflexivity;
    rewrite (Pos.compare_cont_antisym mx my Eq); reflexivity.
Qed.

Lemma SFcompare_None (x y : spec_float) :
  SFcompare x y = None <-> x = S754_nan \/ y = S754_nan.
Proof.
  destruct x as [sx|sx| |sx mx ex], y as [sy|sy| |sy my ey]; cbn;
    split; intros H; try discriminate; try (now left); try (now right);
    try (destruct H as [H|H]; discriminate H); try reflexivity.
Qed.

Lemma is_nan_SF (x : float) : is_nan x = true <-> Prim2SF x = S754_nan.
Proof.
  unfold is_nan. rewrite eqb_spec. unfold SFeqb.
  destruct (Prim2SF x) as [s|s| |s m e]; cbn.
  - split; discriminate.
  - destruct s; split; discriminate.
  - split; reflexivity.
  - rewrite Z.compare_refl, Pos.compare_cont_refl.
    destruct s; split; discriminate.
Qed.

Lemma ltb_asym (x y : float) : (x <? y) = true -> (y <? x) = false.
Proof.
  rewrite !ltb_spec. unfold SFltb. rewrite (SFcompare_antisym (Prim2SF x) (Prim2SF y)).
  destruct (SFcompare (Prim2SF x) (Prim2SF y)) as [[| |]|]; cbn; congruence.
Qed.

Lemma not_lt_either (x y : float) :
  (x <? y) = false -> (y <? x) = false ->
  (x =? y) = true \/ is_nan x = true \/ is_nan y = true.
Proof.
  rewrite !ltb_spec, eqb_spec, !is_nan_SF. unfold SFltb, SFeqb.
  rewrite (SFcompare_antisym (Prim2SF x) (Prim2SF y)).
  destruct (SFcompare (Prim2SF x) (Prim2SF y)) as [[| |]|] eqn:E; cbn;
    try discriminate; intros _ _; [now left|].
  apply SFcompare_None in E. right. exact E.
Qed.

(** The two tests of the storage panel on a latest value: a mount point
    counted as critical always has a red bar, and a red bar that is not
    counted as critical is one at exactly 85, or one whose value is NaN. *)
Theorem critical_mount_has_red_bar :
  forall v : float,
    ((85 <? v) = true -> color_of v = Red)
    /\ (color_of v = Red /\ (85 <? v) = false <->
        (v =? 85) = true \/ is_nan v = true).
Proof.
  intros v. unfold color_of. split.
  - intros H. now rewrite (ltb_asym 85 v H).
  - split.
    + intros [Hc H]. destruct (v <? 85) eqn:E; [discriminate|].
      destruct (not_lt_either v 85 E H) as [He|[Hn|Hn]]; [now left|now right|].
      discriminate Hn.
    + intros [He|Hn].
      * rewrite ltb_leb_eqb, ltb_leb_eqb.
        rewrite eqb_spec in He. rewrite !eqb_spec, !leb_spec.
        unfold SFeqb, SFleb in *.
        rewrite (SFcompare_antisym (Prim2SF v) (Prim2SF 85)).
        destruct (SFcompare (Prim2SF v) (Prim2SF 85)) as [[| |]|];
          try discriminate. now split.
      * apply is_nan_SF in Hn. rewrite !ltb_spec, Hn. now split.
Qed.
End FloatOrder.

(** *** When [display_metrics] raises *)

Lemma mountpoints_run (df : DataFrame) :
  mountpoints df =
    if forallb labelled df then Ok (map mountpoint_label df)
    else Raise AttributeError.
Proof.
  unfold mountpoints. induction df as [|r df IH]; [reflexivity|].
  cbn [mapM forallb map]. rewrite IH.
  destruct (forallb labelled df);
    unfold labelled, mountpoint_label, mountpoint_of;
    destruct (metric r); reflexivity.
Qed.

Lemma mountpoint_labels_hashable (df : DataFrame) :
  forallb labelled df = true ->
  forallb hashable (map mountpoint_label df) = negb (existsb unhashable_mountpoint df).
Proof.
  induction df as [|r df IH]; [reflexivity|].
  cbn [forallb map existsb]. intros H. apply andb_prop in H. destruct H as [Hr Hdf].
  rewrite (IH Hdf), negb_orb. f_equal.
  unfold labelled in Hr. unfold mountpoint_label, unhashable_mountpoint.
  destruct (metric r); try discriminate.
  destruct (dict_lookup "mountpoint" fields); [now rewrite negb_involutive|reflexivity].
Qed.

Lemma mount_rows_labelled (df : DataFrame) (k : json) :
  forallb labelled df = true -> exists rows, mount_rows df k = Ok rows.
Proof.
  induction df as [|r df IH]; [now exists []|].
  cbn [forallb]. intros H. apply andb_prop in H. destruct H as [Hr Hdf].
  destruct (IH Hdf) as [rows Hrows]. cbn [mount_rows]. rewrite Hrows.
  unfold labelled in Hr. unfold mountpoint_of.
  destruct (metric r); try discriminate. cbn [py_get rbind]. eexists. reflexivity.
Qed.

Lemma mount_groups_of_labelled (df : DataFrame) (keys : list json) :
  forallb labelled df = true -> exists groups, mount_groups_of df keys = Ok groups.
Proof.
  intros H. induction keys as [|k keys [groups IH]]; [now exists []|].
  cbn [mount_groups_of]. rewrite IH.
  destruct (shown_mount k); [|now exists groups].
  destruct (mount_rows_labelled df k H) as [rows ->]. cbn [rbind].
  eexists. reflexivity.
Qed.

Lemma storage_panel_run (df : DataFrame) :
  match storage_panel df with
  | Ok _ => forallb labelled df = true /\ existsb unhashable_mountpoint df = false
  | Raise e =>
      (e = AttributeError /\ forallb labelled df = false)
      \/ (e = TypeError /\ forallb labelled df = true
          /\ existsb unhashable_mountpoint df = true)
  end.
Proof.
  unfold storage_panel, mount_groups. rewrite mountpoints_run.
  destruct (forallb labelled df) eqn:El; cbn [rbind]; [|left; now split].
  unfold unique_objects. rewrite (mountpoint_labels_hashable df El).
  destruct (existsb unhashable_mountpoint df); cbn [negb rbind].
  - right. now repeat split.
  - destruct (mount_groups_of_labelled df
                (fold_left (fun seen x => if existsb (same_key x) seen then seen
                                          else (seen ++ [x])%list)
                           (map mountpoint_label df) []) El) as [groups ->].
    cbn [rbind]. destruct (count_mounts groups). now split.
Qed.

Lemma display_metrics_run (data : list (string * DataFrame)) :
  match display_metrics data with
  | Ok _ =>
      forallb labelled (data_get data "disk_space") = true
      /\ existsb unhashable_mountpoint (data_get data "disk_space") = false
  | Raise e =>
      (e = AttributeError /\ forallb labelled (data_get data "disk_space") = false)
      \/ (e = TypeError /\ forallb labelled (data_get data "disk_space") = true
          /\ existsb unhashable_mountpoint (data_get data "disk_space") = true)
  end.
Proof.
  unfold display_metrics.
  destruct (data_get data "disk_space") as [|r df'] eqn:Ed; cbn [empty rbind];
    [now split|].
  pose proof (storage_panel_run (r :: df')) as H.
  destruct (storage_panel (r :: df')) as [s|e]; cbn [rbind]; exact H.
Qed.

(** [display_metrics] raises in two cases only, both in the storage
    panel: [AttributeError] when a row of the [disk_space] frame has labels
    that are not a mapping, and [TypeError] when a [mountpoint] label is a
    list or a dictionary; with neither, it returns. *)
Theorem display_metrics_failures :
  forall data : list (string * DataFrame),
    let df := data_get data "disk_space" in
    match display_metrics data with
    | Ok _ => forallb labelled df = true /\ existsb unhashable_mountpoint df = false
    | Raise e =>
        (e = AttributeError /\ forallb labelled df = false)
        \/ (e = TypeError /\ forallb labelled df = true
            /\ existsb unhashable_mountpoint df = true)
    end.
Proof. intros data df. subst df. apply display_metrics_run. Qed.

(** ** [format_bytes] *)

Section FormatBytes.
Local Open Scope float_scope.

Lemma scaled_S (k : nat) (v : float) : scaled (S k) v = scaled k (v / 1024).
Proof. unfold scaled. now rewrite Nat.iter_succ_r. Qed.

Lemma format_loop_spec (units : list string) :
  forall v,
  exists k,
    (k <= List.length units)%nat
    /\ format_loop units v = (scaled k v, nth k units "TB/s"%string)
    /\ ((k < List.length units)%nat -> (scaled k v <? 1024) = true)
    /\ (forall j, (j < k)%nat -> (scaled j v <? 1024) = false).
Proof.
  induction units as [|unit rest IH]; intros v.
  - exists 0%nat. split; [cbn; lia|]. split; [reflexivity|].
    split; [cbn; lia|]. intros j Hj. lia.
  - cbn [format_loop]. destruct (v <? 1024) eqn:E.
    + exists 0%nat. split; [cbn; lia|]. split; [reflexivity|].
      split; [intros _; exact E|]. intros j Hj. lia.
    + destruct (IH (v / 1024)) as (k & Hk & Hf & Hlt & Hge).
      exists (S k). rewrite Hf. cbn [List.length nth]. rewrite scaled_S.
      split; [lia|]. split; [reflexivity|]. split.
      * intros H. apply Hlt. lia.
      * intros [|j] Hj; [exact E|]. rewrite scaled_S. apply Hge. lia.
Qed.

(** [format_bytes] divides by 1024 until the number is below 1024 or the
    units run out: the number printed is the value divided [k] times,
    with the [k]-th unit; with a unit below TB/s it is below 1024, and at
    every earlier step it was not. *)
Theorem format_bytes_scales :
  forall v : float,
  exists k,
    (k <= 4)%nat
    /\ format_bytes v = (scaled k v, nth k UNITS "TB/s"%string)
    /\ ((k < 4)%nat -> (scaled k v <? 1024) = true)
    /\ (forall j, (j < k)%nat -> (scaled j v <? 1024) = false).
Proof. intros v. exact (format_loop_spec UNITS v). Qed.

Lemma nan_step (v : float) :
  is_nan v = true -> (v <? 1024) = false /\ is_nan (v / 1024) = true.
Proof.
  intros H. apply is_nan_SF in H. split.
  - now rewrite ltb_spec, H.
  - apply is_nan_SF. now rewrite div_spec, H.
Qed.

(** A value that is not a number goes through every unit: it is printed as
    NaN, in TB/s. *)
Theorem format_bytes_nan :
  forall v : float,
    is_nan v = true ->
    snd (format_bytes v) = "TB/s"%string /\ is_nan (fst (format_bytes v)) = true.
Proof.
  intros v H0. unfold format_bytes, UNITS. cbn [format_loop].
  destruct (nan_step v H0) as [E0 H1]. rewrite E0.
  destruct (nan_step _ H1) as [E1 H2]. rewrite E1.
  destruct (nan_step _ H2) as [E2 H3]. rewrite E2.
  destruct (nan_step _ H3) as [E3 H4]. rewrite E3.
  split; [reflexivity|exact H4].
Qed.

Lemma format_bytes_nan_witness :
  is_nan nan = true
  /\ snd (format_bytes nan) = "TB/s"%string
  /\ is_nan (fst (format_bytes nan)) = true.
Proof. split; [reflexivity|]. exact (format_bytes_nan nan eq_refl). Defined.
End FormatBytes.

(** ** [fetch_metrics] and [main] *)

Lemma draws_app (t u : list event) :
  draws (t ++ u) = (draws t + draws u)%nat.
Proof. unfold draws. now rewrite filter_app, length_app. Qed.

Lemma adapter_events_draws (es : list event) :
  forallb adapter_event es = true -> draws es = 0%nat.
Proof.
  induction es as [|e es IH]; [reflexivity|].
  cbn [forallb]. intros H. apply andb_prop in H. destruct H as [He Hes].
  unfold draws in *. destruct e; cbn in He; try discriminate;
    cbn [filter is_drawn]; now apply IH.
Qed.

Lemma warnings_counts (ws : list exn) :
  requests (map StWarning ws) = 0%nat
  /\ pauses (map StWarning ws) = 0%nat
  /\ cycles (map StWarning ws) = 0%nat
  /\ draws (map StWarning ws) = 0%nat.
Proof.
  induction ws as [|e ws [Hr [Hp [Hc Hd]]]]; [now repeat split|].
  unfold requests, pauses, cycles, draws in *. cbn. now repeat split.
Qed.

Lemma emit_all_extend (ws : list exn) :
  forall w, emit_all (map StWarning ws) w = (tt, extend w (map StWarning ws)).
Proof.
  induction ws as [|e ws IH]; intros w; cbn [map emit_all].
  - unfold ret. now rewrite extend_nil.
  - unfold bind. rewrite emit_extend by reflexivity.
    rewrite IH, extend_app. reflexivity.
Qed.

Lemma dict_set_In {V : Type} (d : list (string * V)) (k : string) (v : V)
    (n : string) (x : V) :
  In (n, x) (dict_set d k v) -> (n = k /\ x = v) \/ In (n, x) d.
Proof.
  induction d as [|[k' v'] rest IH]; cbn [dict_set].
  - intros [H|[]]. inversion H. now left.
  - destruct (String.eqb k k').
    + intros [H|H]; [inversion H; now left|right; now right].
    + intros [H|H]; [right; now left|].
      destruct (IH H) as [Hl|Hr]; [now left|right; now right].
Qed.

Lemma dict_lookup_In {V : Type} (d : list (string * V)) (k : string) (v : V) :
  dict_lookup k d = Some v -> In (k, v) d.
Proof.
  induction d as [|[k' v'] rest IH]; cbn [dict_lookup]; [discriminate|].
  destruct (String.eqb_spec k k') as [->|_].
  - intros H. inversion H. now left.
  - intros H. right. now apply IH.
Qed.

Section FetchMore.
Context {B : Builtins}.
Variable backend : Backend.

Lemma process_metric_labelled (res : json) (df : DataFrame) (warnings : list exn) :
  process_metric res = Ok (df, warnings) -> forallb labelled df = true.
Proof.
  intros H. apply forallb_forall. intros r Hin.
  destruct (process_metric_rows res df warnings r H Hin) as [item Hp].
  destruct (parse_item_labels item r Hp) as [labels [Hm _]].
  unfold labelled. now rewrite Hm.
Qed.

Lemma process_metric_parser_exn (res : json) (e : exn) :
  process_metric res = Raise e -> parser_exn e.
Proof.
  intros H. unfold parser_exn.
  destruct (process_metric_raises res e H)
    as [_ [[-> _]|[->|(fields & dfields & coll & items & _ & _ & _ & _ & Hne & Hf)]]].
  - now left.
  - right. now left.
  - right. right. now exists (parsed items).
Qed.

(** What a run of the loop of [fetch_metrics] adds to the trace. *)
Lemma fetch_loop_extend :
  forall entries results w,
  exists r es,
    fetch_loop backend entries results w = (r, extend w es)
    /\ (requests es <= 124 * List.length entries)%nat
    /\ ((forall name q, In (name, q) entries -> no_redirect backend q) ->
        (requests es <= 4 * List.length entries)%nat)
    /\ cycles es = 0%nat
    /\ draws es = 0%nat
    /\ match r with
       | Ok _ => pauses es = List.length entries
                 /\ (List.length entries <= requests es)%nat
       | Raise e => (pauses es < List.length entries)%nat /\ parser_exn e
       end.
Proof.
  induction entries as [|[name q] rest IH]; intros results w.
  - exists (Ok results), []. cbn [fetch_loop]. unfold ret. rewrite extend_nil.
    repeat split; cbn; lia.
  - cbn [fetch_loop]. unfold bind at 1.
    destruct (query_extend backend q w) as (j & es & errs & Hq & Ha & Hr & Hnr & Herr).
    rewrite Hq.
    destruct (adapter_events_counts es Ha) as [Hp [_ Hc]].
    pose proof (adapter_events_draws es Ha) as Hdr.
    assert (He : requests errs = 0%nat /\ pauses errs = 0%nat
                 /\ cycles errs = 0%nat /\ draws errs = 0%nat)
      by (destruct Herr as [->|[e [-> _]]]; now repeat split).
    destruct He as [He1 [He2 [He3 He4]]].
    destruct (process_metric j) as [[df ws]|e] eqn:Ep.
    + unfold bind, sleep. rewrite emit_all_extend. rewrite emit_extend by reflexivity.
      destruct (IH (dict_set results name df)
                   (extend (extend (extend w (es ++ errs)) (map StWarning ws))
                           [Sleep 100]))
        as (r & es' & Hrun & Hreq & Hreq4 & Hcyc & Hdrw & Hres).
      rewrite Hrun, !extend_app.
      destruct (warnings_counts ws) as [Hw1 [Hw2 [Hw3 Hw4]]].
      exists r. eexists.
      split; [reflexivity|].
      rewrite !requests_app, !cycles_app, !pauses_app, !draws_app.
      rewrite He1, He2, He3, He4, Hw1, Hw2, Hw3, Hw4, Hp, Hc, Hdr, Hcyc, Hdrw.
      cbn [List.length requests cycles pauses draws filter
           is_request is_rendered is_pause is_drawn].
      change (100 =? 100) with true. cbn [List.length].
      split; [lia|]. split.
      { intros Hall.
        assert (H4 : (requests es <= 4)%nat)
          by (apply Hnr, (Hall name q); now left).
        assert (H4' : (requests es' <= 4 * List.length rest)%nat)
          by (apply Hreq4; intros n0 q0 Hin; apply (Hall n0 q0); now right).
        lia. }
      split; [reflexivity|]. split; [reflexivity|].
      destruct r as [data|e]; destruct Hres as [H1 H2]; split; try lia; assumption.
    + unfold bind. rewrite emit_all_extend. unfold ret. rewrite extend_app.
      destruct (warnings_counts (warned j)) as [Hw1 [Hw2 [Hw3 Hw4]]].
      exists (Raise e). eexists. split; [reflexivity|].
      rewrite !requests_app, !cycles_app, !pauses_app, !draws_app.
      rewrite He1, He2, He3, He4, Hw1, Hw2, Hw3, Hw4, Hp, Hc, Hdr.
      cbn [List.length]. split; [lia|]. split.
      { intros Hall.
        assert (H4 : (requests es <= 4)%nat)
          by (apply Hnr, (Hall name q); now left).
        lia. }
      split; [reflexivity|]. split; [reflexivity|].
      split; [lia|]. exact (process_metric_parser_exn j e Ep).
Qed.

Lemma fetch_loop_labelled :
  forall entries results data w w',
    (forall name df, In (name, df) results -> forallb labelled df = true) ->
    fetch_loop backend entries results w = (Ok data, w') ->
    forall name df, In (name, df) data -> forallb labelled df = true.
Proof.
  induction entries as [|[n1 q1] rest IH]; intros results data w w' Hres Hrun.
  - cbn in Hrun. inversion Hrun; subst. exact Hres.
  - destruct (fetch_loop_step backend _ _ _ _ _ _ _ Hrun) as (df1 & ws & w1 & Hp & Hrest).
    apply (IH _ _ _ _ (fun name df Hin =>
             match dict_set_In results n1 df1 name df Hin with
             | or_introl (conj _ Hd) =>
                 eq_ind_r (fun d => forallb labelled d = true)
                          (process_metric_labelled _ _ _ Hp) Hd
             | or_intror Hold => Hres name df Hold
             end) Hrest).
Qed.

Lemma fetched_frames_labelled (data : list (string * DataFrame)) (w w' : world)
    (name : string) :
  fetch_metrics backend w = (Ok data, w') ->
  forallb labelled (data_get data name) = true.
Proof.
  intros H. unfold data_get.
  destruct (dict_lookup name data) as [df|] eqn:E; [|reflexivity].
  apply (fetch_loop_labelled METRICS [] data w w' (fun _ _ Hin => match Hin with end) H name).
  now apply dict_lookup_In.
Qed.
End FetchMore.

(** When a fetch pass returns, the mapping has the ten names of the
    catalog as its keys, each once, in the catalog's order, whatever the
    backend did; so every name of the catalog can be looked up. *)
Theorem fetch_metrics_returns_catalog_keys :
  forall (B : Builtins) (backend : Backend) (w w' : world)
         (data : list (string * DataFrame)),
    fetch_metrics backend w = (Ok data, w') ->
    map fst data = map fst METRICS
    /\ NoDup (map fst data)
    /\ List.length data = 10%nat
    /\ (forall name, In name (map fst METRICS) ->
                     exists df, dict_lookup name data = Some df).
Proof.
  intros B backend w w' data H.
  pose proof (fetch_metrics_keys backend data w w' H) as Hk.
  split; [exact Hk|]. split; [rewrite Hk; apply METRICS_names_NoDup|].
  split; [rewrite <- (length_map fst), Hk; reflexivity|].
  intros name Hin. rewrite <- Hk in Hin. clear Hk H.
  induction data as [|[k v] rest IH]; [contradiction|].
  cbn [dict_lookup]. destruct (String.eqb_spec name k) as [->|Hne].
  - now exists v.
  - destruct Hin as [Heq|Hin]; [cbn in Heq; now symmetry in Heq|now apply IH].
Qed.

Lemma fetch_metrics_keys_witness :
  exists data w',
    @fetch_metrics reference healthy start = (Ok data, w')
    /\ map fst data = map fst METRICS
    /\ List.length data = 10%nat.
Proof.
  eexists. eexists. split; [vm_compute; reflexivity|].
  split.
  - refine (proj1 (fetch_metrics_returns_catalog_keys reference healthy start _ _ _)).
    vm_compute. reflexivity.
  - reflexivity.
Defined.

(** The pacing of a fetch pass.  When it returns it has sent at least 10
    requests and made exactly ten pauses of a tenth of a second, one after
    each query; when it raises, it has made fewer than ten.  It sends at
    most 40 requests when no query of the catalog is answered with a
    redirect, and at most 1240 whatever the backend answers. *)
Theorem fetch_metrics_pacing :
  forall (B : Builtins) (backend : Backend) (w : world),
    let run := fetch_metrics backend w in
    exists t,
      trace (snd run) = (trace w ++ t)%list
      /\ sent (snd run) = (sent w + requests t)%nat
      /\ (requests t <= 1240)%nat
      /\ ((forall name q, In (name, q) METRICS -> no_redirect backend q) ->
          (requests t <= 40)%nat)
      /\ match fst run with
         | Ok _ => pauses t = 10%nat /\ (10 <= requests t)%nat
         | Raise _ => (pauses t < 10)%nat
         end.
Proof.
  intros B backend w run. subst run. unfold fetch_metrics.
  destruct (fetch_loop_extend backend METRICS [] w)
    as (r & es & Hrun & Hreq & Hreq4 & _ & _ & Hres).
  rewrite Hrun. cbn [fst snd extend trace sent]. exists es.
  split; [reflexivity|]. split; [reflexivity|].
  split; [exact Hreq|]. split; [exact Hreq4|].
  destruct r; [exact Hres|exact (proj1 Hres)].
Qed.

Lemma fetch_metrics_pacing_witness :
  (forall name q, In (name, q) METRICS -> no_redirect healthy q)
  /\ exists t,
       trace (snd (@fetch_metrics reference healthy start)) = ([] ++ t)%list
       /\ (requests t <= 40)%nat
       /\ pauses t = 10%nat
       /\ (10 <= requests t)%nat.
Proof.
  assert (H : forall name q, In (name, q) METRICS -> no_redirect healthy q)
    by (intros name q _ n; reflexivity).
  split; [exact H|].
  destruct (fetch_metrics_pacing reference healthy start)
    as (t & Ht & _ & _ & H40 & Hres).
  exists t. split; [exact Ht|]. split; [exact (H40 H)|].
  destruct (fst (@fetch_metrics reference healthy start)) as [data|e] eqn:E;
    [exact Hres|vm_compute in E; discriminate E].
Defined.

(** The only exceptions that leave [fetch_metrics] are those of
    [process_metric]: its [KeyError], its [TypeError], and what the
    [DataFrame] constructor raises on a list of records.  No failure of a
    query, of whatever kind, leaves it. *)
Theorem fetch_metrics_escaping_exceptions :
  forall (B : Builtins) (backend : Backend) (w : world) (e : exn),
    fst (fetch_metrics backend w) = Raise e ->
    e = KeyError \/ e = TypeError
    \/ exists records, records <> [] /\ frame_error records = Some e.
Proof.
  intros B backend w e. unfold fetch_metrics.
  destruct (fetch_loop_extend backend METRICS [] w)
    as (r & es & Hrun & _ & _ & _ & _ & Hres).
  rewrite Hrun. cbn [fst]. intros ->. exact (proj2 Hres).
Qed.

Lemma fetch_metrics_escaping_witness :
  fst (@fetch_metrics reference data_without_result start) = Raise KeyError
  /\ (KeyError = KeyError \/ KeyError = TypeError
      \/ exists records, records <> [] /\ ref_frame_error records = Some KeyError).
Proof.
  split; [reflexivity|].
  exact (fetch_metrics_escaping_exceptions reference data_without_result start
           KeyError eq_refl).
Defined.

(** What a fetch pass returns can always be displayed, unless a
    [mountpoint] label of the [disk_space] frame is a list or a
    dictionary: every frame it returns has rows whose labels are mappings,
    so the only exception [display_metrics] can then raise is that
    [TypeError]. *)
Theorem fetched_data_displays :
  forall (B : Builtins) (backend : Backend) (w w' : world)
         (data : list (string * DataFrame)),
    fetch_metrics backend w = (Ok data, w') ->
    (forall name, forallb labelled (data_get data name) = true)
    /\ match display_metrics data with
       | Ok _ => existsb unhashable_mountpoint (data_get data "disk_space") = false
       | Raise e =>
           e = TypeError
           /\ existsb unhashable_mountpoint (data_get data "disk_space") = true
       end.
Proof.
  intros B backend w w' data H. split.
  - intros name. exact (fetched_frames_labelled backend data w w' name H).
  - pose proof (fetched_frames_labelled backend data w w' "disk_space" H) as Hl.
    pose proof (display_metrics_run data) as Hd.
    destruct (display_metrics data) as [v|e].
    + exact (proj2 Hd).
    + destruct Hd as [[_ Hf]|[He [_ Hu]]]; [congruence|now split].
Qed.

Lemma fetched_data_displays_witness :
  exists data w',
    @fetch_metrics reference healthy start = (Ok data, w')
    /\ match display_metrics data with
       | Ok _ => existsb unhashable_mountpoint (data_get data "disk_space") = false
       | Raise e =>
           e = TypeError
           /\ existsb unhashable_mountpoint (data_get data "disk_space") = true
       end.
Proof.
  destruct (@fetch_metrics reference healthy start) as [[data|e] w'] eqn:E;
    [|vm_compute in E; discriminate E].
  exists data, w'. split; [reflexivity|].
  exact (proj2 (fetched_data_displays reference healthy start w' data E)).
Defined.

Section MainMore.
Context {B : Builtins}.
Variable backend : Backend.

Lemma cycle_extend (auto_refresh : bool) (refresh_rate : Z) (w : world) :
  exists r es,
    cycle backend auto_refresh refresh_rate w = (r, extend w es)
    /\ (requests es <= 1240)%nat
    /\ ((forall name q, In (name, q) METRICS -> no_redirect backend q) ->
        (requests es <= 40)%nat)
    /\ match r with
       | Ok _ =>
           cycles es = 1%nat /\ draws es = 1%nat /\ (10 <= requests es)%nat
           /\ List.last es LastUpdated =
                Sleep (if auto_refresh then refresh_rate * 1000 else 1000)
       | Raise e => cycles es = 0%nat /\ (draws es <= 1)%nat /\ parser_exn e
       end.
Proof.
  unfold cycle, fetch_metrics. unfold bind at 1.
  destruct (fetch_loop_extend backend METRICS [] w)
    as (r0 & es & Hrun & Hreq & Hreq4 & Hcyc & Hdrw & Hres).
  rewrite Hrun. destruct r0 as [data|e].
  - pose proof (fetched_frames_labelled backend data w (extend w es) "disk_space" Hrun) as Hl.
    pose proof (display_metrics_run data) as Hd.
    unfold bind at 1. rewrite emit_extend by reflexivity.
    destruct (display_metrics data) as [v|e].
    + unfold bind. rewrite !emit_extend by reflexivity.
      assert (Hs : exists d, (if auto_refresh then sleep (refresh_rate * 1000) else sleep 1000)
                             = emit (Sleep d)
                             /\ d = (if auto_refresh then refresh_rate * 1000 else 1000))
        by (destruct auto_refresh; eexists; split; reflexivity).
      destruct Hs as [d [-> Hdd]]. rewrite emit_extend by reflexivity.
      unfold ret. rewrite !extend_app.
      exists (Ok tt). eexists. split; [reflexivity|].
      rewrite !requests_app, !cycles_app, !draws_app, Hcyc, Hdrw.
      cbn [List.length requests cycles draws filter
           is_request is_rendered is_drawn Nat.add]. rewrite !Nat.add_0_r.
      split; [exact Hreq|]. split; [exact Hreq4|].
      split; [reflexivity|]. split; [reflexivity|]. split; [apply Hres|].
      rewrite !app_assoc, last_last. now rewrite Hdd.
    + unfold ret. rewrite extend_app. exists (Raise e). eexists.
      split; [reflexivity|].
      rewrite !requests_app, !cycles_app, !draws_app, Hcyc, Hdrw.
      cbn [List.length requests cycles draws filter
           is_request is_rendered is_drawn Nat.add]. rewrite !Nat.add_0_r.
      split; [exact Hreq|]. split; [exact Hreq4|].
      split; [reflexivity|]. split; [lia|].
      destruct Hd as [[_ Hf]|[-> _]]; [congruence|right; now left].
  - unfold ret. exists (Raise e), es. split; [reflexivity|].
    split; [exact Hreq|]. split; [exact Hreq4|].
    split; [exact Hcyc|]. split; [lia|apply Hres].
Qed.

Lemma main_loop_extend (auto_refresh : bool) (refresh_rate : Z) :
  forall n w,
  exists r es,
    main_loop backend n auto_refresh refresh_rate w = (r, extend w es)
    /\ (requests es <= 1240 * n)%nat
    /\ ((forall name q, In (name, q) METRICS -> no_redirect backend q) ->
        (requests es <= 40 * n)%nat)
    /\ match r with
       | Ok _ => cycles es = n /\ draws es = n /\ (10 * n <= requests es)%nat
       | Raise e =>
           (cycles es < n)%nat /\ (cycles es <= draws es <= S (cycles es))%nat
           /\ parser_exn e
       end.
Proof.
  induction n as [|n IH]; intros w.
  - exists (Ok tt), []. cbn [main_loop]. unfold ret. rewrite extend_nil.
    repeat split; cbn; lia.
  - cbn [main_loop]. unfold bind.
    destruct (cycle_extend auto_refresh refresh_rate w)
      as (r1 & es1 & Hc & Hr1 & Hr14 & Hres1).
    rewrite Hc. destruct r1 as [u|e].
    + destruct (IH (extend w es1)) as (r & es & Hrun & Hr & Hr4 & Hres).
      rewrite Hrun, extend_app. exists r, (es1 ++ es)%list.
      split; [reflexivity|]. rewrite requests_app, cycles_app, draws_app.
      destruct Hres1 as [Hc1 [Hd1 [Hq1 _]]]. split; [lia|].
      split; [intros Hall; specialize (Hr14 Hall); specialize (Hr4 Hall); lia|].
      destruct r.
      * destruct Hres as [H1 [H2 H3]]. repeat split; lia.
      * destruct Hres as [H1 [H2 H3]]. split; [lia|]. split; [lia|exact H3].
    + unfold ret. exists (Raise e), es1. split; [reflexivity|].
      destruct Hres1 as [Hc1 [Hd1 He]]. split; [lia|].
      split; [intros Hall; specialize (Hr14 Hall); lia|].
      split; [lia|]. split; [lia|exact He].
Qed.
End MainMore.

(** The loop of [main], over its first [n] turns and against any backend.
    When none of them raises, [n] displays have been completed, with at
    least 10 requests each.  A turn that raises ends the loop with fewer
    than [n] displays completed; that turn may have drawn the panels
    above the storage panel, and it is the only one that can have drawn
    without completing; the exception is a [KeyError], a [TypeError], or
    what the [DataFrame] constructor raises on a list of records.  Each
    turn sends at most 40 requests when no query of the catalog is
    answered with a redirect, and at most 1240 whatever the backend
    answers. *)
Theorem main_loop_counts_cycles :
  forall (B : Builtins) (backend : Backend) (n : nat)
         (auto_refresh : bool) (refresh_rate : Z) (w : world),
    let run := main_loop backend n auto_refresh refresh_rate w in
    exists t,
      trace (snd run) = (trace w ++ t)%list
      /\ (requests t <= 1240 * n)%nat
      /\ ((forall name q, In (name, q) METRICS -> no_redirect backend q) ->
          (requests t <= 40 * n)%nat)
      /\ match fst run with
         | Ok _ => cycles t = n /\ draws t = n /\ (10 * n <= requests t)%nat
         | Raise e =>
             (cycles t < n)%nat
             /\ (cycles t <= draws t <= S (cycles t))%nat
             /\ (e = KeyError \/ e = TypeError
                 \/ exists records, records <> [] /\ frame_error records = Some e)
         end.
Proof.
  intros B backend n auto_refresh refresh_rate w run. subst run.
  destruct (main_loop_extend backend auto_refresh refresh_rate n w)
    as (r & es & Hrun & Hreq & Hreq4 & Hres).
  rewrite Hrun. cbn [fst snd extend trace]. exists es.
  split; [reflexivity|]. split; [exact Hreq|]. split; [exact Hreq4|].
  destruct r as [u|e]; exact Hres.
Qed.

Lemma main_loop_counts_witness :
  (forall name q, In (name, q) METRICS -> no_redirect healthy q)
  /\ exists t,
       trace (snd (@main_loop reference healthy 2 true 15 start)) = ([] ++ t)%list
       /\ (requests t <= 40 * 2)%nat
       /\ cycles t = 2%nat
       /\ draws t = 2%nat
       /\ (10 * 2 <= requests t)%nat.
Proof.
  assert (H : forall name q, In (name, q) METRICS -> no_redirect healthy q)
    by (intros name q _ n; reflexivity).
  split; [exact H|].
  destruct (main_loop_counts_cycles reference healthy 2 true 15 start)
    as (t & Ht & _ & H40 & Hres).
  exists t. split; [exact Ht|]. split; [exact (H40 H)|].
  destruct (fst (@main_loop reference healthy 2 true 15 start)) as [u|e] eqn:E;
    [exact Hres|vm_compute in E; discriminate E].
Defined.

(** Every turn of the loop that completes ends with one sleep, of
    [refresh_rate] seconds when "Auto Refresh" is ticked and of one second
    when it is not, after rendering once. *)
Theorem cycle_ends_with_its_sleep :
  forall (B : Builtins) (backend : Backend)
         (auto_refresh : bool) (refresh_rate : Z) (w w' : world),
    cycle backend auto_refresh refresh_rate w = (Ok tt, w') ->
    exists t,
      trace w' = (trace w ++ t)%list
      /\ cycles t = 1%nat
      /\ List.last t LastUpdated =
           Sleep (if auto_refresh then refresh_rate * 1000 else 1000).
Proof.
  intros B backend auto_refresh refresh_rate w w' H.
  destruct (cycle_extend backend auto_refresh refresh_rate w)
    as (r & es & Hc & _ & _ & Hres).
  rewrite H in Hc. inversion Hc; subst r w'. cbn [extend trace].
  exists es. split; [reflexivity|]. destruct Hres as [H1 [_ [_ H3]]]. now split.
Qed.

Lemma cycle_ends_with_its_sleep_witness :
  exists w' t,
    @cycle reference unreachable true 15 start = (Ok tt, w')
    /\ trace w' = ([] ++ t)%list
    /\ cycles t = 1%nat
    /\ List.last t LastUpdated = Sleep 15000.
Proof.
  destruct (@cycle reference unreachable true 15 start) as [[[]|e] w'] eqn:E;
    [|vm_compute in E; discriminate E].
  destruct (cycle_ends_with_its_sleep reference unreachable true 15 start w' E)
    as [t [H1 [H2 H3]]].
  exists w', t. now repeat split.
Defined.

(** The sidebar button.  [main] reports the connection as working exactly
    when the body of the answer to ["up"] is a dictionary whose ["data"] is
    truthy; a body that is truthy but not a dictionary (a list, a string,
    a number) raises [AttributeError] out of [main] before its loop
    starts. *)
Theorem main_button_verdict :
  forall (B : Builtins) (backend : Backend) (auto_refresh : bool)
         (refresh_rate : Z) (n : nat) (w : world),
    let j := fst (query backend prom_client "up" w) in
    let w1 := snd (query backend prom_client "up" w) in
    main backend true auto_refresh refresh_rate n w =
      match j with
      | JObj fields =>
          main_loop backend n auto_refresh refresh_rate
            (extend w1 [ConnectionTested
                          (match dict_lookup "data" fields with
                           | Some d => truthy d
                           | None => false
                           end)])
      | _ =>
          if truthy j then (Raise AttributeError, w1)
          else main_loop backend n auto_refresh refresh_rate
                 (extend w1 [ConnectionTested false])
      end.
Proof.
  intros B backend auto_refresh refresh_rate n w j w1. subst j w1.
  unfold main, test_connection, bind.
  destruct (query backend prom_client "up" w) as [j w1]. cbn [fst snd].
  assert (He : forall ok, emit (ConnectionTested ok) w1
                          = (tt, extend w1 [ConnectionTested ok]))
    by (intros ok; now apply emit_extend).
  destruct j as [|b|z|f|s|items|fields]; cbn [py_get];
    try (destruct (truthy _); cbv beta; rewrite ?He; reflexivity).
  destruct fields as [|kv fields']; cbn [truthy]; cbv beta; rewrite He;
    [reflexivity|].
  destruct (dict_lookup "data" (kv :: fields')); reflexivity.
Qed.
(** ** A failed query and the cycle it is part of *)

Section Survival.
Context {B : Builtins}.
Variable backend : Backend.

Lemma presentable_None : presentable JNull = true.
Proof. reflexivity. Qed.

(** A query whose requests are all failed or answered returns [None] or a
    presentable body. *)
Lemma query_presentable (q : string) :
  (forall n, failing (backend n q) || answered (backend n q) = true) ->
  forall w, presentable (fst (query backend prom_client q w)) = true.
Proof.
  intros Hall w.
  destruct (query_result backend q w) as [H|(n & status & ra & Hn & Hs)].
  - intros n. specialize (Hall n).
    destruct (backend n q); [exact I|discriminate|exact I].
  - rewrite H. apply presentable_None.
  - specialize (Hall n). rewrite Hn in Hall. cbn [failing answered] in Hall.
    rewrite Hs in Hall. cbn [orb] in Hall.
    apply andb_prop in Hall. exact (proj2 Hall).
Qed.

Lemma fetch_loop_survives :
  forall entries,
    (forall n name q, In (name, q) entries ->
                      failing (backend n q) || answered (backend n q) = true) ->
    forall results w,
      (forall name df, In (name, df) results ->
                       existsb unhashable_mountpoint df = false) ->
      exists data w',
        fetch_loop backend entries results w = (Ok data, w')
        /\ forall name df, In (name, df) data ->
                           existsb unhashable_mountpoint df = false.
Proof.
  induction entries as [|[name q] rest IH]; intros Hall results w Hres.
  - exists results, w. split; [reflexivity|exact Hres].
  - cbn [fetch_loop]. unfold bind at 1.
    pose proof (query_presentable q
                  (fun n => Hall n name q (or_introl eq_refl)) w) as Hp.
    destruct (query backend prom_client q w) as [j w1]. cbn [fst] in Hp.
    unfold presentable in Hp.
    destruct (process_metric j) as [[df ws]|e]; [|discriminate].
    apply negb_true_iff in Hp. unfold bind.
    destruct (emit_all (map StWarning ws) w1) as [u1 w2].
    destruct (sleep 100 w2) as [u2 w3].
    apply IH.
    + intros n name0 q0 Hin. apply (Hall n name0 q0). now right.
    + intros name0 df0 Hin.
      destruct (dict_set_In results name df name0 df0 Hin) as [[_ ->]|Hold];
        [exact Hp|exact (Hres name0 df0 Hold)].
Qed.

Lemma cycle_survives (auto_refresh : bool) (refresh_rate : Z) :
  (forall n name q, In (name, q) METRICS ->
                    failing (backend n q) || answered (backend n q) = true) ->
  forall w, fst (cycle backend auto_refresh refresh_rate w) = Ok tt.
Proof.
  intros Hall w. unfold cycle. unfold bind at 1.
  destruct (fetch_loop_survives METRICS Hall [] w (fun _ _ Hin => match Hin with end))
    as (data & w1 & Hrun & Hdata).
  change (fetch_metrics backend w = (Ok data, w1)) in Hrun.
  rewrite Hrun. unfold bind at 1.
  destruct (emit (Drawn (panels_above_storage data)) w1) as [u w2].
  pose proof (display_metrics_run data) as Hd.
  assert (Hu : existsb unhashable_mountpoint (data_get data "disk_space") = false).
  { unfold data_get. destruct (dict_lookup "disk_space" data) as [df|] eqn:E;
      [|reflexivity].
    exact (Hdata "disk_space" df (dict_lookup_In data "disk_space" df E)). }
  pose proof (fetched_frames_labelled backend data w w1 "disk_space" Hrun) as Hl.
  destruct (display_metrics data) as [v|e].
  - unfold bind. destruct (emit (Rendered v) w2) as [u3 w3].
    destruct (emit LastUpdated w3) as [u4 w4].
    destruct auto_refresh; [destruct (sleep (refresh_rate * 1000) w4)
                           |destruct (sleep 1000 w4)]; reflexivity.
  - destruct Hd as [[_ Hf]|[_ [_ Ht]]]; congruence.
Qed.

Lemma main_loop_survives (auto_refresh : bool) (refresh_rate : Z) :
  (forall n name q, In (name, q) METRICS ->
                    failing (backend n q) || answered (backend n q) = true) ->
  forall n w, fst (main_loop backend n auto_refresh refresh_rate w) = Ok tt.
Proof.
  intros Hall. induction n as [|n IH]; intros w; [reflexivity|].
  cbn [main_loop]. unfold bind.
  pose proof (cycle_survives auto_refresh refresh_rate Hall w) as Hc.
  destruct (cycle backend auto_refresh refresh_rate w) as [r w1]. cbn [fst] in Hc.
  subst r. apply IH.
Qed.

(** A turn of the loop that completes has displayed what its fetch pass
    returned. *)
Lemma cycle_inversion (auto_refresh : bool) (refresh_rate : Z) (w w' : world) :
  cycle backend auto_refresh refresh_rate w = (Ok tt, w') ->
  exists data w1 v,
    fetch_metrics backend w = (Ok data, w1)
    /\ display_metrics data = Ok v
    /\ trace w' =
         (trace w1 ++
          [Drawn (panels_above_storage data); Rendered v; LastUpdated;
           Sleep (if auto_refresh then refresh_rate * 1000 else 1000)])%list.
Proof.
  unfold cycle. unfold bind at 1.
  destruct (fetch_metrics backend w) as [[data|e] w1]; [|discriminate].
  unfold bind at 1. cbn [emit].
  destruct (display_metrics data) as [v|e] eqn:Ev; [|discriminate].
  intros H. exists data, w1, v. split; [reflexivity|]. split; [exact Ev|].
  destruct auto_refresh; cbn in H; inversion H; cbn [trace];
    now rewrite <- !app_assoc.
Qed.
End Survival.

(** C7. A query that fails (that returns [None]) leaves an empty frame
    under its metric's name and the loop of [fetch_metrics] goes on with
    the next entry; when the pass returns, the entry of every query the
    backend fails is the empty frame.  A failed query does not end the
    turn of the loop of [main] it is part of: when each query of the
    catalog either fails or is answered, whichever of them fail and
    however many, every turn sends its queries, completes its display and
    the loop goes on.  A turn that completes has displayed the mapping its
    fetch pass returned, where the frames of the failed queries are
    empty. *)
Theorem failed_query_gives_empty_entry_and_loop_goes_on :
  forall (B : Builtins) (backend : Backend),
    (forall name q rest results w,
        fst (query backend prom_client q w) = JNull ->
        fetch_loop backend ((name, q) :: rest) results w =
        fetch_loop backend rest (dict_set results name [])
                   (snd (sleep 100 (snd (query backend prom_client q w)))))
    /\ (forall name q data w w',
          In (name, q) METRICS ->
          (forall n, failing (backend n q) = true) ->
          fetch_metrics backend w = (Ok data, w') ->
          dict_lookup name data = Some [])
    /\ ((forall n name q,
           In (name, q) METRICS ->
           failing (backend n q) || answered (backend n q) = true) ->
        forall n auto_refresh refresh_rate w,
        exists w' t,
          main_loop backend n auto_refresh refresh_rate w = (Ok tt, w')
          /\ trace w' = (trace w ++ t)%list
          /\ cycles t = n
          /\ (10 * n <= requests t)%nat)
    /\ (forall auto_refresh refresh_rate w w',
          cycle backend auto_refresh refresh_rate w = (Ok tt, w') ->
          exists data w1 v,
            fetch_metrics backend w = (Ok data, w1)
            /\ display_metrics data = Ok v
            /\ trace w' =
                 (trace w1 ++
                  [Drawn (panels_above_storage data); Rendered v; LastUpdated;
                   Sleep (if auto_refresh then refresh_rate * 1000 else 1000)])%list).
Proof.
  intros B backend. split; [|split; [|split]].
  - intros name q rest results w Hfail.
    now apply fetch_loop_failed_query.
  - intros name q data w w' Hin Hfail Hrun.
    exact (fetch_loop_failed_entry backend name q Hfail METRICS [] data w w'
             METRICS_names_NoDup Hin Hrun).
  - intros Hall n auto_refresh refresh_rate w.
    pose proof (main_loop_survives backend auto_refresh refresh_rate Hall n w) as Hok.
    destruct (main_loop_extend backend auto_refresh refresh_rate n w)
      as (r & es & Hrun & _ & _ & Hres).
    rewrite Hrun in Hok. cbn [fst] in Hok. subst r.
    exists (extend w es), es. split; [exact Hrun|]. split; [reflexivity|].
    destruct Hres as [Hc [_ Hq]]. now split.
  - intros auto_refresh refresh_rate w w'. apply cycle_inversion.
Qed.

Lemma failed_query_witness :
  (forall n name q,
     In (name, q) METRICS ->
     failing (network_in_down n q) || @answered reference (network_in_down n q) = true)
  /\ (forall n, failing (network_in_down n (catalog_query "network_in")) = true)
  /\ (exists w' t,
        @main_loop reference network_in_down 2 true 15 start = (Ok tt, w')
        /\ trace w' = ([] ++ t)%list
        /\ cycles t = 2%nat
        /\ (10 * 2 <= requests t)%nat)
  /\ (forall data w',
        @fetch_metrics reference network_in_down start = (Ok data, w') ->
        dict_lookup "network_in" data = Some [])
  /\ (let run := @cycle reference network_in_down true 15 start in
      fst run = Ok tt /\ requests (trace (snd run)) = 13%nat)
  /\ option_map (map (fun kv => (fst kv, List.length (snd kv))))
       (match fst (@fetch_metrics reference network_in_down start) with
        | Ok data => Some data
        | Raise _ => None
        end)
     = Some [("cpu_usage", 1%nat); ("memory_usage", 1%nat); ("cpu_by_mode", 1%nat);
             ("network_in", 0%nat); ("network_out", 1%nat);
             ("network_errors", 1%nat); ("disk_reads", 1%nat);
             ("disk_writes", 1%nat); ("disk_io_time", 1%nat);
             ("disk_space", 1%nat)].
Proof.
  pose proof (failed_query_gives_empty_entry_and_loop_goes_on reference network_in_down)
    as [_ [Hentry [Hloop _]]].
  assert (Hall : forall n name q,
             In (name, q) METRICS ->
             failing (network_in_down n q)
             || @answered reference (network_in_down n q) = true).
  { intros n name q Hin. unfold METRICS in Hin. cbn [In] in Hin.
    repeat (destruct Hin as [Hin|Hin]; [inversion Hin; reflexivity|]).
    contradiction. }
  split; [exact Hall|]. split; [intros n; reflexivity|].
  split; [exact (Hloop Hall 2%nat true 15 start)|].
  split.
  - intros data w'.
    apply (Hentry "network_in" (catalog_query "network_in") data start w');
      [cbn; tauto|intros n; reflexivity].
  - split; [split; reflexivity|reflexivity].
Defined.
